(** * nuki_hub: the MQTT session manager of [Network.cpp]

    A shallow embedding of the connection state machine, the inbound
    dispatch router and the topic path builder of [src/Network.cpp],
    with the properties the specification states about them.

    Conventions of the embedding.
    - A C string ([const char*], Arduino [String]) is the Rocq [string] of
      its characters before the terminator; a byte buffer that may hold
      NUL bytes is a [list ascii] and is read as a C string with [C.cstr].
    - [unsigned long] is 32 bits wide on the ESP32: a [Z] in [0, 2^32)
      with the wrap-around written out ([C.wrap]).
    - Fixed-size [char] arrays are assumed large enough for what is
      written into them; capacities are not modelled.
    - Log output is not modelled. *)

From Stdlib Require Import ZArith String Ascii List Bool Lia DecimalString.
Import ListNotations.

Local Open Scope string_scope.
Local Open Scope list_scope.

(** ** Topic path builder ([Network::buildMqttPath]) *)

Module PathBuilder.

(** The loop state of [buildMqttPath]: the output array, [offset] and
    [pathCount]. *)
Record Cursor := mkCursor {
  outPath : list ascii;
  offset : nat;
  pathCount : nat
}.

(** [outPath[i] = c] *)
Definition store (buf : list ascii) (i : nat) (c : ascii) : list ascii :=
  firstn i buf ++ c :: skipn (S i) buf.

(** [outPath[offset] = c; ++offset;] *)
Definition emit (c : ascii) (st : Cursor) : Cursor :=
  {| outPath := store (outPath st) (offset st) c;
     offset := S (offset st);
     pathCount := pathCount st |}.

(** [path[0]]; the terminator when the fragment is empty. *)
Definition first_char (path : string) : ascii :=
  match path with
  | String c _ => c
  | EmptyString => zero
  end.

(** [while(path[i] != 0) { outPath[offset] = path[i]; ++offset; ++i; }] *)
Fixpoint copy_fragment (path : string) (st : Cursor) : Cursor :=
  match path with
  | EmptyString => st
  | String c rest => copy_fragment rest (emit c st)
  end.

(** The body of [for(const char* path : paths)]. *)
Definition add_fragment (st : Cursor) (path : string) : Cursor :=
  let st1 :=
    if (0 <? pathCount st)%nat && negb (Ascii.eqb (first_char path) "/")
    then emit "/" st else st in
  let st2 := copy_fragment path st1 in
  {| outPath := outPath st2; offset := offset st2;
     pathCount := S (pathCount st2) |}.

(** The whole function, on an output array with arbitrary prior
    contents [buf]; the result is the C string left in [outPath] once
    [outPath[offset] = 0x00] has been written. *)
Definition buildMqttPath_in (buf : list ascii) (paths : list string) : string :=
  let st := fold_left add_fragment paths (mkCursor buf 0 0) in
  string_of_list_ascii
    (firstn (offset st) (store (outPath st) (offset st) zero)).

(** The callers' arrays differ in size and initialisation; the result
    does not depend on either ([buildMqttPath_in_eq] below), so the
    callers are modelled with an empty array. *)
Definition buildMqttPath (paths : list string) : string :=
  buildMqttPath_in [] paths.

(** What a fragment after the first contributes. *)
Definition joined (path : string) : string :=
  if Ascii.eqb (first_char path) "/" then path else String "/" path.

(** The characters written so far, [outPath[0..offset)]. *)
Definition written (st : Cursor) : list ascii := firstn (offset st) (outPath st).

Definition well_formed (st : Cursor) : Prop :=
  length (written st) = offset st.

(** Concatenation of a list of strings. *)
Definition flat (l : list string) : string :=
  fold_right String.append "" l.

(** The path builder as the specification words it: one separator
    between adjacent fragments, whatever separators the fragments
    carry at their ends. *)
Fixpoint strip_leading (s : string) : string :=
  match s with
  | String c rest => if Ascii.eqb c "/" then strip_leading rest else s
  | EmptyString => EmptyString
  end.

Definition rev_string (s : string) : string :=
  string_of_list_ascii (rev (list_ascii_of_string s)).

Definition strip_trailing (s : string) : string :=
  rev_string (strip_leading (rev_string s)).

Definition spec_join2 (a b : string) : string :=
  (strip_trailing a ++ "/" ++ strip_leading b)%string.

End PathBuilder.

Import PathBuilder.

(** ** Machine integers and C strings *)

Module C.

(** [unsigned long] arithmetic: 32 bits, wrapping. *)
Definition wrap (z : Z) : Z := (z mod 2 ^ 32)%Z.

(** Conversion to [uint8_t]. *)
Definition uint8 (z : Z) : Z := (z mod 2 ^ 8)%Z.

(** [std::to_string], [itoa(_, _, 10)] and [utoa(_, _, 10)]: decimal
    digits, a minus sign for negative values, no leading zeros. *)
Definition to_string (z : Z) : string :=
  DecimalString.NilZero.string_of_int (Z.to_int z).

(** A byte buffer read as a C string: the bytes before the first NUL. *)
Fixpoint cstr (buf : list ascii) : string :=
  match buf with
  | [] => EmptyString
  | c :: rest => if Ascii.eqb c zero then EmptyString else String c (cstr rest)
  end.

(** [s[i]]; the terminator at and (by convention of the model) after
    the end of the string. *)
Definition char_at (s : string) (i : nat) : ascii :=
  match String.get i s with
  | Some c => c
  | None => zero
  end.

(** [strncmp(a, b, n) == 0] *)
Fixpoint strncmp_eq (a b : string) (n : nat) : bool :=
  match n with
  | O => true
  | S n' =>
      match a, b with
      | EmptyString, EmptyString => true
      | String x a', String y b' => Ascii.eqb x y && strncmp_eq a' b' n'
      | _, _ => false
      end
  end.

Definition is_space (c : ascii) : bool :=
  let n := nat_of_ascii c in
  (n =? 32)%nat || ((9 <=? n)%nat && (n <=? 13)%nat).

Definition digit_of (c : ascii) : option Z :=
  let n := nat_of_ascii c in
  if (48 <=? n)%nat && (n <=? 57)%nat then Some (Z.of_nat n - 48)%Z else None.

Fixpoint skip_spaces (s : string) : string :=
  match s with
  | String c rest => if is_space c then skip_spaces rest else s
  | EmptyString => EmptyString
  end.

Fixpoint digits_value (acc : Z) (s : string) : Z :=
  match s with
  | String c rest =>
      match digit_of c with
      | Some d => digits_value (10 * acc + d)%Z rest
      | None => acc
      end
  | EmptyString => acc
  end.

(** [std::atoi]: leading white space, an optional sign, then digits;
    0 when there is no digit. *)
Definition atoi (s : string) : Z :=
  match skip_spaces s with
  | String "-" rest => (- digits_value 0 rest)%Z
  | String "+" rest => digits_value 0 rest
  | t => digits_value 0 t
  end.

End C.

(** ** Enumerations and external collaborators *)

Inductive NetworkDeviceType :=
| WiFi | W5500 | Olimex_LAN8720 | WT32_LAN8720
| M5STACK_PoESP32_Unit | LilyGO_T_ETH_POE.

Inductive RestartReason :=
| RestartOnDisconnectWatchdog
| NetworkTimeoutWatchdog
| NetworkDeviceCriticalFailure
| NetworkDeviceCriticalFailureNoWifiFallback.

Inductive ReconnectStatus := Failure | Success | CriticalFailure.

(** The pin roles [Network.cpp] distinguishes; every other role of
    [Gpio.h] is [OtherRole]. *)
Inductive PinRole :=
| GeneralOutput | GeneralInputPullDown | GeneralInputPullUp | OtherRole.

Definition PinRole_eqb (a b : PinRole) : bool :=
  match a, b with
  | GeneralOutput, GeneralOutput
  | GeneralInputPullDown, GeneralInputPullDown
  | GeneralInputPullUp, GeneralInputPullUp
  | OtherRole, OtherRole => true
  | _, _ => false
  end.

(** What the transport may call back while it is pumped: the connect
    and disconnect acknowledgements and inbound messages
    ([properties] are never read by [Network.cpp] and are left out). *)
Inductive Callback :=
| OnConnect (sessionPresent : bool)
| OnDisconnect
| OnMessage (topic : string) (payload : list ascii) (index total : Z).

(** The transport capability set ([NetworkDevice]), over an abstract
    device state. *)
Class NetworkDevice (D : Type) := {
  dev_update : D -> list Callback * D;
  dev_isConnected : D -> bool;
  dev_reconnect : D -> ReconnectStatus * D;
  dev_mqttConnected : D -> bool;
  dev_mqttConnect : D -> D;
  dev_mqttDisconnect : bool -> D -> D;
  dev_mqttPublish : string -> Z -> bool -> string -> D -> Z * D;
  dev_mqttSubscribe : string -> Z -> D -> Z * D;
  dev_mqttSetCredentials : string -> string -> D -> D;
  dev_mqttSetServer : string -> Z -> D -> D;
  dev_setWill : string -> Z -> bool -> string -> D -> D;
  dev_mqttOnMessage : D -> D;
  dev_printError : D -> D;
  dev_disableMqtt : D -> D;
  dev_signalStrength : D -> Z;
  dev_localIP : D -> string;
  dev_deviceName : D -> string
}.

(** Calls that leave the session manager, in the order they are made. *)
Inductive Event :=
| MqttSetCredentials (user pass : string)
| SetWill (topic : string) (qos : Z) (retain : bool) (payload : string)
| MqttSetServer (host : string) (port : Z)
| MqttConnect
| MqttDisconnect (force : bool)
| MqttOnMessage
| MqttSubscribe (topic : string) (qos : Z)
| MqttPublish (topic : string) (qos : Z) (retain : bool) (payload : string)
| PrintError
| DisableMqtt
| DeviceReconnect
| KeepAlive (callback : nat)
| Reconnected (callback : nat)
| Deliver (receiver : nat) (topic : string) (payload : list ascii) (length : Z)
| DigitalWrite (pin : Z) (high : bool)
| HttpsGet.

(** Constants of headers that are not part of [Network.cpp]. *)
Module Consts.

(** Modelled from the spec: [Config.h] is not under src; the
    specification only says that the QoS level is fixed and gives 1
    for the last will. *)
Definition MQTT_QOS_LEVEL : Z := 1.

(** Modelled from the spec: [MqttTopics.h] is not under src; the
    topic namespace of the specification ([gpio/pin_<n>/state],
    [maintenance/...]) and the comment in [parseGpioTopics] give the
    fragments. *)
Definition mqtt_topic_gpio_prefix : string := "/gpio".
Definition mqtt_topic_gpio_pin : string := "/pin_".
Definition mqtt_topic_gpio_role : string := "/role".
Definition mqtt_topic_gpio_state : string := "/state".
Definition mqtt_topic_mqtt_connection_state : string := "/mqtt/connectionState".
Definition mqtt_topic_network_device : string := "/network_device".
Definition mqtt_topic_info_nuki_hub_ip : string := "/info_nuki_hub_ip".
Definition mqtt_topic_info_nuki_hub_version : string := "/info_nuki_hub_version".
Definition mqtt_topic_info_nuki_hub_latest : string := "/info_nuki_hub_latest".
Definition mqtt_topic_wifi_rssi : string := "/wifi_rssi".
Definition mqtt_topic_uptime : string := "/uptime".
Definition mqtt_topic_freeheap : string := "/freeheap".
Definition mqtt_topic_restart_reason_fw : string := "/restart_reason_fw".
Definition mqtt_topic_restart_reason_esp : string := "/restart_reason_esp".
Definition mqtt_topic_presence : string := "/presence/devices".
Definition NUKI_HUB_VERSION : string := "8.x".
Definition GPIO_DEBOUNCE_TIME : Z := 200.

End Consts.

Import Consts.

(** ** State *)

(** The persisted preferences [Network.cpp] reads after start-up. *)
Record Preferences := mkPreferences {
  preference_network_hardware : Z;
  preference_network_wifi_fallback_disabled : bool;
  preference_mqtt_broker_port : Z;
  preference_check_updates : bool;
  preference_latest_version : string
}.

(** The fields of [Network] that drive the connection state machine. *)
Record Session := mkSession {
  _mqttEnabled : bool;
  _mqttConnectionState : Z;
  _connectReplyReceived : bool;
  _firstConnect : bool;
  _nextReconnect : Z;
  _lastConnectedTs : Z;
  _ignoreSubscriptionsTs : Z;
  _networkTimeout : Z;
  _restartOnDisconnect : bool
}.

(** The fields set by the constructor and [initialize] and only read
    afterwards. *)
Record Settings := mkSettings {
  _mqttBrokerAddr : string;
  _mqttUser : string;
  _mqttPass : string;
  _mqttConnectionStateTopic : string;
  _lastWillPayload : string;
  _maintenancePathPrefix : string;
  _lockPath : string;
  _mqttPresencePrefix : string;
  _rssiPublishInterval : Z;
  _publishDebugInfo : bool
}.

(** The registered topics and handlers. Receivers and callbacks are
    opaque to [Network.cpp]; each is a handle whose invocation is an
    [Event]. [_initTopics] is a [std::map]: ordered by key, one entry
    per key. [_messageHandler] is whether [mqttOnMessage] has installed
    [onMqttDataReceivedCallback] in the transport. *)
Record Registry := mkRegistry {
  _subscribedTopics : list string;
  _initTopics : list (string * string);
  _mqttReceivers : list nat;
  _reconnectedCallbacks : list nat;
  _keepAliveCallback : option nat;
  _messageHandler : bool
}.

(** The fields of the periodic publishing at the end of [update]. *)
Record Telemetry := mkTelemetry {
  _presenceCsv : option string;
  _lastRssiTs : Z;
  _lastRssi : Z;
  _lastMaintenanceTs : Z;
  _lastUpdateCheckTs : Z;
  _latestVersion : string;
  _gpioTs : list (Z * Z);
  _versionPublished : bool
}.

(** The board around the session manager: the millisecond clock, with
    [drift] the time that passes before each coming read of [millis()];
    the reboot-surviving [WiFi_fallbackDetect] region; the preferences;
    the GPIO subsystem; and what the platform reports. *)
Record Board := mkBoard {
  clock : Z;
  drift : list Z;
  WiFi_fallbackDetect : string;
  preferences : Preferences;
  getPinRole : Z -> PinRole;
  digitalRead : Z -> bool;
  esp_get_free_heap_size : Z;
  getRestartReason : string;
  getEspRestartReason : string;
  latestRelease : option string
}.

Record World (D : Type) := mkWorld {
  session : Session;
  settings : Settings;
  registry : Registry;
  telemetry : Telemetry;
  board : Board;
  device : D;
  trace : list Event
}.

Arguments mkWorld {D}.
Arguments session {D}.
Arguments settings {D}.
Arguments registry {D}.
Arguments telemetry {D}.
Arguments board {D}.
Arguments device {D}.
Arguments trace {D}.

Section Updates.

Context {D : Type}.

Definition with_session (f : Session -> Session) (w : World D) : World D :=
  mkWorld (f (session w)) (settings w) (registry w) (telemetry w)
          (board w) (device w) (trace w).

Definition with_registry (f : Registry -> Registry) (w : World D) : World D :=
  mkWorld (session w) (settings w) (f (registry w)) (telemetry w)
          (board w) (device w) (trace w).

Definition with_telemetry (f : Telemetry -> Telemetry) (w : World D) : World D :=
  mkWorld (session w) (settings w) (registry w) (f (telemetry w))
          (board w) (device w) (trace w).

Definition with_board (f : Board -> Board) (w : World D) : World D :=
  mkWorld (session w) (settings w) (registry w) (telemetry w)
          (f (board w)) (device w) (trace w).

Definition with_device (d : D) (w : World D) : World D :=
  mkWorld (session w) (settings w) (registry w) (telemetry w)
          (board w) d (trace w).

Definition log (e : Event) (w : World D) : World D :=
  mkWorld (session w) (settings w) (registry w) (telemetry w)
          (board w) (device w) (trace w ++ [e]).

End Updates.

Definition set_mqttEnabled (v : bool) (s : Session) : Session :=
  mkSession v (_mqttConnectionState s) (_connectReplyReceived s) (_firstConnect s)
    (_nextReconnect s) (_lastConnectedTs s) (_ignoreSubscriptionsTs s)
    (_networkTimeout s) (_restartOnDisconnect s).

Definition set_mqttConnectionState (v : Z) (s : Session) : Session :=
  mkSession (_mqttEnabled s) v (_connectReplyReceived s) (_firstConnect s)
    (_nextReconnect s) (_lastConnectedTs s) (_ignoreSubscriptionsTs s)
    (_networkTimeout s) (_restartOnDisconnect s).

Definition set_connectReplyReceived (v : bool) (s : Session) : Session :=
  mkSession (_mqttEnabled s) (_mqttConnectionState s) v (_firstConnect s)
    (_nextReconnect s) (_lastConnectedTs s) (_ignoreSubscriptionsTs s)
    (_networkTimeout s) (_restartOnDisconnect s).

Definition set_firstConnect (v : bool) (s : Session) : Session :=
  mkSession (_mqttEnabled s) (_mqttConnectionState s) (_connectReplyReceived s) v
    (_nextReconnect s) (_lastConnectedTs s) (_ignoreSubscriptionsTs s)
    (_networkTimeout s) (_restartOnDisconnect s).

Definition set_nextReconnect (v : Z) (s : Session) : Session :=
  mkSession (_mqttEnabled s) (_mqttConnectionState s) (_connectReplyReceived s)
    (_firstConnect s) v (_lastConnectedTs s) (_ignoreSubscriptionsTs s)
    (_networkTimeout s) (_restartOnDisconnect s).

Definition set_lastConnectedTs (v : Z) (s : Session) : Session :=
  mkSession (_mqttEnabled s) (_mqttConnectionState s) (_connectReplyReceived s)
    (_firstConnect s) (_nextReconnect s) v (_ignoreSubscriptionsTs s)
    (_networkTimeout s) (_restartOnDisconnect s).

Definition set_ignoreSubscriptionsTs (v : Z) (s : Session) : Session :=
  mkSession (_mqttEnabled s) (_mqttConnectionState s) (_connectReplyReceived s)
    (_firstConnect s) (_nextReconnect s) (_lastConnectedTs s) v
    (_networkTimeout s) (_restartOnDisconnect s).

Definition set_autoRestarts (timeout : Z) (onDisconnect : bool) (s : Session) : Session :=
  mkSession (_mqttEnabled s) (_mqttConnectionState s) (_connectReplyReceived s)
    (_firstConnect s) (_nextReconnect s) (_lastConnectedTs s)
    (_ignoreSubscriptionsTs s) timeout onDisconnect.

Definition set_subscribedTopics (v : list string) (r : Registry) : Registry :=
  mkRegistry v (_initTopics r) (_mqttReceivers r) (_reconnectedCallbacks r)
    (_keepAliveCallback r) (_messageHandler r).

Definition set_initTopics (v : list (string * string)) (r : Registry) : Registry :=
  mkRegistry (_subscribedTopics r) v (_mqttReceivers r) (_reconnectedCallbacks r)
    (_keepAliveCallback r) (_messageHandler r).

Definition set_mqttReceivers (v : list nat) (r : Registry) : Registry :=
  mkRegistry (_subscribedTopics r) (_initTopics r) v (_reconnectedCallbacks r)
    (_keepAliveCallback r) (_messageHandler r).

Definition set_reconnectedCallbacks (v : list nat) (r : Registry) : Registry :=
  mkRegistry (_subscribedTopics r) (_initTopics r) (_mqttReceivers r) v
    (_keepAliveCallback r) (_messageHandler r).

Definition set_keepAliveCallback (v : option nat) (r : Registry) : Registry :=
  mkRegistry (_subscribedTopics r) (_initTopics r) (_mqttReceivers r)
    (_reconnectedCallbacks r) v (_messageHandler r).

Definition set_messageHandler (v : bool) (r : Registry) : Registry :=
  mkRegistry (_subscribedTopics r) (_initTopics r) (_mqttReceivers r)
    (_reconnectedCallbacks r) (_keepAliveCallback r) v.

Definition set_presenceCsv (v : option string) (t : Telemetry) : Telemetry :=
  mkTelemetry v (_lastRssiTs t) (_lastRssi t) (_lastMaintenanceTs t)
    (_lastUpdateCheckTs t) (_latestVersion t) (_gpioTs t) (_versionPublished t).

Definition set_lastRssiTs (v : Z) (t : Telemetry) : Telemetry :=
  mkTelemetry (_presenceCsv t) v (_lastRssi t) (_lastMaintenanceTs t)
    (_lastUpdateCheckTs t) (_latestVersion t) (_gpioTs t) (_versionPublished t).

Definition set_lastRssi (v : Z) (t : Telemetry) : Telemetry :=
  mkTelemetry (_presenceCsv t) (_lastRssiTs t) v (_lastMaintenanceTs t)
    (_lastUpdateCheckTs t) (_latestVersion t) (_gpioTs t) (_versionPublished t).

Definition set_lastMaintenanceTs (v : Z) (t : Telemetry) : Telemetry :=
  mkTelemetry (_presenceCsv t) (_lastRssiTs t) (_lastRssi t) v
    (_lastUpdateCheckTs t) (_latestVersion t) (_gpioTs t) (_versionPublished t).

Definition set_lastUpdateCheckTs (v : Z) (t : Telemetry) : Telemetry :=
  mkTelemetry (_presenceCsv t) (_lastRssiTs t) (_lastRssi t) (_lastMaintenanceTs t)
    v (_latestVersion t) (_gpioTs t) (_versionPublished t).

Definition set_latestVersion (v : string) (t : Telemetry) : Telemetry :=
  mkTelemetry (_presenceCsv t) (_lastRssiTs t) (_lastRssi t) (_lastMaintenanceTs t)
    (_lastUpdateCheckTs t) v (_gpioTs t) (_versionPublished t).

Definition set_gpioTs (v : list (Z * Z)) (t : Telemetry) : Telemetry :=
  mkTelemetry (_presenceCsv t) (_lastRssiTs t) (_lastRssi t) (_lastMaintenanceTs t)
    (_lastUpdateCheckTs t) (_latestVersion t) v (_versionPublished t).

Definition set_versionPublished (v : bool) (t : Telemetry) : Telemetry :=
  mkTelemetry (_presenceCsv t) (_lastRssiTs t) (_lastRssi t) (_lastMaintenanceTs t)
    (_lastUpdateCheckTs t) (_latestVersion t) (_gpioTs t) v.

Definition set_clock (c : Z) (d : list Z) (b : Board) : Board :=
  mkBoard c d (WiFi_fallbackDetect b) (preferences b) (getPinRole b)
    (digitalRead b) (esp_get_free_heap_size b) (getRestartReason b)
    (getEspRestartReason b) (latestRelease b).

Definition set_WiFi_fallbackDetect (v : string) (b : Board) : Board :=
  mkBoard (clock b) (drift b) v (preferences b) (getPinRole b)
    (digitalRead b) (esp_get_free_heap_size b) (getRestartReason b)
    (getEspRestartReason b) (latestRelease b).

Definition set_preferences (v : Preferences) (b : Board) : Board :=
  mkBoard (clock b) (drift b) (WiFi_fallbackDetect b) v (getPinRole b)
    (digitalRead b) (esp_get_free_heap_size b) (getRestartReason b)
    (getEspRestartReason b) (latestRelease b).

Definition put_latest_version (v : string) (p : Preferences) : Preferences :=
  mkPreferences (preference_network_hardware p)
    (preference_network_wifi_fallback_disabled p)
    (preference_mqtt_broker_port p) (preference_check_updates p) v.

Definition put_network_hardware (v : Z) (p : Preferences) : Preferences :=
  mkPreferences v (preference_network_wifi_fallback_disabled p)
    (preference_mqtt_broker_port p) (preference_check_updates p)
    (preference_latest_version p).

(** [m[k] = v] on a [std::map] kept as a key-ordered association list. *)
Fixpoint string_map_put (k v : string) (m : list (string * string)) : list (string * string) :=
  match m with
  | [] => [(k, v)]
  | (k', v') :: rest =>
      match String.compare k k' with
      | Lt => (k, v) :: m
      | Eq => (k, v) :: rest
      | Gt => (k', v') :: string_map_put k v rest
      end
  end.

Fixpoint Z_map_put (k v : Z) (m : list (Z * Z)) : list (Z * Z) :=
  match m with
  | [] => [(k, v)]
  | (k', v') :: rest =>
      match Z.compare k k' with
      | Lt => (k, v) :: m
      | Eq => (k, v) :: rest
      | Gt => (k', v') :: Z_map_put k v rest
      end
  end.

(** The value a key of the map holds (0 for a key that is absent). *)
Fixpoint Z_map_get (k : Z) (m : list (Z * Z)) : Z :=
  match m with
  | [] => 0%Z
  | (k', v) :: rest => if (k =? k')%Z then v else Z_map_get k rest
  end.

(** ** The monad of the embedding

    A member function either returns, with a value and the next world,
    or ends in [restartEsp], which does not return; the loops that wait
    on the clock or on the transport carry fuel. *)

Inductive Outcome (W A : Type) :=
| Done (a : A) (w : W)
| Restarted (reason : RestartReason) (w : W)
| OutOfFuel.

Arguments Done {W A}.
Arguments Restarted {W A}.
Arguments OutOfFuel {W A}.

Definition M (D A : Type) : Type := World D -> Outcome (World D) A.

Definition ret {D A} (a : A) : M D A := fun w => Done a w.

Definition bind {D A B} (c : M D A) (k : A -> M D B) : M D B :=
  fun w =>
    match c w with
    | Done a w' => k a w'
    | Restarted r w' => Restarted r w'
    | OutOfFuel => OutOfFuel
    end.

Notation "x <- c ;; k" := (bind c (fun x => k))
  (at level 61, c at next level, right associativity).
Notation "c ;;; k" := (bind c (fun _ => k))
  (at level 61, right associativity).

(** [for(x : xs) body(x)] *)
Fixpoint for_each {D A} (xs : list A) (body : A -> M D unit) : M D unit :=
  match xs with
  | [] => ret tt
  | x :: rest => body x ;;; for_each rest body
  end.

Definition modify {D} (f : World D -> World D) : M D unit :=
  fun w => Done tt (f w).

Definition when {D} (b : bool) (c : M D unit) : M D unit :=
  if b then c else ret tt.

(** ** The session manager ([Network]) *)

Section Network.

Context {D : Type} `{NetworkDevice D}.

Local Open Scope Z_scope.

(** *** Platform primitives *)

Definition millis : M D Z := fun w =>
  let b := board w in
  let now := C.wrap (clock b + hd 0 (drift b)) in
  Done now (with_board (set_clock now (tl (drift b))) w).

Definition delay (ms : Z) : M D unit :=
  modify (with_board (fun b => set_clock (C.wrap (clock b + ms)) (drift b) b)).

Definition restartEsp {A} (reason : RestartReason) : M D A :=
  fun w => Restarted reason w.

Definition digitalWrite (pin : Z) (high : bool) : M D unit :=
  modify (log (DigitalWrite pin high)).

(** *** Calls into the transport *)

Definition call (f : D -> D) (e : Event) : M D unit :=
  modify (fun w => log e (with_device (f (device w)) w)).

Definition mqttPublish (topic : string) (qos : Z) (retain : bool) (payload : string) : M D Z :=
  fun w =>
    let (n, d) := dev_mqttPublish topic qos retain payload (device w) in
    Done n (log (MqttPublish topic qos retain payload) (with_device d w)).

Definition mqttSubscribe (topic : string) (qos : Z) : M D Z :=
  fun w =>
    let (n, d) := dev_mqttSubscribe topic qos (device w) in
    Done n (log (MqttSubscribe topic qos) (with_device d w)).

Definition mqttOnMessage : M D unit :=
  call dev_mqttOnMessage MqttOnMessage ;;;
  modify (with_registry (set_messageHandler true)).

Definition device_reconnect : M D ReconnectStatus :=
  fun w =>
    let (st, d) := dev_reconnect (device w) in
    Done st (log DeviceReconnect (with_device d w)).

(** *** Outbound publisher *)

Definition publishString (prefix topic value : string) : M D bool :=
  n <- mqttPublish (buildMqttPath [prefix; topic])
                   MQTT_QOS_LEVEL true value ;;
  ret (0 <? n).

Definition publishInt (prefix topic : string) (value : Z) : M D unit :=
  mqttPublish (buildMqttPath [prefix; topic])
              MQTT_QOS_LEVEL true (C.to_string value) ;;; ret tt.

Definition publishUInt := publishInt.
Definition publishULong := publishInt.

Definition publishBool (prefix topic : string) (value : bool) : M D unit :=
  mqttPublish (buildMqttPath [prefix; topic])
              MQTT_QOS_LEVEL true (if value then "1" else "0") ;;; ret tt.

(** *** Registration *)

Definition subscribe (prefix path : string) : M D unit :=
  modify (with_registry (fun r =>
    set_subscribedTopics (_subscribedTopics r ++ [buildMqttPath [prefix; path]]) r)).

Definition initTopic (prefix path value : string) : M D unit :=
  modify (with_registry (fun r =>
    set_initTopics (string_map_put (buildMqttPath [prefix; path]) value (_initTopics r)) r)).

Definition registerMqttReceiver (receiver : nat) : M D unit :=
  modify (with_registry (fun r => set_mqttReceivers (_mqttReceivers r ++ [receiver]) r)).

Definition addReconnectedCallback (callback : nat) : M D unit :=
  modify (with_registry (fun r =>
    set_reconnectedCallbacks (_reconnectedCallbacks r ++ [callback]) r)).

Definition setKeepAliveCallback (callback : option nat) : M D unit :=
  modify (with_registry (set_keepAliveCallback callback)).

Definition disableAutoRestarts : M D unit :=
  modify (with_session (set_autoRestarts 0 false)).

Definition disableMqtt : M D unit :=
  call dev_disableMqtt DisableMqtt ;;;
  modify (with_session (set_mqttEnabled false)).

Definition gpioActionCallback (pin : Z) : M D unit :=
  now <- millis ;;
  modify (with_telemetry (fun t => set_gpioTs (Z_map_put pin now (_gpioTs t)) t)).

(** *** Inbound dispatch router *)

Definition parseGpioTopics (topic : string) (payload : list ascii) : M D unit :=
  fun w =>
    let gpioPath :=
      buildMqttPath [_lockPath (settings w); mqtt_topic_gpio_prefix; mqtt_topic_gpio_pin] in
    let gpioLen := String.length gpioPath in
    if C.strncmp_eq gpioPath topic gpioLen then
      let c0 := C.char_at topic gpioLen in
      let c1 := C.char_at topic (gpioLen + 1) in
      let pinStr :=
        [c0; if negb (Ascii.eqb c1 "/") then c1 else zero; zero] in
      let pin := C.atoi (C.cstr pinStr) in
      if PinRole_eqb (getPinRole (board w) pin) GeneralOutput
      then digitalWrite pin (String.eqb (C.cstr payload) "1") w
      else Done tt w
    else Done tt w.

Definition onMqttDataReceived
    (topic : string) (payload : list ascii) (len index total : Z) : M D unit :=
  parseGpioTopics topic payload ;;;
  now <- millis ;;
  fun w =>
    if now <? _ignoreSubscriptionsTs (session w) then Done tt w
    else for_each (_mqttReceivers (registry w))
           (fun receiver => modify (log (Deliver receiver topic payload index))) w.

(** [uint8_t value[50] = {0}] filled with the first
    [min(len, sizeof(value)-1)] bytes of the payload. *)
Definition truncated (payload : list ascii) : list ascii :=
  let l := Nat.min (length payload) 49 in
  firstn l payload ++ repeat zero (50 - l).

Definition onMqttDataReceivedCallback
    (topic : string) (payload : list ascii) (index total : Z) : M D unit :=
  onMqttDataReceived topic (truncated payload)
                     (Z.of_nat (length payload)) index total.

Definition onMqttConnect (sessionPresent : bool) : M D unit :=
  modify (with_session (set_connectReplyReceived true)).

Definition onMqttDisconnect : M D unit :=
  modify (with_session (set_connectReplyReceived true)).

(** [_device->update()]: the transport is pumped and the callbacks it
    fires run before it returns. *)
Definition dispatch (cb : Callback) : M D unit :=
  match cb with
  | OnConnect sessionPresent => onMqttConnect sessionPresent
  | OnDisconnect => onMqttDisconnect
  | OnMessage topic payload index total =>
      fun w =>
        if _messageHandler (registry w)
        then onMqttDataReceivedCallback topic payload index total w
        else Done tt w
  end.

Definition device_update : M D unit :=
  fun w =>
    let (cbs, d) := dev_update (device w) in
    for_each cbs dispatch (with_device d w).

(** *** Reconnection protocol ([Network::reconnect]) *)

Definition keepAlive : M D unit :=
  fun w =>
    match _keepAliveCallback (registry w) with
    | Some cb => Done tt (log (KeepAlive cb) w)
    | None => Done tt w
    end.

(** [while(!_connectReplyReceived && millis() < timeout) { delay(50);
    _device->update(); keep-alive }] *)
Fixpoint await_reply (fuel : nat) (timeout : Z) : M D unit :=
  fun w =>
    if _connectReplyReceived (session w) then Done tt w
    else
      (now <- millis ;;
       if now <? timeout then
         match fuel with
         | O => fun _ => OutOfFuel
         | S fuel' =>
             delay 50 ;;; device_update ;;; keepAlive ;;;
             await_reply fuel' timeout
         end
       else ret tt) w.

(** The block [if(_firstConnect) { ... }]. *)
Definition replay_init_topics : M D unit :=
  fun w =>
    if _firstConnect (session w) then
      (modify (with_session (set_firstConnect false)) ;;;
       (fun w' => publishString (_maintenancePathPrefix (settings w'))
                    mqtt_topic_network_device (dev_deviceName (device w')) w') ;;;
       (fun w' => for_each (_initTopics (registry w'))
                    (fun it => mqttPublish (fst it) MQTT_QOS_LEVEL true (snd it) ;;; ret tt) w')) w
    else Done tt w.

(** The branch [if (_device->mqttConnected()) { ... }]. *)
Definition on_connected : M D unit :=
  modify (with_session (set_mqttConnectionState 1)) ;;;
  delay 100 ;;;
  now <- millis ;;
  modify (with_session (set_ignoreSubscriptionsTs (C.wrap (now + 2000)))) ;;;
  mqttOnMessage ;;;
  (fun w => for_each (_subscribedTopics (registry w))
              (fun topic => mqttSubscribe topic MQTT_QOS_LEVEL ;;; ret tt) w) ;;;
  replay_init_topics ;;;
  (fun w => publishString (_maintenancePathPrefix (settings w))
              mqtt_topic_mqtt_connection_state "online" w) ;;;
  (fun w => publishString (_maintenancePathPrefix (settings w))
              mqtt_topic_info_nuki_hub_ip (dev_localIP (device w)) w) ;;;
  modify (with_session (set_mqttConnectionState 2)) ;;;
  (fun w => for_each (_reconnectedCallbacks (registry w))
              (fun cb => modify (log (Reconnected cb))) w).

(** The branch [else { ... }] of a failed attempt. *)
Definition on_connect_failed : M D unit :=
  call dev_printError PrintError ;;;
  modify (with_session (set_mqttConnectionState 0)) ;;;
  now <- millis ;;
  modify (with_session (set_nextReconnect (C.wrap (now + 5000)))) ;;;
  call (dev_mqttDisconnect true) (MqttDisconnect true).

(** The handshake of one attempt, up to the end of the wait loop. *)
Definition handshake (waits : nat) (port : Z) : M D unit :=
  modify (with_session (set_connectReplyReceived false)) ;;;
  (fun w =>
     let st := settings w in
     if (String.length (_mqttUser st) =? 0)%nat then Done tt w
     else call (dev_mqttSetCredentials (_mqttUser st) (_mqttPass st))
               (MqttSetCredentials (_mqttUser st) (_mqttPass st)) w) ;;;
  (fun w =>
     let st := settings w in
     call (dev_setWill (_mqttConnectionStateTopic st) 1 true (_lastWillPayload st))
          (SetWill (_mqttConnectionStateTopic st) 1 true (_lastWillPayload st)) w) ;;;
  (fun w =>
     call (dev_mqttSetServer (_mqttBrokerAddr (settings w)) port)
          (MqttSetServer (_mqttBrokerAddr (settings w)) port) w) ;;;
  call dev_mqttConnect MqttConnect ;;;
  now <- millis ;;
  await_reply waits (C.wrap (now + 60000)).

(** How one attempt ends. *)
Definition conclude : M D unit :=
  fun w =>
    if dev_mqttConnected (device w) then on_connected w
    else on_connect_failed w.

(** The body of the outer [while]; [Some b] is [return b]. *)
Definition attempt (waits : nat) (port : Z) : M D (option bool) :=
  fun w =>
    if String.eqb (_mqttBrokerAddr (settings w)) "" then
      (now <- millis ;;
       modify (with_session (set_nextReconnect (C.wrap (now + 5000)))) ;;;
       ret (Some false)) w
    else
      (handshake waits port ;;; conclude ;;; ret None) w.

(** [while (!_device->mqttConnected() && millis() > _nextReconnect)] *)
Fixpoint reconnect_loop (attempts waits : nat) (port : Z) : M D (option bool) :=
  fun w =>
    if dev_mqttConnected (device w) then Done None w
    else
      (now <- millis ;;
       fun w1 =>
         if _nextReconnect (session w1) <? now then
           match attempts with
           | O => OutOfFuel
           | S attempts' =>
               (r <- attempt waits port ;;
                match r with
                | Some b => ret (Some b)
                | None => reconnect_loop attempts' waits port
                end) w1
           end
         else Done None w1) w.

Definition reconnect (attempts waits : nat) : M D bool :=
  modify (with_session (set_mqttConnectionState 0)) ;;;
  (fun w =>
     (r <- reconnect_loop attempts waits
             (preference_mqtt_broker_port (preferences (board w))) ;;
      match r with
      | Some b => ret b
      | None => fun w' => Done (0 <? _mqttConnectionState (session w')) w'
      end) w).

(** *** The periodic tick ([Network::update]) *)

(** The block [if(!_device->isConnected()) { ... }]. *)
Definition check_transport : M D unit :=
  fun w =>
    if dev_isConnected (device w) then Done tt w
    else
      ((fun w1 =>
          if _restartOnDisconnect (session w1) then
            (now <- millis ;;
             if 60000 <? now then restartEsp RestartOnDisconnectWatchdog
             else ret tt) w1
          else Done tt w1) ;;;
       status <- device_reconnect ;;
       match status with
       | CriticalFailure =>
           modify (with_board (set_WiFi_fallbackDetect "wifi_fallback")) ;;;
           delay 200 ;;;
           restartEsp NetworkDeviceCriticalFailure
       | Success => modify (with_board (set_WiFi_fallbackDetect ""))
       | Failure => ret tt
       end) w.

(** The test of the network-timeout watchdog. *)
Definition network_timeout_reached (ts : Z) (s : Session) : bool :=
  (0 <? _networkTimeout s)
  && (C.wrap (_networkTimeout s * 1000) <? C.wrap (ts - _lastConnectedTs s))
  && (60000 <? ts).

(** The block [if(!_device->mqttConnected()) { ... }]; the value is
    false when [update] returns false there. *)
Definition check_mqtt (attempts waits : nat) (ts : Z) : M D bool :=
  fun w =>
    if dev_mqttConnected (device w) then Done true w
    else
      ((fun w1 =>
          if network_timeout_reached ts (session w1) then
            (delay 200 ;;; restartEsp NetworkTimeoutWatchdog) w1
          else Done tt w1) ;;;
       reconnect attempts waits) w.

Definition publish_presence : M D unit :=
  fun w =>
    match _presenceCsv (telemetry w) with
    | Some csv =>
        if (0 <? String.length csv)%nat then
          (publishString (_mqttPresencePrefix (settings w)) mqtt_topic_presence csv ;;;
           modify (with_telemetry (set_presenceCsv None))) w
        else Done tt w
    | None => Done tt w
    end.

Definition publish_rssi (ts : Z) : M D unit :=
  fun w =>
    let t := telemetry w in
    let interval := _rssiPublishInterval (settings w) in
    if negb (dev_signalStrength (device w) =? 127)
       && (0 <? interval)
       && (C.wrap interval <? C.wrap (ts - _lastRssiTs t))
    then
      let rssi := dev_signalStrength (device w) in
      (modify (with_telemetry (set_lastRssiTs ts)) ;;;
       if negb (rssi =? _lastRssi t) then
         (fun w1 => publishInt (_maintenancePathPrefix (settings w1))
                      mqtt_topic_wifi_rssi (dev_signalStrength (device w1)) w1) ;;;
         modify (with_telemetry (set_lastRssi rssi))
       else ret tt) w
    else Done tt w.

Definition publish_maintenance (ts : Z) : M D unit :=
  fun w =>
    let prefix := _maintenancePathPrefix (settings w) in
    if (_lastMaintenanceTs (telemetry w) =? 0)
       || (30000 <? C.wrap (ts - _lastMaintenanceTs (telemetry w)))
    then
      (publishULong prefix mqtt_topic_uptime (ts / 1000 / 60) ;;;
       (if _publishDebugInfo (settings w) then
          publishUInt prefix mqtt_topic_freeheap (esp_get_free_heap_size (board w)) ;;;
          publishString prefix mqtt_topic_restart_reason_fw (getRestartReason (board w)) ;;;
          publishString prefix mqtt_topic_restart_reason_esp (getEspRestartReason (board w)) ;;;
          ret tt
        else ret tt) ;;;
       (if negb (_versionPublished (telemetry w)) then
          publishString prefix mqtt_topic_info_nuki_hub_version NUKI_HUB_VERSION ;;;
          modify (with_telemetry (set_versionPublished true))
        else ret tt) ;;;
       modify (with_telemetry (set_lastMaintenanceTs ts))) w
    else Done tt w.

(** The release check; [latestRelease] is the [tag_name] of the
    response when the request succeeds and its body parses. The
    preference is written whether or not it already holds the tag:
    writing the value it holds leaves it as it is. *)
Definition check_updates (ts : Z) : M D unit :=
  fun w =>
    if preference_check_updates (preferences (board w))
       && ((_lastUpdateCheckTs (telemetry w) =? 0)
           || (86400000 <? C.wrap (ts - _lastUpdateCheckTs (telemetry w))))
    then
      (modify (with_telemetry (set_lastUpdateCheckTs ts)) ;;;
       modify (log HttpsGet) ;;;
       match latestRelease (board w) with
       | Some tag =>
           modify (with_telemetry (set_latestVersion tag)) ;;;
           publishString (_maintenancePathPrefix (settings w))
                         mqtt_topic_info_nuki_hub_latest tag ;;;
           modify (with_board (fun b =>
             set_preferences (put_latest_version tag (preferences b)) b))
       | None => ret tt
       end) w
    else Done tt w.

(** The body of the loop over [_gpioTs] for the entry with key [key].
    The key is read into a [uint8_t]: that value names the pin that is
    read and published, and it is the key that [_gpioTs[pin] = 0]
    assigns to. *)
Definition report_pin (key : Z) : M D unit :=
  fun w =>
    let pin := C.uint8 key in
    let ts := Z_map_get key (_gpioTs (telemetry w)) in
    if ts =? 0 then Done tt w
    else
      (now <- millis ;;
       if GPIO_DEBOUNCE_TIME <=? C.wrap (now - ts) then
         modify (with_telemetry (fun t => set_gpioTs (Z_map_put pin 0 (_gpioTs t)) t)) ;;;
         (fun w1 =>
            publishInt (_lockPath (settings w1))
              (buildMqttPath [mqtt_topic_gpio_prefix;
                              (mqtt_topic_gpio_pin ++ C.to_string pin)%string;
                              mqtt_topic_gpio_state])
              (if digitalRead (board w1) pin then 1 else 0) w1)
       else ret tt) w.

(** The loop over [_gpioTs] at the end of [update]. It runs over the
    map while its body assigns to the map, so each entry is visited
    with the timestamp the map holds when the loop reaches it. An entry
    that the assignment adds holds the timestamp 0, for which the body
    does nothing: the loop is over the keys the map has when it
    starts. *)
Definition publish_gpio : M D unit :=
  fun w => for_each (map fst (_gpioTs (telemetry w))) report_pin w.

(** What [update] does once the clock is read and the transport
    pumped. *)
Definition supervise (attempts waits : nat) (ts : Z) : M D bool :=
  fun w =>
    if negb (_mqttEnabled (session w)) then Done true w
    else
      (check_transport ;;;
       success <- check_mqtt attempts waits ts ;;
       if negb success then ret false
       else
         modify (with_session (set_lastConnectedTs ts)) ;;;
         publish_presence ;;;
         publish_rssi ts ;;;
         publish_maintenance ts ;;;
         check_updates ts ;;;
         publish_gpio ;;;
         ret true) w.

Definition update (attempts waits : nat) : M D bool :=
  ts <- millis ;;
  device_update ;;;
  supervise attempts waits ts.

(** The first two statements of [update] on their own. *)
Definition pump : M D Z :=
  ts <- millis ;;
  device_update ;;;
  ret ts.

End Network.

(** ** Device selection at boot ([Network::setupDevice]) *)

Module Boot.

Local Open Scope Z_scope.

(** What a restart leaves of the board: the clock starts again, the
    [RTC_NOINIT_ATTR] region and the preferences survive. *)
Definition reboot (b : Board) : Board :=
  set_clock 0 (drift b) b.

Definition device_of_hardware (hardwareDetect : Z) : NetworkDeviceType :=
  if hardwareDetect =? 1 then WiFi
  else if hardwareDetect =? 2 then W5500
  else if hardwareDetect =? 3 then W5500
  else if hardwareDetect =? 4 then Olimex_LAN8720
  else if hardwareDetect =? 5 then WT32_LAN8720
  else if hardwareDetect =? 6 then M5STACK_PoESP32_Unit
  else if hardwareDetect =? 7 then LilyGO_T_ETH_POE
  else WiFi.

(** The part of [setupDevice] that resolves [_networkDeviceType]. *)
Definition setupDevice (b : Board) : Outcome Board NetworkDeviceType :=
  let hardwareDetect := preference_network_hardware (preferences b) in
  let b1 :=
    if hardwareDetect =? 0
    then set_preferences (put_network_hardware 1 (preferences b)) b
    else b in
  let hardwareDetect := if hardwareDetect =? 0 then 1 else hardwareDetect in
  if String.eqb (WiFi_fallbackDetect b1) "wifi_fallback" then
    if preference_network_wifi_fallback_disabled (preferences b1) then
      let b2 := set_WiFi_fallbackDetect "" b1 in
      let b3 := set_clock (C.wrap (clock b2 + 5000)) (drift b2) b2 in
      Restarted NetworkDeviceCriticalFailureNoWifiFallback b3
    else Done WiFi b1
  else Done (device_of_hardware hardwareDetect) b1.

End Boot.

(** ** Observers *)

Definition restart_reason {W A} (o : Outcome W A) : option RestartReason :=
  match o with
  | Restarted r _ => Some r
  | _ => None
  end.

Definition returned {W A} (o : Outcome W A) : option A :=
  match o with
  | Done a _ => Some a
  | _ => None
  end.

Definition final {W A} (o : Outcome W A) : option W :=
  match o with
  | Done _ w => Some w
  | Restarted _ w => Some w
  | OutOfFuel => None
  end.

Definition is_deliver (e : Event) : bool :=
  match e with Deliver _ _ _ _ => true | _ => false end.

Definition is_subscribe (e : Event) : bool :=
  match e with MqttSubscribe _ _ => true | _ => false end.

Definition is_handshake (e : Event) : bool :=
  match e with
  | MqttSetCredentials _ _ | SetWill _ _ _ _ | MqttSetServer _ _ | MqttConnect => true
  | _ => false
  end.

(** What the inbound router may emit: pin writes and deliveries. *)
Definition is_inbound (e : Event) : bool :=
  match e with
  | Deliver _ _ _ _ | DigitalWrite _ _ => true
  | _ => false
  end.

(** ** A scripted transport for the scenarios *)

Module Mock.

Record Device := mkDevice {
  link : bool;
  mqtt : bool;
  accepts : bool;
  pending : list Callback;
  reconnects : ReconnectStatus
}.

Definition set_mqtt (v : bool) (cbs : list Callback) (m : Device) : Device :=
  mkDevice (link m) v (accepts m) cbs (reconnects m).

#[export] Instance mock_device : NetworkDevice Device := {|
  dev_update := fun m => (pending m, set_mqtt (mqtt m) [] m);
  dev_isConnected := link;
  dev_reconnect := fun m =>
    (reconnects m,
     match reconnects m with
     | Success => mkDevice true (mqtt m) (accepts m) (pending m) (reconnects m)
     | _ => m
     end);
  dev_mqttConnected := mqtt;
  dev_mqttConnect := fun m =>
    if accepts m then set_mqtt true (pending m ++ [OnConnect false]) m
    else set_mqtt false (pending m ++ [OnDisconnect]) m;
  dev_mqttDisconnect := fun _ m => set_mqtt false (pending m) m;
  dev_mqttPublish := fun _ _ _ _ m => ((if mqtt m then 1 else 0)%Z, m);
  dev_mqttSubscribe := fun _ _ m => (1%Z, m);
  dev_mqttSetCredentials := fun _ _ m => m;
  dev_mqttSetServer := fun _ _ m => m;
  dev_setWill := fun _ _ _ _ m => m;
  dev_mqttOnMessage := fun m => m;
  dev_printError := fun m => m;
  dev_disableMqtt := fun m => set_mqtt false [] m;
  dev_signalStrength := fun _ => (-60)%Z;
  dev_localIP := fun _ => "192.168.1.20";
  dev_deviceName := fun _ => "Built-in Wi-Fi"
|}.

Definition a_session : Session :=
  mkSession true 0 false true 0 0 0 (-1) false.

Definition a_settings : Settings :=
  mkSettings "192.168.1.2" "" "" "nuki/mqtt/connectionState" "offline"
             "nuki/maintenance" "nuki" "nuki/presence" 60000 false.

Definition a_registry : Registry :=
  mkRegistry ["nuki/gpio/pin_17/state"; "nuki/lock/action"]
             [("nuki/lock/action", "--"); ("nuki/query/config", "0")]
             [0%nat; 1%nat] [7%nat] None false.

Definition a_telemetry : Telemetry :=
  mkTelemetry None 0 0 0 0 "" [] false.

Definition a_board : Board :=
  mkBoard 70000 [] "" (mkPreferences 4 false 1883 false "")
          (fun pin => if (pin =? 17)%Z then GeneralOutput else OtherRole)
          (fun _ => false) 100000 "" "" None.

Definition a_device : Device := mkDevice true false true [] Failure.

Definition a_world : World Device :=
  mkWorld a_session a_settings a_registry a_telemetry a_board a_device [].

(** The scenario of the network-timeout watchdog: timeout 30 s, last
    tick with MQTT connected 46000 ms before the next one, at an
    uptime of 45000 ms and at one of 75000 ms. *)
Definition timeout_session (lastConnectedTs : Z) : Session :=
  mkSession true 0 false true 0 lastConnectedTs 0 30 false.

Definition board_at (uptime : Z) : Board :=
  mkBoard uptime [] "" (mkPreferences 4 false 1883 false "")
          (fun pin => if (pin =? 17)%Z then GeneralOutput else OtherRole)
          (fun _ => false) 100000 "" "" None.

Definition early_timeout_world : World Device :=
  mkWorld (timeout_session (C.wrap (45000 - 46000))) a_settings a_registry
          a_telemetry (board_at 45000) a_device [].

Definition late_timeout_world : World Device :=
  mkWorld (timeout_session (75000 - 46000)) a_settings a_registry
          a_telemetry (board_at 75000) a_device [].

(** No broker configured. *)
Definition unconfigured_world : World Device :=
  mkWorld a_session
          (mkSettings "" "" "" "nuki/mqtt/connectionState" "offline"
                      "nuki/maintenance" "nuki" "nuki/presence" 60000 false)
          a_registry a_telemetry a_board a_device [].

(** A broker that refuses the connection. *)
Definition refused_world : World Device :=
  mkWorld a_session a_settings a_registry a_telemetry a_board
          (mkDevice true false false [] Failure) [].

(** MQTT connected, before the first replay of the init topics. *)
Definition connected_world : World Device :=
  mkWorld a_session a_settings a_registry a_telemetry a_board
          (mkDevice true true true [] Failure) [].

(** A transport that is down and reports a critical failure. *)
Definition broken_world : World Device :=
  mkWorld a_session a_settings a_registry a_telemetry a_board
          (mkDevice false false false [] CriticalFailure) [].

(** Inside the quiet window: 2000 ms from a connect at 70000 ms. *)
Definition quiet_world : World Device :=
  mkWorld (mkSession true 2 true false 0 70000 72000 (-1) false)
          a_settings a_registry a_telemetry (board_at 70500)
          (mkDevice true true true [] Failure) [].

(** A connect 1000 ms before the 32-bit clock wraps; the message
    after it is handled 500 ms after the connect. *)
Definition wrap_world : World Device :=
  mkWorld a_session a_settings a_registry a_telemetry
          (mkBoard (2 ^ 32 - 1000)%Z [0; 0; 0; 0; 500]%Z ""
                   (mkPreferences 4 false 1883 false "")
                   (fun pin => if (pin =? 17)%Z then GeneralOutput else OtherRole)
                   (fun _ => false) 100000 "" "" None)
          a_device [].

(** MQTT disabled. *)
Definition disabled_world : World Device :=
  mkWorld (mkSession false 0 false true 0 0 0 30 true)
          a_settings a_registry a_telemetry a_board
          (mkDevice false false false [] CriticalFailure) [].

Definition text (s : string) : list ascii := list_ascii_of_string s.

End Mock.

(** ** Vocabulary of the statements *)

Section Vocabulary.

Context {D : Type} `{NetworkDevice D}.

Local Open Scope Z_scope.

(** The time the next read of [millis()] returns. *)
Definition next_millis (b : Board) : Z :=
  C.wrap (clock b + hd 0 (drift b)).

(** One read of the clock. *)
Definition read_clock (w : World D) : World D :=
  with_board (set_clock (next_millis (board w)) (tl (drift (board w)))) w.

Definition add_events (evs : list Event) (w : World D) : World D :=
  mkWorld (session w) (settings w) (registry w) (telemetry w)
          (board w) (device w) (trace w ++ evs).

(** The events of [parseGpioTopics]: at most one pin write. *)
Definition gpio_events (topic : string) (payload : list ascii) (w : World D) : list Event :=
  let gpioPath :=
    buildMqttPath [_lockPath (settings w); mqtt_topic_gpio_prefix; mqtt_topic_gpio_pin] in
  let gpioLen := String.length gpioPath in
  if C.strncmp_eq gpioPath topic gpioLen then
    let c0 := C.char_at topic gpioLen in
    let c1 := C.char_at topic (gpioLen + 1) in
    let pin := C.atoi (C.cstr [c0; if negb (Ascii.eqb c1 "/") then c1 else zero; zero]) in
    if PinRole_eqb (getPinRole (board w) pin) GeneralOutput
    then [DigitalWrite pin (String.eqb (C.cstr payload) "1")]
    else []
  else [].

(** One delivery per registered receiver, in registration order. *)
Definition deliveries (topic : string) (payload : list ascii) (index : Z) (w : World D) : list Event :=
  map (fun receiver => Deliver receiver topic payload index) (_mqttReceivers (registry w)).

(** The topic [initialize] subscribes for an output pin. *)
Definition gpio_state_topic (lockPath : string) (pin : Z) : string :=
  buildMqttPath
    [lockPath;
     buildMqttPath [mqtt_topic_gpio_prefix;
                    (mqtt_topic_gpio_pin ++ C.to_string pin)%string;
                    mqtt_topic_gpio_state]].

(** The two-character pin field that [parseGpioTopics] cuts out of
    what follows the prefix. *)
Definition pin_field (rest : string) : Z :=
  let c0 := C.char_at rest 0 in
  let c1 := C.char_at rest 1 in
  C.atoi (C.cstr [c0; if negb (Ascii.eqb c1 "/") then c1 else zero; zero]).

Definition pin_field_ok (n : nat) : bool :=
  pin_field (C.to_string (Z.of_nat n) ++ "/state")%string =? Z.of_nat n.

(** The events of a successful connect, in order: the message handler,
    the subscriptions, on the first connect the device name and the
    init topics, the two status topics, the reconnect listeners. *)
Definition connected_events (name ip : string) (w : World D) : list Event :=
  let prefix := _maintenancePathPrefix (settings w) in
  [MqttOnMessage]
  ++ map (fun topic => MqttSubscribe topic MQTT_QOS_LEVEL) (_subscribedTopics (registry w))
  ++ (if _firstConnect (session w) then
        MqttPublish (buildMqttPath [prefix; mqtt_topic_network_device])
                    MQTT_QOS_LEVEL true name
        :: map (fun it => MqttPublish (fst it) MQTT_QOS_LEVEL true (snd it))
               (_initTopics (registry w))
      else [])
  ++ [MqttPublish (buildMqttPath [prefix; mqtt_topic_mqtt_connection_state])
                  MQTT_QOS_LEVEL true "online";
      MqttPublish (buildMqttPath [prefix; mqtt_topic_info_nuki_hub_ip])
                  MQTT_QOS_LEVEL true ip]
  ++ map Reconnected (_reconnectedCallbacks (registry w)).

(** The transport after a run of subscriptions or of retained
    publishes. *)
Definition subscribe_all (topics : list string) (d : D) : D :=
  fold_left (fun d topic => snd (dev_mqttSubscribe topic MQTT_QOS_LEVEL d)) topics d.

Definition publish_all (its : list (string * string)) (d : D) : D :=
  fold_left (fun d it => snd (dev_mqttPublish (fst it) MQTT_QOS_LEVEL true (snd it) d)) its d.

(** The board after one read of the clock. *)
Definition advance (b : Board) : Board :=
  set_clock (next_millis b) (tl (drift b)) b.

(** What pumping the transport can do to the world: the callbacks set
    [_connectReplyReceived], read the clock, write pins and deliver to
    receivers; the rest of the session manager's state is untouched. *)
Definition pumped (w w' : World D) : Prop :=
  settings w' = settings w
  /\ registry w' = registry w
  /\ telemetry w' = telemetry w
  /\ set_connectReplyReceived false (session w') =
     set_connectReplyReceived false (session w)
  /\ (exists reads, board w' = Nat.iter reads advance (board w))
  /\ (exists evs, trace w' = trace w ++ evs /\ forallb is_inbound evs = true).

(** A board whose clock does not wrap before [slack] more
    milliseconds have been waited out. *)
Definition horizon (b : Board) : Z :=
  clock b + fold_right Z.add 0 (drift b).

Definition steady (slack : Z) (b : Board) : Prop :=
  0 <= clock b
  /\ Forall (fun d => 0 <= d) (drift b)
  /\ horizon b + slack < 2 ^ 32.

(** [publishPresenceDetection] *)
Definition publishPresenceDetection (csv : option string) : M D unit :=
  modify (with_telemetry (set_presenceCsv csv)).

(** The calls the rest of the firmware makes on [Network] during one
    process lifetime. *)
Inductive Call :=
| CallUpdate (attempts waits : nat)
| CallSubscribe (prefix path : string)
| CallInitTopic (prefix path value : string)
| CallRegisterMqttReceiver (receiver : nat)
| CallAddReconnectedCallback (callback : nat)
| CallSetKeepAliveCallback (callback : option nat)
| CallPublishString (prefix topic value : string)
| CallPublishInt (prefix topic : string) (value : Z)
| CallPublishBool (prefix topic : string) (value : bool)
| CallPublishPresenceDetection (csv : option string)
| CallGpioAction (pin : Z)
| CallDisableAutoRestarts
| CallDisableMqtt.

Definition exec (c : Call) : M D unit :=
  match c with
  | CallUpdate attempts waits => update attempts waits ;;; ret tt
  | CallSubscribe prefix path => subscribe prefix path
  | CallInitTopic prefix path value => initTopic prefix path value
  | CallRegisterMqttReceiver receiver => registerMqttReceiver receiver
  | CallAddReconnectedCallback callback => addReconnectedCallback callback
  | CallSetKeepAliveCallback callback => setKeepAliveCallback callback
  | CallPublishString prefix topic value => publishString prefix topic value ;;; ret tt
  | CallPublishInt prefix topic value => publishInt prefix topic value
  | CallPublishBool prefix topic value => publishBool prefix topic value
  | CallPublishPresenceDetection csv => publishPresenceDetection csv
  | CallGpioAction pin => gpioActionCallback pin
  | CallDisableAutoRestarts => disableAutoRestarts
  | CallDisableMqtt => disableMqtt
  end.

(** A property of the session fields that no assignment of
    [Network.cpp] breaks. *)
Definition stable (Q : Session -> Prop) : Prop :=
  forall s, Q s ->
    (forall v, Q (set_mqttConnectionState v s))
    /\ (forall v, Q (set_connectReplyReceived v s))
    /\ Q (set_firstConnect false s)
    /\ (forall v, Q (set_nextReconnect v s))
    /\ (forall v, Q (set_lastConnectedTs v s))
    /\ (forall v, Q (set_ignoreSubscriptionsTs v s))
    /\ (forall t r, Q (set_autoRestarts t r s))
    /\ Q (set_mqttEnabled false s).

(** [c] keeps [Q] however it ends. *)
Definition keeps (Q : Session -> Prop) {A} (c : M D A) : Prop :=
  forall w, Q (session w) ->
    match final (c w) with
    | Some w' => Q (session w')
    | None => True
    end.

End Vocabulary.

(** ** Further definitions *)

Section MoreVocabulary.

Context {D : Type} `{NetworkDevice D}.

Local Open Scope Z_scope.

(** [Network::clearWifiFallback] *)
Definition clearWifiFallback : M D unit :=
  modify (with_board (set_WiFi_fallbackDetect "")).

(** The decimal form of a one-digit and of a two-digit pin number,
    read back the way [parseGpioTopics] reads the pin field. *)
Definition one_digit_ok (n : nat) : bool :=
  match C.to_string (Z.of_nat n) with
  | String a EmptyString =>
      (C.atoi (C.cstr [a; zero; zero]) =? Z.of_nat n)
      && negb (Ascii.eqb a "/")
  | _ => false
  end.

Definition two_digits_ok (n : nat) : bool :=
  match C.to_string (Z.of_nat n) with
  | String a (String b EmptyString) =>
      (C.atoi (C.cstr [a; b; zero]) =? Z.of_nat n)
      && negb (Ascii.eqb b "/")
  | _ => false
  end.

(** [l'] is [l] with entries added at its end. *)
Definition extends {A} (l l' : list A) : Prop :=
  exists more, l' = l ++ more.

(** The registrations of [w'] are those of [w] and later ones: the
    three lists have only been appended to and no key of the init
    topics is gone. *)
Definition registered_since (w w' : World D) : Prop :=
  extends (_subscribedTopics (registry w)) (_subscribedTopics (registry w'))
  /\ extends (_mqttReceivers (registry w)) (_mqttReceivers (registry w'))
  /\ extends (_reconnectedCallbacks (registry w)) (_reconnectedCallbacks (registry w'))
  /\ incl (map fst (_initTopics (registry w))) (map fst (_initTopics (registry w'))).


(** [Network::createHassTopicPath]; [discoveryTopic] is the
    preference [preference_mqtt_hass_discovery], which the functions
    below read and never write. *)
Definition createHassTopicPath
    (discoveryTopic mqttDeviceType mqttDeviceName uidString : string) : string :=
  (discoveryTopic ++ "/" ++ mqttDeviceType ++ "/" ++ uidString ++ "/"
     ++ mqttDeviceName ++ "/config")%string.

(** [Network::removeHassTopic] *)
Definition removeHassTopic
    (discoveryTopic mqttDeviceType mqttDeviceName uidString : string) : M D unit :=
  if negb (String.eqb discoveryTopic "") then
    mqttPublish (createHassTopicPath discoveryTopic mqttDeviceType mqttDeviceName uidString)
                MQTT_QOS_LEVEL true "" ;;; ret tt
  else ret tt.

(** The device type and name of each call of [removeHassTopic] in
    [removeHASSConfig], in the order of the calls. *)
Definition removed_entities : list (string * string) :=
  [("lock", "smartlock"); ("binary_sensor", "battery_low");
   ("binary_sensor", "keypad_battery_low"); ("sensor", "battery_voltage");
   ("sensor", "trigger"); ("binary_sensor", "mqtt_connected");
   ("switch", "reset"); ("sensor", "firmware_version");
   ("sensor", "hardware_version"); ("sensor", "nuki_hub_version");
   ("sensor", "nuki_hub_latest"); ("update", "nuki_hub_update");
   ("sensor", "nuki_hub_ip"); ("switch", "led_enabled");
   ("switch", "button_enabled"); ("button", "unlatch");
   ("button", "lockngo"); ("button", "lockngounlatch");
   ("sensor", "battery_level"); ("binary_sensor", "door_sensor");
   ("binary_sensor", "ring"); ("number", "led_brightness");
   ("sensor", "sound_level"); ("number", "sound_level");
   ("sensor", "last_action_authorization"); ("sensor", "keypad_status");
   ("sensor", "wifi_signal_strength"); ("sensor", "bluetooth_signal_strength");
   ("binary_sensor", "continuous_mode"); ("switch", "continuous_mode");
   ("button", "query_lockstate"); ("button", "query_config");
   ("button", "query_keypad"); ("button", "query_battery");
   ("button", "query_commandresult"); ("switch", "auto_lock");
   ("switch", "auto_unlock"); ("switch", "double_lock")].

(** [Network::removeHASSConfig] *)
Definition removeHASSConfig (discoveryTopic uidString : string) : M D unit :=
  for_each removed_entities
    (fun entity => removeHassTopic discoveryTopic (fst entity) (snd entity) uidString).

(** [Network::removeHASSConfigTopic] *)
Definition removeHASSConfigTopic
    (discoveryTopic deviceType name uidString : string) : M D unit :=
  removeHassTopic discoveryTopic deviceType name uidString.

(** The transport after a run of tombstones. *)
Definition remove_all (discoveryTopic uidString : string)
    (entities : list (string * string)) (d : D) : D :=
  fold_left
    (fun d entity =>
       snd (dev_mqttPublish
              (createHassTopicPath discoveryTopic (fst entity) (snd entity) uidString)
              MQTT_QOS_LEVEL true "" d))
    entities d.

(** The keys of [_gpioTs] that hold a timestamp other than 0: the
    entries with an edge that has not been reported yet. *)
Definition pending_keys (keys : list Z) (m : list (Z * Z)) : list Z :=
  filter (fun key => negb (Z_map_get key m =? 0)) keys.

(** A retained publish of a level at the state topic of the pin that
    one of [keys] names once it is read into a [uint8_t]. *)
Definition gpio_report (lockPath : string) (keys : list Z) (e : Event) : Prop :=
  exists key level,
    In key keys
    /\ e = MqttPublish (gpio_state_topic lockPath (C.uint8 key)) MQTT_QOS_LEVEL true
                       (if level : bool then "1" else "0").

(** The keys of the map are in strictly increasing order, as those of
    a [std::map] are. *)
Fixpoint Z_map_sorted (m : list (Z * Z)) : Prop :=
  match m with
  | [] => True
  | (k, _) :: rest => Forall (fun entry => k < fst entry) rest /\ Z_map_sorted rest
  end.

End MoreVocabulary.

Section Frames.

Context {D : Type} `{NetworkDevice D}.

(** How an outcome relates to the world the computation started in:
    [R] holds between the two worlds, and a restart has a reason in
    [E]. *)
Definition outcome_ok (R : World D -> World D -> Prop) (E : RestartReason -> Prop)
    {A} (w : World D) (o : Outcome (World D) A) : Prop :=
  match o with
  | Done _ w' => R w w'
  | Restarted reason w' => R w w' /\ E reason
  | OutOfFuel => True
  end.

Definition respects (R : World D -> World D -> Prop) (E : RestartReason -> Prop)
    {A} (c : M D A) : Prop :=
  forall w, outcome_ok R E w (c w).

End Frames.


(** ** Further scenarios *)

Module Scenes.

Import Mock.

Local Open Scope Z_scope.

(** A board that finds the fallback marker at boot, with an Ethernet
    module (W5500) persisted as the hardware. *)
Definition fallback_board (fallback_disabled : bool) : Board :=
  mkBoard 0 [] "wifi_fallback" (mkPreferences 3 fallback_disabled 1883 false "")
          (fun pin => if pin =? 17 then GeneralOutput else OtherRole)
          (fun _ => false) 100000 "" "" None.

Definition fallback_world : World Device :=
  mkWorld a_session a_settings a_registry a_telemetry (fallback_board false)
          a_device [].

(** The transport comes back at the first attempt, on a board that
    runs on the Wi-Fi fallback. *)
Definition recovering_world : World Device :=
  mkWorld a_session a_settings a_registry a_telemetry (fallback_board false)
          (mkDevice false false true [] Success) [].

(** The retry deadline lies 5000 ms ahead. *)
Definition backoff_world : World Device :=
  mkWorld (mkSession true 0 false true 75000 0 0 (-1) false)
          a_settings a_registry a_telemetry a_board a_device [].

(** Transport down at an uptime of 70000 ms, with the
    restart-on-disconnect flag set. *)
Definition link_down_world : World Device :=
  mkWorld (mkSession true 0 false true 0 0 0 (-1) true)
          a_settings a_registry a_telemetry a_board
          (mkDevice false false false [] Failure) [].

(** A presence list waits to be published. *)
Definition presence_world : World Device :=
  mkWorld a_session a_settings a_registry
          (mkTelemetry (Some "aa:bb:cc:dd:ee:ff;phone;-60") 0 0 0 0 "" [] false)
          a_board (mkDevice true true true [] Failure) [].

(** An input pin with no edge waiting; the two clock reads that
    follow are 250 ms apart. *)
Definition edge_world : World Device :=
  mkWorld a_session a_settings a_registry
          (mkTelemetry None 0 0 0 0 "" [(4, 0)] false)
          (mkBoard 70000 [0; 250] "" (mkPreferences 4 false 1883 false "")
                   (fun pin => if pin =? 17 then GeneralOutput else OtherRole)
                   (fun _ => false) 100000 "" "" None)
          (mkDevice true true true [] Failure) [].

End Scenes.
Section PathBuilderFacts.

Lemma firstn_store_written (buf : list ascii) (n : nat) (c : ascii) (w : list ascii) :
  length w = n -> firstn n buf = w ->
  firstn (S n) (store buf n c) = w ++ [c].
Proof.
  intros Hl Hw. unfold store. rewrite Hw.
  rewrite firstn_app, Hl.
  replace (S n - n)%nat with 1%nat by lia.
  rewrite firstn_all2 by lia. reflexivity.
Qed.

Lemma emit_written c st :
  well_formed st ->
  written (emit c st) = written st ++ [c] /\ well_formed (emit c st).
Proof.
  unfold well_formed, written. intros H. cbn [emit offset outPath].
  rewrite (firstn_store_written _ _ c (firstn (offset st) (outPath st))) by auto.
  split; [reflexivity|]. rewrite length_app, H. cbn. lia.
Qed.

Lemma copy_fragment_written path : forall st,
  well_formed st ->
  written (copy_fragment path st) = written st ++ list_ascii_of_string path
  /\ well_formed (copy_fragment path st)
  /\ pathCount (copy_fragment path st) = pathCount st.
Proof.
  induction path as [|c rest IH]; intros st H; cbn.
  - rewrite app_nil_r. auto.
  - destruct (emit_written c st H) as [Hw Hf].
    destruct (IH _ Hf) as (IHw & IHf & IHc).
    rewrite IHw, Hw, <- app_assoc. cbn. auto.
Qed.

Lemma add_fragment_written st path :
  well_formed st ->
  written (add_fragment st path) =
    written st ++ list_ascii_of_string
      (if (0 <? pathCount st)%nat then joined path else path)
  /\ well_formed (add_fragment st path)
  /\ pathCount (add_fragment st path) = S (pathCount st).
Proof.
  intros H. unfold add_fragment, joined.
  destruct (0 <? pathCount st)%nat; cbn [andb];
    [destruct (Ascii.eqb (first_char path) "/"); cbn [negb]|].
  - destruct (copy_fragment_written path st H) as (Hw & Hf & Hc).
    unfold written, well_formed in *. cbn. auto.
  - destruct (emit_written "/" st H) as [Hw Hf].
    destruct (copy_fragment_written path _ Hf) as (Hw' & Hf' & Hc').
    unfold written, well_formed in *. cbn [offset outPath pathCount] in *.
    rewrite Hw', Hw, <- app_assoc. cbn. auto.
  - destruct (copy_fragment_written path st H) as (Hw & Hf & Hc).
    unfold written, well_formed in *. cbn. auto.
Qed.

Lemma list_ascii_of_string_app (s t : string) :
  list_ascii_of_string (s ++ t)%string =
  list_ascii_of_string s ++ list_ascii_of_string t.
Proof. induction s as [|c s IH]; cbn; [|rewrite IH]; reflexivity. Qed.

Lemma fold_add_fragment_written paths : forall st,
  well_formed st -> (0 < pathCount st)%nat ->
  written (fold_left add_fragment paths st) =
    written st ++ list_ascii_of_string (flat (map joined paths))
  /\ well_formed (fold_left add_fragment paths st).
Proof.
  induction paths as [|p ps IH]; intros st H Hc; cbn [fold_left map].
  - cbn. rewrite app_nil_r. auto.
  - destruct (add_fragment_written st p H) as (Hw & Hf & Hn).
    destruct (IH _ Hf ltac:(lia)) as [IHw IHf].
    split; [|exact IHf].
    rewrite IHw, Hw.
    apply Nat.ltb_lt in Hc. rewrite Hc.
    rewrite <- app_assoc. f_equal.
    cbn [flat fold_right]. fold (flat (map joined ps)).
    symmetry. apply list_ascii_of_string_app.
Qed.

Lemma read_back (st : Cursor) :
  well_formed st ->
  firstn (offset st) (store (outPath st) (offset st) zero) = written st.
Proof.
  unfold well_formed, written, store. intros H.
  rewrite firstn_app, H, Nat.sub_diag. cbn.
  rewrite app_nil_r. apply firstn_all2. lia.
Qed.

(** The result does not depend on what the output array held before. *)
Lemma buildMqttPath_in_eq (buf : list ascii) (p : string) (ps : list string) :
  buildMqttPath_in buf (p :: ps) = (p ++ flat (map joined ps))%string.
Proof.
  unfold buildMqttPath_in. cbn [fold_left].
  assert (H0 : well_formed (mkCursor buf 0 0)) by reflexivity.
  destruct (add_fragment_written _ p H0) as (Hw & Hf & Hn).
  cbn [pathCount Nat.ltb Nat.leb] in Hw, Hn.
  destruct (fold_add_fragment_written ps _ Hf ltac:(lia)) as [Hw' Hf'].
  rewrite (read_back _ Hf'), Hw', Hw. cbn [written offset firstn app].
  rewrite <- list_ascii_of_string_app.
  apply string_of_list_ascii_of_string.
Qed.



Lemma buildMqttPath_cons (p : string) (ps : list string) :
  buildMqttPath (p :: ps) = (p ++ flat (map joined ps))%string.
Proof. apply buildMqttPath_in_eq. Qed.

Lemma buildMqttPath_nil (buf : list ascii) : buildMqttPath_in buf [] = "".
Proof. reflexivity. Qed.

End PathBuilderFacts.

(** ** Properties of the topic path builder *)

Section PathBuilderClaims.

Lemma string_app_nil_r (s : string) : (s ++ "")%string = s.
Proof. induction s as [|c s IH]; cbn; [|rewrite IH]; reflexivity. Qed.

(** C5, as the specification states it, fails: the builder does not
    look at the end of the preceding fragment, so a fragment that
    ends in a separator is followed by a second one. *)
Lemma buildMqttPath_trailing_separator_doubled :
  buildMqttPath ["a/"; "b"] = "a//b"
  /\ buildMqttPath ["a/"; "b"] <> spec_join2 "a/" "b".
Proof. split; [reflexivity | cbv; discriminate]. Qed.

(** C5, amended: the first fragment is copied as it is; each later
    fragment is copied as it is when it starts with a separator and
    behind one inserted separator otherwise, whatever the preceding
    fragment ends in; joining the output again, as a single fragment,
    gives the same path. *)
Theorem buildMqttPath_joins (p : string) (ps : list string) :
  buildMqttPath (p :: ps) = (p ++ flat (map joined ps))%string
  /\ buildMqttPath [buildMqttPath (p :: ps)] = buildMqttPath (p :: ps).
Proof.
  unfold buildMqttPath. split.
  - apply buildMqttPath_in_eq.
  - rewrite (buildMqttPath_in_eq [] (buildMqttPath_in [] (p :: ps)) []).
    cbn [map flat fold_right]. apply string_app_nil_r.
Qed.

End PathBuilderClaims.

(** ** Properties of the session manager *)

Section SessionClaims.

Context {D : Type} `{NetworkDevice D}.

Local Open Scope Z_scope.

(** *** Effects of the inbound router and of pumping the transport *)

Lemma add_events_nil (w : World D) : add_events [] w = w.
Proof. destruct w; unfold add_events; cbn. rewrite app_nil_r. reflexivity. Qed.

Lemma add_events_app (e1 e2 : list Event) (w : World D) :
  add_events e2 (add_events e1 w) = add_events (e1 ++ e2) w.
Proof. unfold add_events; cbn. rewrite app_assoc. reflexivity. Qed.

Lemma for_each_log {A} (f : A -> Event) (xs : list A) : forall w : World D,
  for_each xs (fun x => modify (log (f x))) w = Done tt (add_events (map f xs) w).
Proof.
  induction xs as [|x xs IH]; intros w; cbn.
  - rewrite add_events_nil. reflexivity.
  - unfold bind, modify at 1. rewrite IH.
    unfold add_events, log; cbn. rewrite <- app_assoc. reflexivity.
Qed.

Lemma parseGpioTopics_events topic payload (w : World D) :
  parseGpioTopics topic payload w = Done tt (add_events (gpio_events topic payload w) w).
Proof.
  unfold parseGpioTopics, gpio_events.
  destruct (C.strncmp_eq _ topic _); [|rewrite add_events_nil; reflexivity].
  cbv zeta.
  destruct (PinRole_eqb _ GeneralOutput); [reflexivity|].
  rewrite add_events_nil; reflexivity.
Qed.

Lemma onMqttDataReceived_effect topic payload len index total (w : World D) :
  onMqttDataReceived topic payload len index total w =
  Done tt
    (add_events
       (gpio_events topic payload w ++
        if next_millis (board w) <? _ignoreSubscriptionsTs (session w)
        then [] else deliveries topic payload index w)
       (read_clock w)).
Proof.
  unfold onMqttDataReceived, bind. rewrite parseGpioTopics_events.
  unfold millis. cbn.
  fold (next_millis (board w)).
  destruct (next_millis (board w) <? _ignoreSubscriptionsTs (session w)).
  - rewrite app_nil_r. reflexivity.
  - rewrite for_each_log. unfold deliveries, add_events, read_clock. cbn.
    rewrite <- app_assoc. reflexivity.
Qed.
(** *** Effects of the steps, on worlds in constructor form *)

Lemma bind_Done {A B} (c : M D A) (k : A -> M D B) (w w1 : World D) (a : A) :
  c w = Done a w1 -> (x <- c ;; k x) w = k a w1.
Proof. intros Hc. unfold bind. rewrite Hc. reflexivity. Qed.

Lemma mqttSubscribe_effect (topic : string) (qos : Z) s st r t b d tr :
  mqttSubscribe topic qos (mkWorld s st r t b d tr) =
  Done (fst (dev_mqttSubscribe topic qos d))
       (mkWorld s st r t b (snd (dev_mqttSubscribe topic qos d))
                (tr ++ [MqttSubscribe topic qos])).
Proof.
  unfold mqttSubscribe. cbn [device].
  destruct (dev_mqttSubscribe topic qos d); reflexivity.
Qed.

Lemma mqttPublish_effect (topic : string) (qos : Z) (retain : bool) (payload : string)
    s st r t b d tr :
  mqttPublish topic qos retain payload (mkWorld s st r t b d tr) =
  Done (fst (dev_mqttPublish topic qos retain payload d))
       (mkWorld s st r t b (snd (dev_mqttPublish topic qos retain payload d))
                (tr ++ [MqttPublish topic qos retain payload])).
Proof.
  unfold mqttPublish. cbn [device].
  destruct (dev_mqttPublish topic qos retain payload d); reflexivity.
Qed.

Lemma for_each_subscribe (topics : list string) :
  forall s st r t b d tr,
    for_each topics (fun topic => mqttSubscribe topic MQTT_QOS_LEVEL ;;; ret tt)
             (mkWorld s st r t b d tr)
    = Done tt (mkWorld s st r t b (subscribe_all topics d)
                 (tr ++ map (fun topic => MqttSubscribe topic MQTT_QOS_LEVEL) topics)).
Proof.
  induction topics as [|topic topics IH]; intros s st r t b d tr.
  - cbn. rewrite app_nil_r. reflexivity.
  - cbn [for_each map subscribe_all fold_left].
    erewrite bind_Done
      by (erewrite bind_Done by apply mqttSubscribe_effect; reflexivity).
    unfold subscribe_all in IH. rewrite IH, <- app_assoc. reflexivity.
Qed.

Lemma for_each_publish (its : list (string * string)) :
  forall s st r t b d tr,
    for_each its (fun it => mqttPublish (fst it) MQTT_QOS_LEVEL true (snd it) ;;; ret tt)
             (mkWorld s st r t b d tr)
    = Done tt (mkWorld s st r t b (publish_all its d)
                 (tr ++ map (fun it => MqttPublish (fst it) MQTT_QOS_LEVEL true (snd it)) its)).
Proof.
  induction its as [|it its IH]; intros s st r t b d tr.
  - cbn. rewrite app_nil_r. reflexivity.
  - cbn [for_each map publish_all fold_left].
    erewrite bind_Done
      by (erewrite bind_Done by apply mqttPublish_effect; reflexivity).
    unfold publish_all in IH. rewrite IH, <- app_assoc. reflexivity.
Qed.

Lemma publishString_effect (prefix topic value : string) s st r t b d tr :
  publishString prefix topic value (mkWorld s st r t b d tr)
  = Done (0 <? fst (dev_mqttPublish (buildMqttPath [prefix; topic]) MQTT_QOS_LEVEL true value d))
         (mkWorld s st r t b
            (snd (dev_mqttPublish (buildMqttPath [prefix; topic]) MQTT_QOS_LEVEL true value d))
            (tr ++ [MqttPublish (buildMqttPath [prefix; topic]) MQTT_QOS_LEVEL true value])).
Proof.
  unfold publishString.
  erewrite bind_Done by apply mqttPublish_effect. reflexivity.
Qed.

Lemma for_each_log_effect {A} (f : A -> Event) (xs : list A) s st r t b (d : D) tr :
  for_each xs (fun x => modify (log (f x))) (mkWorld s st r t b d tr) =
  Done tt (mkWorld s st r t b d (tr ++ map f xs)).
Proof. apply for_each_log. Qed.

Lemma modify_session_effect f s st r t b (d : D) tr :
  modify (with_session f) (mkWorld s st r t b d tr) = Done tt (mkWorld (f s) st r t b d tr).
Proof. reflexivity. Qed.

Lemma modify_registry_effect f s st r t b (d : D) tr :
  modify (with_registry f) (mkWorld s st r t b d tr) = Done tt (mkWorld s st (f r) t b d tr).
Proof. reflexivity. Qed.

Lemma modify_telemetry_effect f s st r t b (d : D) tr :
  modify (with_telemetry f) (mkWorld s st r t b d tr) = Done tt (mkWorld s st r (f t) b d tr).
Proof. reflexivity. Qed.

Lemma modify_board_effect f s st r t b (d : D) tr :
  modify (with_board f) (mkWorld s st r t b d tr) = Done tt (mkWorld s st r t (f b) d tr).
Proof. reflexivity. Qed.

Lemma modify_log_effect e s st r t b (d : D) tr :
  modify (log e) (mkWorld s st r t b d tr) = Done tt (mkWorld s st r t b d (tr ++ [e])).
Proof. reflexivity. Qed.

Lemma delay_effect ms s st r t b (d : D) tr :
  delay ms (mkWorld s st r t b d tr) =
  Done tt (mkWorld s st r t (set_clock (C.wrap (clock b + ms)) (drift b) b) d tr).
Proof. reflexivity. Qed.

Lemma millis_effect s st r t b (d : D) tr :
  millis (mkWorld s st r t b d tr) =
  Done (next_millis b) (mkWorld s st r t (set_clock (next_millis b) (tl (drift b)) b) d tr).
Proof. reflexivity. Qed.

Lemma call_effect f e s st r t b (d : D) tr :
  call f e (mkWorld s st r t b d tr) = Done tt (mkWorld s st r t b (f d) (tr ++ [e])).
Proof. reflexivity. Qed.

Lemma mqttOnMessage_effect s st r t b (d : D) tr :
  mqttOnMessage (mkWorld s st r t b d tr) =
  Done tt (mkWorld s st (set_messageHandler true r) t b (dev_mqttOnMessage d)
                   (tr ++ [MqttOnMessage])).
Proof. reflexivity. Qed.

Ltac effect :=
  lazymatch goal with
  | |- modify (with_session _) _ = _ => apply modify_session_effect
  | |- modify (with_registry _) _ = _ => apply modify_registry_effect
  | |- modify (with_telemetry _) _ = _ => apply modify_telemetry_effect
  | |- modify (with_board _) _ = _ => apply modify_board_effect
  | |- modify (log _) _ = _ => apply modify_log_effect
  | |- delay _ _ = _ => apply delay_effect
  | |- millis _ = _ => apply millis_effect
  | |- call _ _ _ = _ => apply call_effect
  | |- mqttOnMessage _ = _ => apply mqttOnMessage_effect
  | |- mqttPublish _ _ _ _ _ = _ => apply mqttPublish_effect
  | |- mqttSubscribe _ _ _ = _ => apply mqttSubscribe_effect
  | |- publishString _ _ _ _ = _ => apply publishString_effect
  | |- for_each _ (fun topic => mqttSubscribe topic _ ;;; ret tt) _ = _ =>
      apply for_each_subscribe
  | |- for_each _ (fun it => mqttPublish (fst it) _ _ (snd it) ;;; ret tt) _ = _ =>
      apply for_each_publish
  | |- for_each _ (fun x => modify (log _)) _ = _ => apply for_each_log_effect
  end.

Ltac focus :=
  cbn beta; cbn [session settings registry telemetry board device trace].

Ltac run := erewrite bind_Done by (focus; effect).

Lemma replay_init_topics_effect s st r t b (d : D) tr :
  replay_init_topics (mkWorld s st r t b d tr) =
  Done tt
    (if _firstConnect s then
       let path := buildMqttPath [_maintenancePathPrefix st; mqtt_topic_network_device] in
       mkWorld (set_firstConnect false s) st r t b
         (publish_all (_initTopics r)
            (snd (dev_mqttPublish path MQTT_QOS_LEVEL true (dev_deviceName d) d)))
         (tr ++ MqttPublish path MQTT_QOS_LEVEL true (dev_deviceName d)
             :: map (fun it => MqttPublish (fst it) MQTT_QOS_LEVEL true (snd it))
                    (_initTopics r))
     else mkWorld s st r t b d tr).
Proof.
  unfold replay_init_topics. cbn [session].
  destruct (_firstConnect s); [|reflexivity].
  run. run. focus. rewrite for_each_publish, <- app_assoc. reflexivity.
Qed.

Lemma on_connected_effect (w : World D) :
  let s := session w in
  let now := C.wrap (C.wrap (clock (board w) + 100) + hd 0 (drift (board w))) in
  exists d' name ip,
    on_connected w =
    Done tt
      (mkWorld
         (mkSession (_mqttEnabled s) 2 (_connectReplyReceived s) false
                    (_nextReconnect s) (_lastConnectedTs s) (C.wrap (now + 2000))
                    (_networkTimeout s) (_restartOnDisconnect s))
         (settings w)
         (set_messageHandler true (registry w))
         (telemetry w)
         (set_clock now (tl (drift (board w))) (board w))
         d'
         (trace w ++ connected_events name ip w)).
Proof.
  destruct w as [s st r t b d tr]. cbn zeta.
  cbn [session board settings registry telemetry trace].
  unfold on_connected.
  run. run. run. run. run. run.
  erewrite bind_Done by apply replay_init_topics_effect.
  destruct s as [en cs rr fc nr lc ig nt rd].
  cbn [_firstConnect set_firstConnect set_ignoreSubscriptionsTs set_mqttConnectionState
       _mqttEnabled _mqttConnectionState _connectReplyReceived _nextReconnect
       _lastConnectedTs _ignoreSubscriptionsTs _networkTimeout _restartOnDisconnect].
  unfold connected_events. cbn [session settings registry _firstConnect].
  destruct fc; cbv zeta.
  - run. run. run. focus. rewrite for_each_log_effect.
    eexists _, _, _. f_equal. f_equal.
    cbn [set_messageHandler _initTopics _subscribedTopics _reconnectedCallbacks].
    rewrite <- !app_assoc. cbn [app]. reflexivity.
  - run. run. run. focus. rewrite for_each_log_effect.
    eexists _, "", _. f_equal. f_equal.
    cbn [set_messageHandler _initTopics _subscribedTopics _reconnectedCallbacks].
    rewrite <- !app_assoc. cbn [app]. reflexivity.
Qed.
(** C6: with an empty broker address, MQTT down and the retry
    deadline passed, [reconnect] returns false from the first pass of
    its loop, having set the retry deadline to the time it read plus
    5000 ms and having called nothing on the transport. *)
Theorem reconnect_without_broker (attempts waits : nat) (w : World D) :
  _mqttBrokerAddr (settings w) = "" ->
  dev_mqttConnected (device w) = false ->
  _nextReconnect (session w) < next_millis (board w) ->
  exists w',
    reconnect (S attempts) waits w = Done false w'
    /\ _nextReconnect (session w') =
         C.wrap (C.wrap (next_millis (board w) + hd 0 (tl (drift (board w)))) + 5000)
    /\ _mqttConnectionState (session w') = 0
    /\ trace w' = trace w
    /\ device w' = device w
    /\ filter is_handshake (trace w') = filter is_handshake (trace w).
Proof.
  intros Hbroker Hdown Hdue.
  destruct w as [s st r t b d tr]. cbn in *.
  unfold reconnect, bind, modify, ret. cbn.
  rewrite Hdown.
  apply Z.ltb_lt in Hdue. unfold next_millis in *. rewrite Hdue.
  unfold attempt. cbn. rewrite Hbroker. cbn.
  eexists. split; [reflexivity|]. cbn. auto.
Qed.

(** *** The GPIO state topic is recognised *)

Lemma strncmp_eq_prefix (a r : string) :
  C.strncmp_eq a (a ++ r)%string (String.length a) = true.
Proof.
  induction a as [|c a IH]; cbn; [reflexivity|].
  rewrite Ascii.eqb_refl. exact IH.
Qed.

Lemma char_at_app (a r : string) (k : nat) :
  C.char_at (a ++ r)%string (String.length a + k) = C.char_at r k.
Proof.
  unfold C.char_at. induction a as [|c a IH]; cbn; [reflexivity|exact IH].
Qed.

Lemma char_at_end (a r : string) :
  C.char_at (a ++ r)%string (String.length a) = C.char_at r 0.
Proof.
  rewrite <- (Nat.add_0_r (String.length a)). apply char_at_app.
Qed.

Lemma string_app_assoc (a b c : string) :
  ((a ++ b) ++ c)%string = (a ++ (b ++ c))%string.
Proof. induction a as [|x a IH]; cbn; [|rewrite IH]; reflexivity. Qed.

Lemma gpio_state_topic_eq (lockPath : string) (pin : Z) :
  gpio_state_topic lockPath pin =
  ((lockPath ++ "/gpio/pin_") ++ (C.to_string pin ++ "/state"))%string.
Proof.
  unfold gpio_state_topic.
  rewrite !buildMqttPath_cons.
  cbn [map flat fold_right joined first_char mqtt_topic_gpio_prefix
       mqtt_topic_gpio_pin mqtt_topic_gpio_state String.append Ascii.eqb Bool.eqb].
  rewrite !string_app_nil_r.
  rewrite string_app_assoc. reflexivity.
Qed.

Lemma pin_field_two_digits :
  forallb pin_field_ok (seq 0 100) = true.
Proof. vm_compute. reflexivity. Qed.

Lemma pin_field_to_string (pin : Z) :
  0 <= pin < 100 ->
  pin_field (C.to_string pin ++ "/state")%string = pin.
Proof.
  intros Hpin.
  assert (Hin : In (Z.to_nat pin) (seq 0 100)) by (apply in_seq; lia).
  pose proof (proj1 (forallb_forall _ _) pin_field_two_digits _ Hin) as Hok.
  unfold pin_field_ok in Hok. rewrite Z2Nat.id in Hok by lia.
  apply Z.eqb_eq in Hok. exact Hok.
Qed.

Lemma gpio_events_state_topic (w : World D) (pin : Z) (payload : list ascii) :
  0 <= pin < 100 ->
  getPinRole (board w) pin = GeneralOutput ->
  gpio_events (gpio_state_topic (_lockPath (settings w)) pin) payload w =
  [DigitalWrite pin (String.eqb (C.cstr payload) "1")].
Proof.
  intros Hpin Hrole. unfold gpio_events.
  rewrite gpio_state_topic_eq.
  assert (Hpath : buildMqttPath [_lockPath (settings w); mqtt_topic_gpio_prefix; mqtt_topic_gpio_pin]
                  = (_lockPath (settings w) ++ "/gpio/pin_")%string).
  { rewrite buildMqttPath_cons. reflexivity. }
  rewrite Hpath. cbv zeta.
  rewrite strncmp_eq_prefix, char_at_app.
  rewrite (char_at_end (_lockPath (settings w) ++ "/gpio/pin_")).
  change (C.atoi _) with (pin_field (C.to_string pin ++ "/state")).
  rewrite (pin_field_to_string pin Hpin), Hrole. reflexivity.
Qed.

(** *** Pumping the transport *)

Lemma pumped_refl (w : World D) : pumped w w.
Proof.
  unfold pumped. repeat split; auto.
  - exists 0%nat. reflexivity.
  - exists []. rewrite app_nil_r. auto.
Qed.

Lemma pumped_trans (w1 w2 w3 : World D) :
  pumped w1 w2 -> pumped w2 w3 -> pumped w1 w3.
Proof.
  intros (A1 & A2 & A3 & A4 & [k1 A5] & [e1 [A6 A7]])
         (B1 & B2 & B3 & B4 & [k2 B5] & [e2 [B6 B7]]).
  unfold pumped. repeat split; try congruence.
  - exists (k2 + k1)%nat. rewrite Nat.iter_add. congruence.
  - exists (e1 ++ e2). rewrite B6, A6, <- app_assoc, forallb_app, A7, B7. auto.
Qed.

Lemma gpio_events_inbound topic payload (w : World D) :
  forallb is_inbound (gpio_events topic payload w) = true.
Proof.
  unfold gpio_events. destruct (C.strncmp_eq _ _ _); [|reflexivity].
  cbv zeta. destruct (PinRole_eqb _ _); reflexivity.
Qed.

Lemma deliveries_inbound topic payload index (w : World D) :
  forallb is_inbound (deliveries topic payload index w) = true.
Proof.
  unfold deliveries. induction (_mqttReceivers (registry w)); cbn; auto.
Qed.

Lemma dispatch_pumped (cb : Callback) (w : World D) :
  exists w', dispatch cb w = Done tt w' /\ pumped w w'.
Proof.
  destruct cb as [sp| |topic payload index total]; cbn [dispatch].
  - eexists. split; [reflexivity|].
    unfold pumped. cbn. repeat split; auto.
    + exists 0%nat. reflexivity.
    + exists []. rewrite app_nil_r. auto.
  - eexists. split; [reflexivity|].
    unfold pumped. cbn. repeat split; auto.
    + exists 0%nat. reflexivity.
    + exists []. rewrite app_nil_r. auto.
  - destruct (_messageHandler (registry w)).
    + unfold onMqttDataReceivedCallback. rewrite onMqttDataReceived_effect.
      eexists. split; [reflexivity|].
      unfold pumped. cbn. repeat split; auto.
      * exists 1%nat. reflexivity.
      * eexists. split; [reflexivity|].
        rewrite forallb_app, gpio_events_inbound.
        destruct (_ <? _); [reflexivity|apply deliveries_inbound].
    + eexists. split; [reflexivity|apply pumped_refl].
Qed.

Lemma for_each_dispatch_pumped (cbs : list Callback) : forall w : World D,
  exists w', for_each cbs dispatch w = Done tt w' /\ pumped w w'.
Proof.
  induction cbs as [|cb cbs IH]; intros w; cbn [for_each].
  - exists w. split; [reflexivity|apply pumped_refl].
  - destruct (dispatch_pumped cb w) as (w1 & Hd & Hp1).
    destruct (IH w1) as (w2 & Hf & Hp2).
    exists w2. split; [|eapply pumped_trans; eauto].
    erewrite bind_Done by exact Hd. exact Hf.
Qed.

Lemma device_update_pumped (w : World D) :
  exists w', device_update w = Done tt w' /\ pumped w w'.
Proof.
  unfold device_update.
  destruct (dev_update (device w)) as [cbs d1].
  destruct (for_each_dispatch_pumped cbs (with_device d1 w)) as (w' & Hf & Hp).
  exists w'. split; [exact Hf|].
  eapply pumped_trans; [|exact Hp].
  unfold pumped. cbn. repeat split; auto.
  - exists 0%nat. reflexivity.
  - exists []. rewrite app_nil_r. auto.
Qed.

(** [pump] always returns: the time it read, and a pumped world. *)
Lemma pump_returns (w : World D) :
  exists w', pump w = Done (next_millis (board w)) w' /\ pumped w w'.
Proof.
  unfold pump. destruct w as [s st r t b d tr].
  run.
  match goal with
  | |- context [bind device_update _ ?W] =>
      destruct (device_update_pumped W) as (w' & Hu & Hp)
  end.
  erewrite bind_Done by exact Hu.
  exists w'. split; [reflexivity|].
  eapply pumped_trans; [|exact Hp].
  unfold pumped. cbn. repeat split; auto.
  - exists 1%nat. reflexivity.
  - exists []. rewrite app_nil_r. auto.
Qed.

(** *** The wait loop ends *)

Lemma advance_steady (slack : Z) (b : Board) :
  0 <= slack -> steady slack b ->
  steady slack (advance b) /\ clock b <= clock (advance b).
Proof.
  intros Hs (Hc & Hd & Hh). unfold steady, horizon, advance, next_millis, C.wrap in *.
  destruct b as [c dr m p g dg fh r1 r2 lr]. cbn in *.
  destruct dr as [|x dr]; cbn in *.
  - rewrite Z.add_0_r, Z.mod_small by lia. repeat split; auto; lia.
  - inversion Hd as [|? ? Hx Hdr]; subst.
    assert (0 <= fold_right Z.add 0 dr).
    { clear - Hdr. induction Hdr; cbn; lia. }
    rewrite Z.mod_small by lia. repeat split; auto; lia.
Qed.

Lemma iter_advance_steady (slack : Z) (reads : nat) (b : Board) :
  0 <= slack -> steady slack b ->
  steady slack (Nat.iter reads advance b) /\ clock b <= clock (Nat.iter reads advance b).
Proof.
  intros Hs Hb. induction reads as [|k IH].
  - split; [exact Hb|cbn; lia].
  - rewrite Nat.iter_succ. destruct IH as [IH1 IH2].
    destruct (advance_steady slack _ Hs IH1) as [A1 A2]. split; [exact A1|lia].
Qed.

Lemma pumped_steady (slack : Z) (w w' : World D) :
  0 <= slack -> pumped w w' -> steady slack (board w) ->
  steady slack (board w') /\ clock (board w) <= clock (board w').
Proof.
  intros Hs (_ & _ & _ & _ & [k Hk] & _) Hb. rewrite Hk.
  apply iter_advance_steady; assumption.
Qed.

Lemma delay_steady (slack ms : Z) (b : Board) :
  0 <= ms <= slack -> steady slack b ->
  steady (slack - ms) (set_clock (C.wrap (clock b + ms)) (drift b) b)
  /\ C.wrap (clock b + ms) = clock b + ms.
Proof.
  intros Hms (Hc & Hd & Hh). unfold steady, horizon, C.wrap in *.
  assert (0 <= fold_right Z.add 0 (drift b)).
  { clear - Hd. induction Hd; cbn; lia. }
  destruct b as [c dr m p g dg fh r1 r2 lr]. cbn in *.
  rewrite Z.mod_small by lia. repeat split; auto; lia.
Qed.

Lemma keepAlive_returns (w : World D) :
  exists w', keepAlive w = Done tt w' /\ board w' = board w.
Proof.
  unfold keepAlive. destruct (_keepAliveCallback (registry w)); eexists; split; reflexivity.
Qed.

(** With fuel for the 60 s of the handshake timeout and a clock that
    does not wrap meanwhile, the wait loop returns. *)
Lemma await_reply_returns (fuel : nat) (timeout : Z) : forall w : World D,
  steady (50 * Z.of_nat fuel) (board w) ->
  timeout <= clock (board w) + 50 * Z.of_nat fuel ->
  exists w', await_reply fuel timeout w = Done tt w'.
Proof.
  induction fuel as [|fuel IH]; intros w Hst Ht.
  - cbn [await_reply]. destruct (_connectReplyReceived (session w)); [eauto|].
    destruct w as [s st r t b d tr]. cbn [board] in *.
    run.
    destruct (advance_steady (50 * Z.of_nat 0) b ltac:(lia) Hst) as [_ Hle].
    unfold advance in Hle. cbn [clock set_clock] in Hle.
    assert (Hn : (next_millis b <? timeout) = false) by (apply Z.ltb_ge; lia).
    rewrite Hn. eexists; reflexivity.
  - cbn [await_reply]. destruct (_connectReplyReceived (session w)); [eauto|].
    destruct w as [s st r t b d tr]. cbn [board] in *.
    run.
    destruct (next_millis b <? timeout); [|eexists; reflexivity].
    run.
    destruct (advance_steady (50 * Z.of_nat (S fuel)) b ltac:(lia) Hst) as [Hst1 Hle].
    destruct (delay_steady (50 * Z.of_nat (S fuel)) 50 (advance b) ltac:(lia) Hst1)
      as [Hst2 Hclk].
    match goal with
    | |- context [bind device_update _ ?W] =>
        destruct (device_update_pumped W) as (w1 & Hu & Hp)
    end.
    erewrite bind_Done by exact Hu.
    destruct (keepAlive_returns w1) as (w2 & Hk & Hb).
    erewrite bind_Done by exact Hk.
    replace (50 * Z.of_nat (S fuel) - 50) with (50 * Z.of_nat fuel) in Hst2 by lia.
    destruct (pumped_steady (50 * Z.of_nat fuel) _ _ ltac:(lia) Hp Hst2) as [Hst3 Hle3].
    cbn [board] in Hst3, Hle3.
    apply IH; rewrite Hb; [exact Hst3|].
    unfold advance in Hclk, Hle. cbn [clock set_clock drift] in Hclk, Hle, Hle3. lia.
Qed.

(** *** One connection attempt *)

Lemma wrap_le (z : Z) : 0 <= z -> C.wrap z <= z.
Proof. intros Hz. unfold C.wrap. apply Z.mod_le; lia. Qed.

(** The handshake returns when the wait loop has fuel for its 60 s
    ([1200] rounds of 50 ms) and the clock does not wrap meanwhile. *)
Lemma handshake_returns (waits : nat) (port : Z) (w : World D) :
  (1200 <= waits)%nat ->
  steady (50 * Z.of_nat waits) (board w) ->
  exists w1, handshake waits port w = Done tt w1.
Proof.
  intros Hw Hst. destruct w as [s st r t b d tr]. cbn [board] in Hst.
  unfold handshake. run.
  assert (Hcred : exists d1 tr1,
    (fun w : World D =>
       let st := settings w in
       if (String.length (_mqttUser st) =? 0)%nat then Done tt w
       else call (dev_mqttSetCredentials (_mqttUser st) (_mqttPass st))
                 (MqttSetCredentials (_mqttUser st) (_mqttPass st)) w)
      (mkWorld (set_connectReplyReceived false s) st r t b d tr)
    = Done tt (mkWorld (set_connectReplyReceived false s) st r t b d1 tr1)).
  { cbn beta zeta. cbn [settings].
    destruct (String.length (_mqttUser st) =? 0)%nat; eexists _, _; reflexivity. }
  destruct Hcred as (d1 & tr1 & Hcred).
  erewrite bind_Done by exact Hcred.
  erewrite bind_Done by (cbn beta zeta; cbn [settings]; apply call_effect).
  run. run. run.
  destruct (advance_steady (50 * Z.of_nat waits) b ltac:(lia) Hst) as [Hst1 Hle].
  apply await_reply_returns; cbn [board]; [exact Hst1|].
  unfold advance in Hle. cbn [clock set_clock] in *.
  destruct Hst as (Hc & _).
  pose proof (wrap_le (next_millis b + 60000) ltac:(lia)). lia.
Qed.

Lemma attempt_after_handshake (waits : nat) (port : Z) (w w1 : World D) :
  _mqttBrokerAddr (settings w) <> "" ->
  handshake waits port w = Done tt w1 ->
  attempt waits port w = (conclude ;;; ret None) w1.
Proof.
  intros Hb Hh. unfold attempt.
  destruct (String.eqb_spec (_mqttBrokerAddr (settings w)) ""); [contradiction|].
  erewrite bind_Done by exact Hh. reflexivity.
Qed.

Lemma on_connect_failed_effect (w : World D) :
  exists w',
    on_connect_failed w = Done tt w'
    /\ _mqttConnectionState (session w') = 0
    /\ _nextReconnect (session w') = C.wrap (next_millis (board w) + 5000)
    /\ trace w' = trace w ++ [PrintError; MqttDisconnect true]
    /\ device w' = dev_mqttDisconnect true (dev_printError (device w)).
Proof.
  destruct w as [s st r t b d tr]. unfold on_connect_failed.
  run. run. run. run. focus. rewrite call_effect.
  eexists. split; [reflexivity|]. cbn. rewrite <- app_assoc. auto.
Qed.

(** C8: an attempt whose handshake leaves MQTT unconnected (a timeout
    or an explicit refusal) sets the connection state to 0, sets the
    retry deadline to the time it reads plus 5000 ms, and ends by
    forcing the transport's MQTT layer to disconnect, so that the
    forced disconnect precedes whatever a later attempt does. *)
Theorem failed_attempt_backs_off (waits : nat) (port : Z) (w : World D) :
  _mqttBrokerAddr (settings w) <> "" ->
  (1200 <= waits)%nat ->
  steady (50 * Z.of_nat waits) (board w) ->
  exists w1,
    handshake waits port w = Done tt w1
    /\ (dev_mqttConnected (device w1) = false ->
        exists w',
          attempt waits port w = Done None w'
          /\ _mqttConnectionState (session w') = 0
          /\ _nextReconnect (session w') = C.wrap (next_millis (board w1) + 5000)
          /\ trace w' = trace w1 ++ [PrintError; MqttDisconnect true]
          /\ device w' = dev_mqttDisconnect true (dev_printError (device w1))).
Proof.
  intros Hb Hw Hst.
  destruct (handshake_returns waits port w Hw Hst) as [w1 Hh].
  exists w1. split; [exact Hh|]. intros Hdown.
  rewrite (attempt_after_handshake waits port w w1 Hb Hh).
  destruct (on_connect_failed_effect w1) as (w' & Hf & Hprops).
  exists w'. split; [|exact Hprops].
  erewrite bind_Done; [reflexivity|].
  unfold conclude. rewrite Hdown. exact Hf.
Qed.

(** *** Session properties that every operation keeps *)

Section Stable.

Variable Q : Session -> Prop.
Hypothesis HQ : stable Q.

Lemma keeps_ret {A} (a : A) : keeps Q (ret (D := D) a).
Proof. intros w Hw. exact Hw. Qed.

Lemma keeps_bind {A B} (c : M D A) (k : A -> M D B) :
  keeps Q c -> (forall a, keeps Q (k a)) -> keeps Q (bind c k).
Proof.
  intros Hc Hk w Hw. unfold bind. specialize (Hc w Hw).
  destruct (c w) as [a w1|r w1|]; cbn in *; auto.
  apply (Hk a w1 Hc).
Qed.

Lemma keeps_restartEsp {A} (r : RestartReason) : keeps Q (restartEsp (D := D) (A := A) r).
Proof. intros w Hw. exact Hw. Qed.

Lemma keeps_modify_session (f : Session -> Session) :
  (forall s, Q s -> Q (f s)) -> keeps Q (modify (D := D) (with_session f)).
Proof. intros Hf w Hw. cbn. auto. Qed.

Lemma keeps_modify_frame (f : World D -> World D) :
  (forall w, session (f w) = session w) -> keeps Q (modify f).
Proof. intros Hf w Hw. cbn. rewrite Hf. exact Hw. Qed.

Lemma keeps_for_each {A} (xs : list A) (body : A -> M D unit) :
  (forall x, keeps Q (body x)) -> keeps Q (for_each xs body).
Proof.
  intros Hb. induction xs as [|x xs IH]; cbn [for_each].
  - apply keeps_ret.
  - apply keeps_bind; auto.
Qed.

Lemma keeps_millis : keeps Q (millis (D := D)).
Proof. intros w Hw. exact Hw. Qed.

Lemma keeps_mqttPublish topic qos retain payload :
  keeps Q (mqttPublish topic qos retain payload).
Proof.
  intros w Hw. unfold mqttPublish.
  destruct (dev_mqttPublish topic qos retain payload (device w)). exact Hw.
Qed.

Lemma keeps_mqttSubscribe topic qos : keeps Q (mqttSubscribe topic qos).
Proof.
  intros w Hw. unfold mqttSubscribe.
  destruct (dev_mqttSubscribe topic qos (device w)). exact Hw.
Qed.

Lemma keeps_device_reconnect : keeps Q device_reconnect.
Proof.
  intros w Hw. unfold device_reconnect.
  destruct (dev_reconnect (device w)). exact Hw.
Qed.

Lemma keeps_keepAlive : keeps Q (keepAlive (D := D)).
Proof.
  intros w Hw. unfold keepAlive.
  destruct (_keepAliveCallback (registry w)); exact Hw.
Qed.

Lemma keeps_parseGpioTopics topic payload : keeps Q (parseGpioTopics (D := D) topic payload).
Proof. intros w Hw. rewrite parseGpioTopics_events. exact Hw. Qed.

(** Enters a computation that reads the world it runs in. *)
Ltac enter :=
  let w := fresh "w" in
  let Hw := fresh "Hw" in
  intros w Hw; cbn beta zeta.

(** Goes back to [keeps] once the reads are decided. *)
Ltac leave :=
  lazymatch goal with
  | |- match final OutOfFuel with _ => _ end => exact I
  | Hw : Q (session ?w) |- match final (Done _ ?w) with _ => _ end => exact Hw
  | Hw : Q (session ?w) |- match final (?c ?w) with _ => _ end =>
      apply (fun K : keeps Q c => K w Hw)
  end.

Ltac session_ok :=
  let s := fresh "s" in
  let Hs := fresh "Hs" in
  intros s Hs; apply (HQ s Hs).

Ltac frame_ok := intros [? ? ? ? ? ? ?]; reflexivity.

Ltac step :=
  lazymatch goal with
  | |- Q (session _) => assumption
  | |- keeps _ (bind _ _) => apply keeps_bind; [|intros ?]
  | |- keeps _ (ret _) => apply keeps_ret
  | |- keeps _ (restartEsp _) => apply keeps_restartEsp
  | |- keeps _ (@millis _) => apply keeps_millis
  | |- keeps _ (modify (with_session _)) => apply keeps_modify_session; session_ok
  | |- keeps _ (modify _) => apply keeps_modify_frame; frame_ok
  | |- keeps _ (delay _) => apply keeps_modify_frame; frame_ok
  | |- keeps _ (digitalWrite _ _) => apply keeps_modify_frame; frame_ok
  | |- keeps _ (call _ _) => apply keeps_modify_frame; frame_ok
  | |- keeps _ (mqttPublish _ _ _ _) => apply keeps_mqttPublish
  | |- keeps _ (mqttSubscribe _ _) => apply keeps_mqttSubscribe
  | |- keeps _ device_reconnect => apply keeps_device_reconnect
  | |- keeps _ (@keepAlive _) => apply keeps_keepAlive
  | |- keeps _ (parseGpioTopics _ _) => apply keeps_parseGpioTopics
  | |- keeps _ (for_each _ _) => apply keeps_for_each; intros ?
  | |- keeps _ (if ?b then _ else _) => destruct b
  | |- keeps _ (match ?x with _ => _ end) => destruct x
  | |- keeps _ (fun _ => _) => enter
  | |- match final ((if ?b then _ else _) _) with _ => _ end => destruct b
  | |- match final ((match ?x with _ => _ end) _) with _ => _ end => destruct x
  | |- match final (if ?b then _ else _) with _ => _ end => destruct b
  | |- match final (match ?x with _ => _ end) with _ => _ end => destruct x
  | |- match final _ with _ => _ end => leave
  end.

Lemma keeps_publishString p t v : keeps Q (publishString p t v).
Proof. unfold publishString. repeat step. Qed.

Lemma keeps_publishInt p t v : keeps Q (publishInt p t v).
Proof. unfold publishInt. repeat step. Qed.

Lemma keeps_publishBool p t v : keeps Q (publishBool p t v).
Proof. unfold publishBool. repeat step. Qed.

Lemma keeps_mqttOnMessage : keeps Q mqttOnMessage.
Proof. unfold mqttOnMessage. repeat step. Qed.

Lemma keeps_onMqttDataReceived topic payload len index total :
  keeps Q (onMqttDataReceived (D := D) topic payload len index total).
Proof. unfold onMqttDataReceived. repeat step. Qed.

Lemma keeps_dispatch cb : keeps Q (dispatch (D := D) cb).
Proof.
  destruct cb; cbn [dispatch]; unfold onMqttConnect, onMqttDisconnect.
  - repeat step.
  - repeat step.
  - repeat step. unfold onMqttDataReceivedCallback. apply keeps_onMqttDataReceived.
Qed.

Lemma keeps_device_update : keeps Q device_update.
Proof.
  intros w Hw. unfold device_update.
  destruct (dev_update (device w)) as [cbs d1].
  apply (keeps_for_each cbs dispatch keeps_dispatch (with_device d1 w) Hw).
Qed.

Lemma keeps_await_reply fuel timeout : keeps Q (await_reply fuel timeout).
Proof.
  induction fuel as [|fuel IH]; cbn [await_reply];
    repeat first [ step
               | apply keeps_device_update
               | exact IH ].
Qed.

Lemma keeps_replay_init_topics : keeps Q replay_init_topics.
Proof. unfold replay_init_topics. repeat step; apply keeps_publishString. Qed.

Lemma keeps_on_connected : keeps Q on_connected.
Proof.
  unfold on_connected.
  repeat first [ step
               | apply keeps_mqttOnMessage
               | apply keeps_replay_init_topics
               | apply keeps_publishString ].
Qed.

Lemma keeps_on_connect_failed : keeps Q on_connect_failed.
Proof. unfold on_connect_failed. repeat step. Qed.

Lemma keeps_handshake waits port : keeps Q (handshake waits port).
Proof.
  unfold handshake. repeat first [ step
               | apply keeps_await_reply ].
Qed.

Lemma keeps_conclude : keeps Q conclude.
Proof.
  unfold conclude.
  repeat first [ step
               | apply keeps_on_connected
               | apply keeps_on_connect_failed ].
Qed.

Lemma keeps_attempt waits port : keeps Q (attempt waits port).
Proof.
  unfold attempt.
  repeat first [ step
               | apply keeps_handshake
               | apply keeps_conclude ].
Qed.

Lemma keeps_reconnect_loop attempts waits port :
  keeps Q (reconnect_loop attempts waits port).
Proof.
  induction attempts as [|attempts IH]; cbn [reconnect_loop];
    repeat first [ step
               | apply keeps_attempt
               | exact IH ].
Qed.

Lemma keeps_reconnect attempts waits : keeps Q (reconnect attempts waits).
Proof.
  unfold reconnect. repeat first [ step
               | apply keeps_reconnect_loop ].
Qed.

Lemma keeps_check_transport : keeps Q check_transport.
Proof. unfold check_transport. repeat step. Qed.

Lemma keeps_check_mqtt attempts waits ts : keeps Q (check_mqtt attempts waits ts).
Proof.
  unfold check_mqtt. repeat first [ step
               | apply keeps_reconnect ].
Qed.

Lemma keeps_publish_presence : keeps Q publish_presence.
Proof. unfold publish_presence. repeat first [ step
               | apply keeps_publishString ]. Qed.

Lemma keeps_publish_rssi ts : keeps Q (publish_rssi ts).
Proof. unfold publish_rssi. repeat first [ step
               | apply keeps_publishInt ]. Qed.

Lemma keeps_publish_maintenance ts : keeps Q (publish_maintenance ts).
Proof.
  unfold publish_maintenance, publishULong, publishUInt.
  repeat first [ step
               | apply keeps_publishInt
               | apply keeps_publishString ].
Qed.

Lemma keeps_check_updates ts : keeps Q (check_updates ts).
Proof. unfold check_updates. repeat first [ step
               | apply keeps_publishString ]. Qed.

Lemma keeps_publish_gpio : keeps Q publish_gpio.
Proof. unfold publish_gpio, report_pin. repeat first [ step
               | apply keeps_publishInt ]. Qed.

Lemma keeps_supervise attempts waits ts : keeps Q (supervise attempts waits ts).
Proof.
  unfold supervise.
  repeat first [ step
               | apply keeps_check_transport
               | apply keeps_check_mqtt
               | apply keeps_publish_presence
               | apply keeps_publish_rssi
               | apply keeps_publish_maintenance
               | apply keeps_check_updates
               | apply keeps_publish_gpio ].
Qed.

Lemma keeps_update attempts waits : keeps Q (update attempts waits).
Proof.
  unfold update.
  repeat first [ step
               | apply keeps_device_update
               | apply keeps_supervise ].
Qed.

Lemma keeps_exec (c : Call) : keeps Q (exec c).
Proof.
  destruct c; cbn [exec];
    unfold subscribe, initTopic, registerMqttReceiver, addReconnectedCallback,
           setKeepAliveCallback, publishPresenceDetection, gpioActionCallback,
           disableAutoRestarts, disableMqtt;
    repeat first [ step
               | apply keeps_update
               | apply keeps_publishString
               | apply keeps_publishInt
               | apply keeps_publishBool ].
Qed.

(** Whatever calls are made, in whatever order, [Q] still holds
    when they have returned. *)
Lemma keeps_calls (calls : list Call) (w w' : World D) :
  Q (session w) -> for_each calls exec w = Done tt w' -> Q (session w').
Proof.
  intros Hw Hrun.
  pose proof (keeps_for_each calls exec keeps_exec w Hw) as K.
  rewrite Hrun in K. exact K.
Qed.

End Stable.

(** *** A successful connect *)

Lemma filter_subscribe_map (topics : list string) (qos : Z) :
  filter is_subscribe (map (fun topic => MqttSubscribe topic qos) topics)
  = map (fun topic => MqttSubscribe topic qos) topics.
Proof. induction topics as [|x xs IH]; cbn; [|rewrite IH]; reflexivity. Qed.

Lemma filter_subscribe_publishes (its : list (string * string)) :
  filter is_subscribe (map (fun it => MqttPublish (fst it) MQTT_QOS_LEVEL true (snd it)) its) = [].
Proof. induction its as [|x xs IH]; cbn; auto. Qed.

Lemma filter_subscribe_reconnected (cbs : list nat) :
  filter is_subscribe (map Reconnected cbs) = [].
Proof. induction cbs as [|x xs IH]; cbn; auto. Qed.

Lemma subscriptions_of_connected_events (name ip : string) (w : World D) :
  filter is_subscribe (connected_events name ip w)
  = map (fun topic => MqttSubscribe topic MQTT_QOS_LEVEL) (_subscribedTopics (registry w)).
Proof.
  unfold connected_events. cbv zeta.
  rewrite !filter_app, filter_subscribe_map, filter_subscribe_reconnected.
  destruct (_firstConnect (session w)); cbn [filter is_subscribe app].
  - rewrite filter_subscribe_publishes. cbn. rewrite app_nil_r. reflexivity.
  - rewrite app_nil_r. reflexivity.
Qed.

Lemma conclude_connected (w : World D) :
  dev_mqttConnected (device w) = true -> conclude w = on_connected w.
Proof. intros Hc. unfold conclude. rewrite Hc. reflexivity. Qed.

(** C4: an attempt whose handshake leaves MQTT connected subscribes,
    through the transport and at [MQTT_QOS_LEVEL], exactly the topics
    of [_subscribedTopics], each once per entry and in the order of
    the list; [subscribe] appends to the end of that list. *)
Theorem resubscribes_in_insertion_order (waits : nat) (port : Z) (w : World D) :
  _mqttBrokerAddr (settings w) <> "" ->
  (1200 <= waits)%nat ->
  steady (50 * Z.of_nat waits) (board w) ->
  (exists w1,
     handshake waits port w = Done tt w1
     /\ (dev_mqttConnected (device w1) = true ->
         exists w' name ip,
           attempt waits port w = Done None w'
           /\ trace w' = trace w1 ++ connected_events name ip w1
           /\ filter is_subscribe (connected_events name ip w1)
              = map (fun topic => MqttSubscribe topic MQTT_QOS_LEVEL)
                    (_subscribedTopics (registry w1))
           /\ _subscribedTopics (registry w') = _subscribedTopics (registry w1)))
  /\ (forall prefix path,
        exists w',
          subscribe prefix path w = Done tt w'
          /\ _subscribedTopics (registry w')
             = _subscribedTopics (registry w) ++ [buildMqttPath [prefix; path]]).
Proof.
  intros Hb Hw Hst. split.
  - destruct (handshake_returns waits port w Hw Hst) as [w1 Hh].
    exists w1. split; [exact Hh|]. intros Hup.
    rewrite (attempt_after_handshake waits port w w1 Hb Hh).
    destruct (on_connected_effect w1) as (d' & name & ip & Hc).
    cbv zeta in Hc.
    eexists _, name, ip. split.
    + erewrite bind_Done; [reflexivity|].
      rewrite (conclude_connected w1 Hup). exact Hc.
    + cbn [trace registry]. split; [reflexivity|].
      split; [apply subscriptions_of_connected_events|reflexivity].
  - intros prefix path. eexists. split; reflexivity.
Qed.


(** *** The periodic tick *)

Lemma update_after_pump (attempts waits : nat) (w w1 : World D) (ts : Z) :
  pump w = Done ts w1 ->
  update attempts waits w = supervise attempts waits ts w1.
Proof.
  unfold pump, update, bind, ret.
  destruct (millis w) as [now w0| |]; try discriminate.
  destruct (device_update w0) as [[] w2| |]; try discriminate.
  intros Heq. injection Heq as <- <-. reflexivity.
Qed.

(** C10: [disableMqtt] clears [_mqttEnabled]; while it is clear,
    whatever calls have been made since, [update] returns true and its
    whole effect is that of reading the clock and pumping the
    transport: no restart, and nothing sent through the transport. *)
Theorem disabled_mqtt_update_only_pumps :
  (forall w : World D,
     exists w', disableMqtt w = Done tt w' /\ _mqttEnabled (session w') = false)
  /\ (forall (w : World D) (calls : list Call) (w1 : World D) (attempts waits : nat),
        _mqttEnabled (session w) = false ->
        for_each calls exec w = Done tt w1 ->
        exists w2,
          pump w1 = Done (next_millis (board w1)) w2
          /\ update attempts waits w1 = Done true w2
          /\ pumped w1 w2
          /\ _mqttEnabled (session w2) = false).
Proof.
  split.
  - intros w. eexists. split; reflexivity.
  - intros w calls w1 attempts waits Hoff Hrun.
    assert (Hstable : stable (fun s => _mqttEnabled s = false)).
    { intros s Hs. repeat split; intros; assumption || reflexivity. }
    pose proof (keeps_calls _ Hstable calls w w1 Hoff Hrun) as Hoff1.
    destruct (pump_returns w1) as (w2 & Hp & Hpumped).
    assert (Hoff2 : _mqttEnabled (session w2) = false).
    { destruct Hpumped as (_ & _ & _ & Hs & _).
      apply (f_equal _mqttEnabled) in Hs. cbn in Hs. congruence. }
    exists w2. split; [exact Hp|]. split; [|split; assumption].
    rewrite (update_after_pump attempts waits w1 w2 _ Hp).
    unfold supervise. rewrite Hoff2. reflexivity.
Qed.

(** C1, amended: with the transport connected, MQTT down, a network
    timeout of 30 s, the last tick with MQTT connected 46000 ms
    before this one and an uptime above 60000 ms, [update] restarts
    the device with the network-timeout watchdog reason. *)
Theorem network_timeout_restarts_after_grace
    (attempts waits : nat) (w w1 : World D) (ts : Z) :
  pump w = Done ts w1 ->
  _mqttEnabled (session w1) = true ->
  dev_isConnected (device w1) = true ->
  dev_mqttConnected (device w1) = false ->
  _networkTimeout (session w1) = 30 ->
  C.wrap (ts - _lastConnectedTs (session w1)) = 46000 ->
  60000 < ts ->
  exists w',
    update attempts waits w = Restarted NetworkTimeoutWatchdog w'
    /\ trace w' = trace w1.
Proof.
  intros Hp Hen Hlink Hdown Hnt Hago Hup.
  rewrite (update_after_pump attempts waits w w1 ts Hp).
  unfold supervise. rewrite Hen. cbn [negb].
  unfold bind at 1. unfold check_transport. rewrite Hlink.
  unfold bind at 1. unfold check_mqtt. rewrite Hdown.
  unfold bind at 1.
  unfold network_timeout_reached. rewrite Hnt, Hago.
  apply Z.ltb_lt in Hup. rewrite Hup.
  destruct w1; cbn. eexists. split; reflexivity.
Qed.

Lemma device_reconnect_effect s st r t b (d : D) tr :
  device_reconnect (mkWorld s st r t b d tr) =
  Done (fst (dev_reconnect d))
       (mkWorld s st r t b (snd (dev_reconnect d)) (tr ++ [DeviceReconnect])).
Proof.
  unfold device_reconnect. cbn [device]. destruct (dev_reconnect d); reflexivity.
Qed.

(** C7: when [update] finds the transport down and its [reconnect]
    reports [CriticalFailure], the fallback marker is written and the
    device restarts with the critical-failure reason; the boot that
    follows, with the fallback-disabled preference false, selects the
    Wi-Fi transport whatever hardware is persisted. *)
Theorem critical_failure_falls_back_to_wifi
    (attempts waits : nat) (w w1 : World D) (ts : Z) :
  pump w = Done ts w1 ->
  _mqttEnabled (session w1) = true ->
  dev_isConnected (device w1) = false ->
  (_restartOnDisconnect (session w1) = true -> next_millis (board w1) <= 60000) ->
  fst (dev_reconnect (device w1)) = CriticalFailure ->
  exists w',
    update attempts waits w = Restarted NetworkDeviceCriticalFailure w'
    /\ WiFi_fallbackDetect (board w') = "wifi_fallback"
    /\ forall prefs,
         preference_network_wifi_fallback_disabled prefs = false ->
         exists b',
           Boot.setupDevice (set_preferences prefs (Boot.reboot (board w')))
           = Done WiFi b'.
Proof.
  intros Hp Hen Hlink Hgrace Hcrit.
  rewrite (update_after_pump attempts waits w w1 ts Hp).
  unfold supervise. rewrite Hen. cbn [negb].
  unfold bind at 1. unfold check_transport. rewrite Hlink.
  destruct w1 as [s st r t b d tr]. cbn [session board device] in *.
  assert (Hboot : forall b0 : Board,
    forall prefs, preference_network_wifi_fallback_disabled prefs = false ->
    exists b',
      Boot.setupDevice
        (set_preferences prefs
           (Boot.reboot (set_clock (C.wrap (clock b0 + 200)) (drift b0)
                           (set_WiFi_fallbackDetect "wifi_fallback" b0))))
      = Done WiFi b').
  { intros b0 [hw fd prt cu lv] Hpref. cbn in Hpref. subst fd.
    unfold Boot.setupDevice. cbn.
    destruct (hw =? 0); cbn; eexists; reflexivity. }
  destruct (_restartOnDisconnect s) eqn:Hrod.
  - specialize (Hgrace eq_refl). apply Z.ltb_ge in Hgrace.
    erewrite bind_Done
      by (focus; rewrite Hrod; erewrite bind_Done by apply millis_effect;
          rewrite Hgrace; reflexivity).
    erewrite bind_Done by apply device_reconnect_effect.
    rewrite Hcrit. run. run. cbn.
    eexists. split; [reflexivity|]. split; [reflexivity|]. cbn [board]. apply Hboot.
  - erewrite bind_Done by (focus; rewrite Hrod; reflexivity).
    erewrite bind_Done by apply device_reconnect_effect.
    rewrite Hcrit. run. run. cbn.
    eexists. split; [reflexivity|]. split; [reflexivity|]. cbn [board]. apply Hboot.
Qed.

(** *** What the inbound callback hands on *)

Lemma truncated_length (payload : list ascii) : length (truncated payload) = 50%nat.
Proof.
  unfold truncated. rewrite length_app, length_firstn, repeat_length. lia.
Qed.

(** C9, amended: the buffer handed to the GPIO parsing and to the
    receivers is 50 bytes long, holds the first [min(len, 49)] bytes
    of the payload and zeros after them; alongside it the receivers
    are handed the topic and [index]. *)
Theorem inbound_payload_truncated
    (w : World D) (topic : string) (payload : list ascii) (index total : Z) :
  length (truncated payload) = 50%nat
  /\ firstn (Nat.min (length payload) 49) (truncated payload) = firstn 49 payload
  /\ skipn (Nat.min (length payload) 49) (truncated payload)
     = repeat zero (50 - Nat.min (length payload) 49)
  /\ onMqttDataReceivedCallback topic payload index total w
     = Done tt
         (add_events
            (gpio_events topic (truncated payload) w ++
             if next_millis (board w) <? _ignoreSubscriptionsTs (session w)
             then []
             else map (fun receiver => Deliver receiver topic (truncated payload) index)
                      (_mqttReceivers (registry w)))
            (read_clock w)).
Proof.
  split; [apply truncated_length|].
  assert (Hl : length (firstn (Nat.min (length payload) 49) payload)
               = Nat.min (length payload) 49).
  { rewrite length_firstn. lia. }
  assert (Hf : firstn (Nat.min (length payload) 49) payload = firstn 49 payload).
  { destruct (Nat.le_ge_cases (length payload) 49) as [Hle|Hge].
    - rewrite Nat.min_l by exact Hle. rewrite !firstn_all2 by lia. reflexivity.
    - rewrite Nat.min_r by exact Hge. reflexivity. }
  repeat split.
  - unfold truncated. rewrite firstn_app, Hl, Nat.sub_diag. cbn [firstn].
    rewrite app_nil_r, firstn_all2 by lia. exact Hf.
  - unfold truncated. rewrite skipn_app, Hl, Nat.sub_diag. cbn [skipn].
    rewrite skipn_all2 by lia. reflexivity.
  - unfold onMqttDataReceivedCallback. apply onMqttDataReceived_effect.
Qed.

(** X7: the quiet window, where the millisecond clock does not wrap
    inside it. A successful connect stores the time it reads plus
    2000 ms as the end of the window. When the connect was at
    [connected_at] and [connected_at + 2000] is below 2^32, a message
    handled at a clock reading below [connected_at + 2000] reaches no
    receiver; the only thing it can cause is the pin write of
    [parseGpioTopics], and when its topic is the state topic of a pin
    with the output role (pin numbers of at most two digits), that pin
    is written: high when the payload, read as a C string, is "1", low
    otherwise. *)
Theorem quiet_window_holds_without_wrap :
  (forall w : World D,
     dev_mqttConnected (device w) = true ->
     exists w',
       conclude w = Done tt w'
       /\ _ignoreSubscriptionsTs (session w') = C.wrap (clock (board w') + 2000))
  /\ (forall (w : World D) (connected_at : Z)
             (topic : string) (payload : list ascii) (index total : Z),
        0 <= connected_at ->
        connected_at + 2000 < 2 ^ 32 ->
        _ignoreSubscriptionsTs (session w) = C.wrap (connected_at + 2000) ->
        next_millis (board w) < connected_at + 2000 ->
        exists w',
          onMqttDataReceivedCallback topic payload index total w = Done tt w'
          /\ trace w' = trace w ++ gpio_events topic (truncated payload) w
          /\ filter is_deliver (trace w') = filter is_deliver (trace w)
          /\ (forall pin,
                0 <= pin < 100 ->
                getPinRole (board w) pin = GeneralOutput ->
                topic = gpio_state_topic (_lockPath (settings w)) pin ->
                trace w' = trace w ++
                  [DigitalWrite pin (String.eqb (C.cstr (truncated payload)) "1")])).
Proof.
  split.
  - intros w Hup.
    destruct (on_connected_effect w) as (d' & name & ip & Hc). cbv zeta in Hc.
    rewrite (conclude_connected w Hup), Hc.
    eexists. split; reflexivity.
  - intros w connected_at topic payload index total Hpos Hfits Hend Hbefore.
    assert (Hquiet : (next_millis (board w) <? _ignoreSubscriptionsTs (session w)) = true).
    { apply Z.ltb_lt. rewrite Hend. unfold C.wrap.
      rewrite Z.mod_small by lia. exact Hbefore. }
    unfold onMqttDataReceivedCallback.
    rewrite onMqttDataReceived_effect, Hquiet, app_nil_r.
    eexists. split; [reflexivity|]. cbn [trace add_events read_clock with_board].
    split; [reflexivity|]. split.
    + rewrite filter_app.
      assert (Hg : filter is_deliver (gpio_events topic (truncated payload) w) = []).
      { unfold gpio_events. destruct (C.strncmp_eq _ _ _); [|reflexivity].
        cbv zeta. destruct (PinRole_eqb _ _); reflexivity. }
      rewrite Hg. apply app_nil_r.
    + intros pin Hpin Hrole ->.
      rewrite (gpio_events_state_topic w pin _ Hpin Hrole). reflexivity.
Qed.

(** *** Further properties of the inbound router *)

Lemma PinRole_eqb_eq (a b : PinRole) : PinRole_eqb a b = true -> a = b.
Proof. destruct a, b; cbn; intros; congruence. Qed.

(** X5: whatever the topic and the payload of an inbound message,
    and inside or outside the quiet window, it causes at most one pin
    write, and only on a pin whose configured role is output. *)
Theorem inbound_writes_only_output_pins
    (w : World D) (topic : string) (payload : list ascii) (index total : Z) :
  exists w' evs,
    onMqttDataReceivedCallback topic payload index total w = Done tt w'
    /\ trace w' = trace w ++ evs
    /\ (length (filter (fun e => negb (is_deliver e)) evs) <= 1)%nat
    /\ forall e, In e evs ->
         is_deliver e = true
         \/ exists pin high,
              e = DigitalWrite pin high
              /\ getPinRole (board w) pin = GeneralOutput.
Proof.
  unfold onMqttDataReceivedCallback. rewrite onMqttDataReceived_effect.
  eexists _, _. split; [reflexivity|]. split; [reflexivity|].
  assert (Hd : forall l : list Event,
            l = [] \/ l = deliveries topic (truncated payload) index w ->
            filter (fun e => negb (is_deliver e)) l = []
            /\ forall e, In e l -> is_deliver e = true).
  { intros l [->| ->]; [split; [reflexivity|intros e []]|].
    unfold deliveries. induction (_mqttReceivers (registry w)) as [|r rs IH]; cbn.
    - split; [reflexivity|intros e []].
    - destruct IH as [IH1 IH2]. split; [exact IH1|].
      intros e [<-|He]; [reflexivity|auto]. }
  set (ds := if next_millis (board w) <? _ignoreSubscriptionsTs (session w)
             then [] else deliveries topic (truncated payload) index w).
  destruct (Hd ds) as [Hd1 Hd2].
  { subst ds. destruct (_ <? _); auto. }
  rewrite filter_app, Hd1, app_nil_r. split.
  - unfold gpio_events. destruct (C.strncmp_eq _ _ _); [|cbn; lia].
    cbv zeta. destruct (PinRole_eqb _ _); cbn; lia.
  - intros e He. apply in_app_or in He. destruct He as [He|He]; [|left; auto].
    right. unfold gpio_events in He.
    destruct (C.strncmp_eq _ _ _); [|destruct He].
    cbv zeta in He.
    destruct (PinRole_eqb _ GeneralOutput) eqn:Hrole; [|destruct He].
    destruct He as [<-|[]]. eexists _, _. split; [reflexivity|].
    apply PinRole_eqb_eq. exact Hrole.
Qed.

Lemma one_digit_pins : forallb one_digit_ok (seq 0 10) = true.
Proof. vm_compute. reflexivity. Qed.

Lemma two_digit_pins : forallb two_digits_ok (seq 10 90) = true.
Proof. vm_compute. reflexivity. Qed.

Lemma pin_field_with_tail (pin : Z) (rest : string) :
  0 <= pin < 100 ->
  10 <= pin \/ rest = "" \/ first_char rest = "/"%char ->
  pin_field (C.to_string pin ++ rest)%string = pin.
Proof.
  intros Hpin Hrest. unfold pin_field.
  destruct (Z_lt_le_dec pin 10) as [Hlt|Hge].
  - assert (Hin : In (Z.to_nat pin) (seq 0 10)) by (apply in_seq; lia).
    pose proof (proj1 (forallb_forall _ _) one_digit_pins _ Hin) as Hok.
    unfold one_digit_ok in Hok. rewrite Z2Nat.id in Hok by lia.
    destruct (C.to_string pin) as [|a [|b s]]; try discriminate.
    apply andb_prop in Hok. destruct Hok as [Hv _]. apply Z.eqb_eq in Hv.
    destruct Hrest as [Hten|[-> |Hslash]]; [lia| |].
    + cbn. exact Hv.
    + destruct rest as [|c rest]; [cbn; exact Hv|].
      cbn in Hslash. subst c. cbn. exact Hv.
  - assert (Hin : In (Z.to_nat pin) (seq 10 90)) by (apply in_seq; lia).
    pose proof (proj1 (forallb_forall _ _) two_digit_pins _ Hin) as Hok.
    unfold two_digits_ok in Hok. rewrite Z2Nat.id in Hok by lia.
    destruct (C.to_string pin) as [|a [|b [|c s]]]; try discriminate.
    apply andb_prop in Hok. destruct Hok as [Hv Hb]. apply Z.eqb_eq in Hv.
    cbn [String.append C.char_at String.get].
    change (match (1%nat) with O => Some a | S n' => String.get n' (String b rest) end)
      with (Some b).
    rewrite Hb. exact Hv.
Qed.

(** X6: [parseGpioTopics] reads the pin number and nothing behind it:
    a topic that starts with [<lockPath>/gpio/pin_<n>] for an output
    pin [n] of at most two digits drives that pin whatever follows a
    two-digit number, and for a one-digit number when the topic ends
    there or goes on with a separator. *)
Theorem gpio_topic_tail_not_examined
    (w : World D) (pin : Z) (rest : string) (payload : list ascii) :
  0 <= pin < 100 ->
  getPinRole (board w) pin = GeneralOutput ->
  10 <= pin \/ rest = "" \/ first_char rest = "/"%char ->
  parseGpioTopics
    ((_lockPath (settings w) ++ "/gpio/pin_") ++ (C.to_string pin ++ rest))%string
    payload w
  = Done tt (add_events [DigitalWrite pin (String.eqb (C.cstr payload) "1")] w).
Proof.
  intros Hpin Hrole Hrest. rewrite parseGpioTopics_events. f_equal. f_equal.
  unfold gpio_events.
  assert (Hpath : buildMqttPath [_lockPath (settings w); mqtt_topic_gpio_prefix; mqtt_topic_gpio_pin]
                  = (_lockPath (settings w) ++ "/gpio/pin_")%string).
  { rewrite buildMqttPath_cons. reflexivity. }
  rewrite Hpath. cbv zeta.
  rewrite strncmp_eq_prefix, char_at_app.
  rewrite (char_at_end (_lockPath (settings w) ++ "/gpio/pin_")).
  change (C.atoi _) with (pin_field (C.to_string pin ++ rest)).
  rewrite (pin_field_with_tail pin rest Hpin Hrest), Hrole. reflexivity.
Qed.

Lemma cstr_until_zero (l r : list ascii) :
  Forall (fun c => c <> zero) l ->
  C.cstr (l ++ zero :: r) = string_of_list_ascii l.
Proof.
  induction 1 as [|c l Hc Hl IH]; cbn; [reflexivity|].
  destruct (Ascii.eqb_spec c zero); [contradiction|]. rewrite IH. reflexivity.
Qed.

Lemma cstr_length_until_zero (l r : list ascii) :
  (String.length (C.cstr (l ++ zero :: r)) <= length l)%nat.
Proof.
  induction l as [|c l IH]; cbn; [lia|].
  destruct (Ascii.eqb c zero); cbn; lia.
Qed.

Lemma truncated_split (payload : list ascii) :
  exists pad,
    truncated payload = firstn (Nat.min (length payload) 49) payload ++ zero :: pad.
Proof.
  unfold truncated.
  destruct (50 - Nat.min (length payload) 49)%nat as [|k] eqn:Hk; [lia|].
  exists (repeat zero k). reflexivity.
Qed.

Lemma firstn_min_49 (payload : list ascii) :
  firstn (Nat.min (length payload) 49) payload = firstn 49 payload.
Proof.
  destruct (Nat.le_ge_cases (length payload) 49) as [Hle|Hge].
  - rewrite Nat.min_l by exact Hle. rewrite !firstn_all2 by lia. reflexivity.
  - rewrite Nat.min_r by exact Hge. reflexivity.
Qed.

Lemma Forall_firstn_nonzero (n : nat) (l : list ascii) :
  Forall (fun c => c <> zero) l -> Forall (fun c => c <> zero) (firstn n l).
Proof.
  intros Hl. revert n. induction Hl as [|c l Hc Hl IH]; intros [|n]; cbn; auto.
Qed.

Lemma truncated_text (payload : list ascii) :
  Forall (fun c => c <> zero) payload ->
  C.cstr (truncated payload) = string_of_list_ascii (firstn 49 payload).
Proof.
  intros Htext. destruct (truncated_split payload) as [pad Hsplit].
  rewrite Hsplit, firstn_min_49.
  apply cstr_until_zero. apply Forall_firstn_nonzero. exact Htext.
Qed.

(** X8: the buffer handed on is always terminated: read as a C
    string it has at most 49 characters, and for a payload without
    NUL bytes it reads as the first 49 bytes of the payload (the whole
    payload when that is shorter). *)
Theorem truncated_reads_as_c_string (payload : list ascii) :
  (String.length (C.cstr (truncated payload)) <= 49)%nat
  /\ (Forall (fun c => c <> zero) payload ->
      C.cstr (truncated payload) = string_of_list_ascii (firstn 49 payload)).
Proof.
  split; [|apply truncated_text].
  destruct (truncated_split payload) as [pad Hsplit]. rewrite Hsplit.
  etransitivity; [apply cstr_length_until_zero|].
  rewrite length_firstn. lia.
Qed.

(** X9: for a payload without NUL bytes the pin is driven high
    exactly when the payload is the single character 1; a payload
    that goes on behind a NUL byte after the 1 is read as "1" too. *)
Theorem gpio_level_of_payload (payload : list ascii) :
  (Forall (fun c => c <> zero) payload ->
   (String.eqb (C.cstr (truncated payload)) "1" = true <-> payload = ["1"%char]))
  /\ (forall rest,
        String.eqb (C.cstr (truncated ("1"%char :: zero :: rest))) "1" = true).
Proof.
  split.
  - intros Htext.
    rewrite (truncated_text payload Htext).
    rewrite String.eqb_eq. split.
    + intros Heq.
      apply (f_equal list_ascii_of_string) in Heq.
      rewrite list_ascii_of_string_of_list_ascii in Heq. cbn in Heq.
      destruct payload as [|c [|c' rest]]; cbn in Heq; congruence.
    + intros ->. reflexivity.
  - intros rest. unfold truncated.
    change (length ("1"%char :: zero :: rest)) with (S (S (length rest))).
    change (Nat.min (S (S (length rest))) 49) with (S (S (Nat.min (length rest) 47))).
    reflexivity.
Qed.

(** *** Relations between the worlds before and after an operation *)

Section Respects.

Variable R : World D -> World D -> Prop.
Variable E : RestartReason -> Prop.

Hypothesis Rrefl : forall w, R w w.
Hypothesis Rtrans : forall w1 w2 w3, R w1 w2 -> R w2 w3 -> R w1 w3.

(** What each kind of assignment has to respect; a statement about
    one function needs those of the assignments it can reach. *)
Hypothesis Rdevice : forall s st r t b d tr d',
  R (mkWorld s st r t b d tr) (mkWorld s st r t b d' tr).
Hypothesis Rlog : forall s st r t b (d : D) tr e,
  R (mkWorld s st r t b d tr) (mkWorld s st r t b d (tr ++ [e])).
Hypothesis Rclock : forall s st r t b (d : D) tr c dr,
  R (mkWorld s st r t b d tr) (mkWorld s st r t (set_clock c dr b) d tr).
Hypothesis Rpreferences : forall s st r t b (d : D) tr p,
  R (mkWorld s st r t b d tr) (mkWorld s st r t (set_preferences p b) d tr).
Hypothesis Rmarker : forall s st r t b (d : D) tr m,
  R (mkWorld s st r t b d tr) (mkWorld s st r t (set_WiFi_fallbackDetect m b) d tr).
Hypothesis Rtelemetry : forall s st r t b (d : D) tr t',
  R (mkWorld s st r t b d tr) (mkWorld s st r t' b d tr).
Hypothesis Rstate : forall s st r t b (d : D) tr v,
  R (mkWorld s st r t b d tr) (mkWorld (set_mqttConnectionState v s) st r t b d tr).
Hypothesis Rreply : forall s st r t b (d : D) tr v,
  R (mkWorld s st r t b d tr) (mkWorld (set_connectReplyReceived v s) st r t b d tr).
Hypothesis Rfirst : forall s st r t b (d : D) tr,
  R (mkWorld s st r t b d tr) (mkWorld (set_firstConnect false s) st r t b d tr).
Hypothesis Rnext : forall s st r t b (d : D) tr v,
  R (mkWorld s st r t b d tr) (mkWorld (set_nextReconnect v s) st r t b d tr).
Hypothesis Rlast : forall s st r t b (d : D) tr v,
  R (mkWorld s st r t b d tr) (mkWorld (set_lastConnectedTs v s) st r t b d tr).
Hypothesis Rignore : forall s st r t b (d : D) tr v,
  R (mkWorld s st r t b d tr) (mkWorld (set_ignoreSubscriptionsTs v s) st r t b d tr).
Hypothesis Rauto : forall s st r t b (d : D) tr,
  R (mkWorld s st r t b d tr) (mkWorld (set_autoRestarts 0 false s) st r t b d tr).
Hypothesis Renabled : forall s st r t b (d : D) tr,
  R (mkWorld s st r t b d tr) (mkWorld (set_mqttEnabled false s) st r t b d tr).
Hypothesis Rhandler : forall s st r t b (d : D) tr,
  R (mkWorld s st r t b d tr) (mkWorld s st (set_messageHandler true r) t b d tr).
Hypothesis Rsubscribed : forall s st r t b (d : D) tr x,
  R (mkWorld s st r t b d tr)
    (mkWorld s st (set_subscribedTopics (_subscribedTopics r ++ [x]) r) t b d tr).
Hypothesis Rinit : forall s st r t b (d : D) tr k v,
  R (mkWorld s st r t b d tr)
    (mkWorld s st (set_initTopics (string_map_put k v (_initTopics r)) r) t b d tr).
Hypothesis Rreceivers : forall s st r t b (d : D) tr x,
  R (mkWorld s st r t b d tr)
    (mkWorld s st (set_mqttReceivers (_mqttReceivers r ++ [x]) r) t b d tr).
Hypothesis Rcallbacks : forall s st r t b (d : D) tr x,
  R (mkWorld s st r t b d tr)
    (mkWorld s st (set_reconnectedCallbacks (_reconnectedCallbacks r ++ [x]) r) t b d tr).
Hypothesis RkeepAlive : forall s st r t b (d : D) tr x,
  R (mkWorld s st r t b d tr) (mkWorld s st (set_keepAliveCallback x r) t b d tr).

Hypothesis Edisconnect : E RestartOnDisconnectWatchdog.
Hypothesis Ecritical : E NetworkDeviceCriticalFailure.
Hypothesis Etimeout : E NetworkTimeoutWatchdog.

Lemma respects_ret {A} (a : A) : respects R E (ret (D := D) a).
Proof. intros w. apply Rrefl. Qed.

Lemma respects_out_of_fuel {A} : respects R E (fun _ : World D => @OutOfFuel _ A).
Proof. intros w. exact I. Qed.

Lemma respects_bind {A B} (c : M D A) (k : A -> M D B) :
  respects R E c -> (forall a, respects R E (k a)) -> respects R E (bind c k).
Proof.
  intros Hc Hk w. unfold bind. specialize (Hc w).
  destruct (c w) as [a w1|r w1|]; cbn in *; auto.
  specialize (Hk a w1). destruct (k a w1) as [b w2|r w2|]; cbn in *; auto.
  - eapply Rtrans; eauto.
  - destruct Hk as [Hk1 Hk2]. split; [eapply Rtrans; eauto|exact Hk2].
Qed.

Lemma respects_modify (f : World D -> World D) :
  (forall w, R w (f w)) -> respects R E (modify f).
Proof. intros Hf w. apply Hf. Qed.

Lemma respects_restartEsp {A} (r : RestartReason) :
  E r -> respects R E (restartEsp (D := D) (A := A) r).
Proof. intros Hr w. split; [apply Rrefl|exact Hr]. Qed.

Lemma respects_for_each {A} (xs : list A) (body : A -> M D unit) :
  (forall x, respects R E (body x)) -> respects R E (for_each xs body).
Proof.
  intros Hb. induction xs as [|x xs IH]; cbn [for_each].
  - apply respects_ret.
  - apply respects_bind; auto.
Qed.

Lemma respects_millis : respects R E (millis (D := D)).
Proof. intros [s st r t b d tr]. apply Rclock. Qed.

Lemma respects_delay ms : respects R E (delay (D := D) ms).
Proof. intros [s st r t b d tr]. apply Rclock. Qed.

Lemma respects_call f e : respects R E (call f e).
Proof.
  intros [s st r t b d tr]. eapply Rtrans; [apply Rdevice|apply Rlog].
Qed.

Lemma respects_log e : respects R E (modify (D := D) (log e)).
Proof. intros [s st r t b d tr]. apply Rlog. Qed.

Lemma respects_mqttPublish topic qos retain payload :
  respects R E (mqttPublish topic qos retain payload).
Proof.
  intros [s st r t b d tr]. rewrite mqttPublish_effect.
  eapply Rtrans; [apply Rdevice|apply Rlog].
Qed.

Lemma respects_mqttSubscribe topic qos : respects R E (mqttSubscribe topic qos).
Proof.
  intros [s st r t b d tr]. rewrite mqttSubscribe_effect.
  eapply Rtrans; [apply Rdevice|apply Rlog].
Qed.

Lemma respects_device_reconnect : respects R E device_reconnect.
Proof.
  intros [s st r t b d tr]. rewrite device_reconnect_effect.
  eapply Rtrans; [apply Rdevice|apply Rlog].
Qed.

Lemma respects_keepAlive : respects R E (keepAlive (D := D)).
Proof.
  intros [s st r t b d tr]. unfold keepAlive. cbn [registry].
  destruct (_keepAliveCallback r); [apply Rlog|apply Rrefl].
Qed.

Lemma respects_parseGpioTopics topic payload :
  respects R E (parseGpioTopics (D := D) topic payload).
Proof.
  intros w. rewrite parseGpioTopics_events.
  unfold gpio_events. destruct (C.strncmp_eq _ _ _);
    [|rewrite add_events_nil; apply Rrefl].
  cbv zeta. destruct (PinRole_eqb _ _); [|rewrite add_events_nil; apply Rrefl].
  destruct w as [s st r t b d tr]. apply Rlog.
Qed.

(** Enters a computation that reads the world it runs in. *)
Ltac enter_frame :=
  let w := fresh "w" in
  intros w; cbn beta zeta.

Ltac leave_frame :=
  lazymatch goal with
  | |- outcome_ok _ _ _ OutOfFuel => exact I
  | |- outcome_ok _ _ ?w (Done _ ?w) => apply Rrefl
  | |- outcome_ok _ _ ?w (?c ?w) => apply (fun K : respects R E c => K w)
  end.

Ltac assigned :=
  let w := fresh "w" in
  intros w; destruct w as [? ? ? ? ? ? ?];
  first [ apply Rtelemetry | apply Rpreferences | apply Rmarker | apply Rclock
        | apply Rstate | apply Rreply | apply Rfirst | apply Rnext | apply Rlast
        | apply Rignore | apply Rauto | apply Renabled | apply Rhandler
        | apply Rsubscribed | apply Rinit | apply Rreceivers | apply Rcallbacks
        | apply RkeepAlive | apply Rlog ].

Ltac frame_step :=
  lazymatch goal with
  | |- respects _ _ (bind _ _) => apply respects_bind; [|intros ?]
  | |- respects _ _ (ret _) => apply respects_ret
  | |- respects _ _ (restartEsp _) =>
      apply respects_restartEsp;
      first [apply Edisconnect | apply Ecritical | apply Etimeout]
  | |- respects _ _ (@millis _) => apply respects_millis
  | |- respects _ _ (delay _) => apply respects_delay
  | |- respects _ _ (digitalWrite _ _) => apply respects_log
  | |- respects _ _ (call _ _) => apply respects_call
  | |- respects _ _ (modify _) => apply respects_modify; assigned
  | |- respects _ _ (mqttPublish _ _ _ _) => apply respects_mqttPublish
  | |- respects _ _ (mqttSubscribe _ _) => apply respects_mqttSubscribe
  | |- respects _ _ device_reconnect => apply respects_device_reconnect
  | |- respects _ _ (@keepAlive _) => apply respects_keepAlive
  | |- respects _ _ (parseGpioTopics _ _) => apply respects_parseGpioTopics
  | |- respects _ _ (for_each _ _) => apply respects_for_each; intros ?
  | |- respects _ _ (if ?b then _ else _) => destruct b
  | |- respects _ _ (match ?x with _ => _ end) => destruct x
  | |- respects _ _ (fun _ => OutOfFuel) => apply respects_out_of_fuel
  | |- respects _ _ (fun _ => _) => enter_frame
  | |- outcome_ok _ _ _ ((if ?b then _ else _) _) => destruct b
  | |- outcome_ok _ _ _ ((match ?x with _ => _ end) _) => destruct x
  | |- outcome_ok _ _ _ (if ?b then _ else _) => destruct b
  | |- outcome_ok _ _ _ (match ?x with _ => _ end) => destruct x
  | |- outcome_ok _ _ _ _ => leave_frame
  end.

Lemma respects_publishString p t v : respects R E (publishString p t v).
Proof. unfold publishString. repeat frame_step. Qed.

Lemma respects_publishInt p t v : respects R E (publishInt p t v).
Proof. unfold publishInt. repeat frame_step. Qed.

Lemma respects_publishBool p t v : respects R E (publishBool p t v).
Proof. unfold publishBool. repeat frame_step. Qed.

Lemma respects_mqttOnMessage : respects R E mqttOnMessage.
Proof. unfold mqttOnMessage. repeat frame_step. Qed.

Lemma respects_onMqttDataReceived topic payload len index total :
  respects R E (onMqttDataReceived (D := D) topic payload len index total).
Proof. unfold onMqttDataReceived. repeat frame_step. Qed.

Lemma respects_dispatch cb : respects R E (dispatch (D := D) cb).
Proof.
  destruct cb; cbn [dispatch]; unfold onMqttConnect, onMqttDisconnect.
  - repeat frame_step.
  - repeat frame_step.
  - repeat frame_step. unfold onMqttDataReceivedCallback.
    apply respects_onMqttDataReceived.
Qed.

Lemma respects_device_update : respects R E device_update.
Proof.
  intros w. unfold device_update.
  destruct (dev_update (device w)) as [cbs d1].
  pose proof (respects_for_each cbs dispatch respects_dispatch (with_device d1 w)) as K.
  destruct w as [s st r t b d tr]. unfold with_device in *. cbn [session settings registry telemetry board device trace] in *.
  destruct (for_each cbs dispatch _) as [a w1|rr w1|]; cbn in *; auto.
  - eapply Rtrans; [apply Rdevice|exact K].
  - destruct K as [K1 K2]. split; [eapply Rtrans; [apply Rdevice|exact K1]|exact K2].
Qed.

Lemma respects_pump : respects R E pump.
Proof.
  unfold pump. repeat first [ frame_step | apply respects_device_update ].
Qed.

Lemma respects_await_reply fuel timeout : respects R E (await_reply fuel timeout).
Proof.
  induction fuel as [|fuel IH]; cbn [await_reply];
    repeat first [ frame_step | apply respects_device_update | exact IH ].
Qed.

Lemma respects_replay_init_topics : respects R E replay_init_topics.
Proof.
  unfold replay_init_topics.
  repeat first [ frame_step | apply respects_publishString ].
Qed.

Lemma respects_on_connected : respects R E on_connected.
Proof.
  unfold on_connected.
  repeat first [ frame_step | apply respects_mqttOnMessage
               | apply respects_replay_init_topics | apply respects_publishString ].
Qed.

Lemma respects_on_connect_failed : respects R E on_connect_failed.
Proof. unfold on_connect_failed. repeat frame_step. Qed.

Lemma respects_handshake waits port : respects R E (handshake waits port).
Proof.
  unfold handshake. repeat first [ frame_step | apply respects_await_reply ].
Qed.

Lemma respects_conclude : respects R E conclude.
Proof.
  unfold conclude.
  repeat first [ frame_step | apply respects_on_connected
               | apply respects_on_connect_failed ].
Qed.

Lemma respects_attempt waits port : respects R E (attempt waits port).
Proof.
  unfold attempt.
  repeat first [ frame_step | apply respects_handshake | apply respects_conclude ].
Qed.

Lemma respects_reconnect_loop attempts waits port :
  respects R E (reconnect_loop attempts waits port).
Proof.
  induction attempts as [|attempts IH]; cbn [reconnect_loop];
    repeat first [ frame_step | apply respects_attempt | exact IH ].
Qed.

Lemma respects_reconnect attempts waits : respects R E (reconnect attempts waits).
Proof.
  unfold reconnect. repeat first [ frame_step | apply respects_reconnect_loop ].
Qed.

Lemma respects_check_transport : respects R E check_transport.
Proof. unfold check_transport. repeat frame_step. Qed.

Lemma respects_check_mqtt attempts waits ts :
  respects R E (check_mqtt attempts waits ts).
Proof.
  unfold check_mqtt. repeat first [ frame_step | apply respects_reconnect ].
Qed.

Lemma respects_publish_presence : respects R E publish_presence.
Proof.
  unfold publish_presence. repeat first [ frame_step | apply respects_publishString ].
Qed.

Lemma respects_publish_rssi ts : respects R E (publish_rssi ts).
Proof.
  unfold publish_rssi. repeat first [ frame_step | apply respects_publishInt ].
Qed.

Lemma respects_publish_maintenance ts : respects R E (publish_maintenance ts).
Proof.
  unfold publish_maintenance, publishULong, publishUInt.
  repeat first [ frame_step | apply respects_publishInt | apply respects_publishString ].
Qed.

Lemma respects_check_updates ts : respects R E (check_updates ts).
Proof.
  unfold check_updates. repeat first [ frame_step | apply respects_publishString ].
Qed.

Lemma respects_publish_gpio : respects R E publish_gpio.
Proof.
  unfold publish_gpio, report_pin.
  repeat first [ frame_step | apply respects_publishInt ].
Qed.

(** The part of [update] behind the reconnect. *)
Lemma respects_publishing ts :
  respects R E
    (publish_presence ;;; publish_rssi ts ;;; publish_maintenance ts ;;;
     check_updates ts ;;; publish_gpio ;;; ret true).
Proof.
  repeat first [ frame_step | apply respects_publish_presence
               | apply respects_publish_rssi | apply respects_publish_maintenance
               | apply respects_check_updates | apply respects_publish_gpio ].
Qed.

Lemma respects_supervise attempts waits ts :
  respects R E (supervise attempts waits ts).
Proof.
  unfold supervise.
  repeat first [ apply respects_publishing | frame_step
               | apply respects_check_transport | apply respects_check_mqtt ].
Qed.

Lemma respects_update attempts waits : respects R E (update attempts waits).
Proof.
  unfold update.
  repeat first [ frame_step | apply respects_device_update | apply respects_supervise ].
Qed.

Lemma respects_exec (c : Call) : respects R E (exec c).
Proof.
  destruct c; cbn [exec];
    unfold subscribe, initTopic, registerMqttReceiver, addReconnectedCallback,
           setKeepAliveCallback, publishPresenceDetection, gpioActionCallback,
           disableAutoRestarts, disableMqtt;
    repeat first [ frame_step | apply respects_update | apply respects_publishString
                 | apply respects_publishInt | apply respects_publishBool ].
Qed.

Lemma respects_calls (calls : list Call) : respects R E (for_each calls exec).
Proof. apply respects_for_each. exact respects_exec. Qed.

End Respects.

(** *** Further properties of the reconnection protocol *)

Lemma bind_Done_inv {A B} (c : M D A) (k : A -> M D B) (w w' : World D) (b : B) :
  bind c k w = Done b w' ->
  exists a w1, c w = Done a w1 /\ k a w1 = Done b w'.
Proof.
  unfold bind. destruct (c w) as [a w1|r w1|]; try discriminate. eauto.
Qed.

Lemma bind_Restarted_inv {A B} (c : M D A) (k : A -> M D B)
    (w w' : World D) (r : RestartReason) :
  bind c k w = Restarted r w' ->
  c w = Restarted r w'
  \/ exists a w1, c w = Done a w1 /\ k a w1 = Restarted r w'.
Proof.
  unfold bind. destruct (c w) as [a w1|r1 w1|]; try discriminate.
  - intros Hk. right. eauto.
  - intros Hk. injection Hk as -> ->. left. reflexivity.
Qed.

Ltac frames :=
  try solve [ intros; cbn; first [reflexivity | congruence | exact I | tauto] ].

Lemma reconnect_loop_not_due (attempts waits : nat) (port : Z) s st r t b (d : D) tr :
  dev_mqttConnected d = false ->
  next_millis b <= _nextReconnect s ->
  reconnect_loop attempts waits port (mkWorld s st r t b d tr)
  = Done None (mkWorld s st r t (set_clock (next_millis b) (tl (drift b)) b) d tr).
Proof.
  intros Hdown Hwait. apply Z.ltb_ge in Hwait.
  destruct attempts; cbn [reconnect_loop device]; rewrite Hdown;
    erewrite bind_Done by apply millis_effect;
    cbn [session]; rewrite Hwait; reflexivity.
Qed.

Lemma reconnect_loop_connected (attempts waits : nat) (port : Z) (w : World D) :
  dev_mqttConnected (device w) = true ->
  reconnect_loop attempts waits port w = Done None w.
Proof.
  intros Hup. destruct attempts; cbn [reconnect_loop]; rewrite Hup; reflexivity.
Qed.

(** X13: while the retry deadline has not passed, [reconnect] calls
    nothing on the transport: it reads the clock once, leaves the
    deadline as it is and returns false; called while MQTT is
    connected it returns false as well, without reading the clock,
    and the connection state it leaves is 0. *)
Theorem reconnect_waits_for_deadline (attempts waits : nat) (w : World D) :
  (dev_mqttConnected (device w) = false ->
   next_millis (board w) <= _nextReconnect (session w) ->
   reconnect attempts waits w
   = Done false (read_clock (with_session (set_mqttConnectionState 0) w)))
  /\ (dev_mqttConnected (device w) = true ->
      reconnect attempts waits w
      = Done false (with_session (set_mqttConnectionState 0) w)).
Proof.
  destruct w as [s st r t b d tr]. cbn [device board session]. split.
  - intros Hdown Hwait. unfold reconnect. run. focus.
    erewrite bind_Done by (apply reconnect_loop_not_due; [exact Hdown|exact Hwait]).
    reflexivity.
  - intros Hup. unfold reconnect. run. focus.
    erewrite bind_Done by (apply reconnect_loop_connected; exact Hup).
    reflexivity.
Qed.

Lemma conclude_state (w : World D) :
  exists w',
    conclude w = Done tt w'
    /\ (_mqttConnectionState (session w') = 0 \/ _mqttConnectionState (session w') = 2).
Proof.
  unfold conclude. destruct (dev_mqttConnected (device w)).
  - destruct (on_connected_effect w) as (d' & name & ip & Hc). cbv zeta in Hc.
    rewrite Hc. eexists. split; [reflexivity|]. right. reflexivity.
  - destruct (on_connect_failed_effect w) as (w' & Hf & Hs & _).
    exists w'. split; [exact Hf|]. left. exact Hs.
Qed.

Lemma attempt_settings (waits : nat) (port : Z) (w : World D) :
  outcome_ok (fun w w' => settings w' = settings w) (fun _ => True)
             w (attempt waits port w).
Proof.
  apply (respects_attempt (fun w w' => settings w' = settings w) (fun _ => True));
    frames.
Qed.

Lemma attempt_state (waits : nat) (port : Z) (w w' : World D) (r : option bool) :
  attempt waits port w = Done r w' ->
  settings w' = settings w
  /\ (_mqttBrokerAddr (settings w) = "" ->
      r = Some false /\ _mqttConnectionState (session w') = _mqttConnectionState (session w))
  /\ (_mqttBrokerAddr (settings w) <> "" ->
      r = None
      /\ (_mqttConnectionState (session w') = 0 \/ _mqttConnectionState (session w') = 2)).
Proof.
  intros Ha. pose proof (attempt_settings waits port w) as Hs. rewrite Ha in Hs.
  split; [exact Hs|]. unfold attempt in Ha.
  destruct (String.eqb_spec (_mqttBrokerAddr (settings w)) "") as [He|Hne].
  - split; [intros _|contradiction].
    destruct w as [s st r0 t b d tr]. cbn in Ha. injection Ha as <- <-. auto.
  - split; [contradiction|intros _].
    apply bind_Done_inv in Ha. destruct Ha as ([] & w1 & _ & Ha).
    apply bind_Done_inv in Ha. destruct Ha as ([] & w2 & Hc & Ha).
    injection Ha as <- <-. split; [reflexivity|].
    destruct (conclude_state w1) as (w2' & Hc' & Hst). congruence.
Qed.

Lemma reconnect_loop_state (attempts waits : nat) (port : Z) :
  forall (w w' : World D) (r : option bool),
    (_mqttConnectionState (session w) = 0
     \/ (_mqttConnectionState (session w) = 2 /\ _mqttBrokerAddr (settings w) <> "")) ->
    reconnect_loop attempts waits port w = Done r w' ->
    match r with
    | Some b => b = false /\ _mqttConnectionState (session w') = 0
    | None => _mqttConnectionState (session w') = 0
              \/ _mqttConnectionState (session w') = 2
    end.
Proof.
  induction attempts as [|attempts IH]; intros w w' r Hinv Hloop;
    cbn [reconnect_loop] in Hloop;
    (destruct (dev_mqttConnected (device w));
     [injection Hloop as <- <-; tauto|]);
    destruct w as [s st r0 t b d tr];
    rewrite (bind_Done _ _ _ _ _ (millis_effect _ _ _ _ _ _ _)) in Hloop;
    cbn beta in Hloop; cbn [session _nextReconnect] in Hloop;
    (destruct (_nextReconnect s <? next_millis b);
     [|injection Hloop as <- <-; cbn in *; tauto]).
  - discriminate.
  - apply bind_Done_inv in Hloop. destruct Hloop as (ra & w1 & Ha & Hk).
    destruct (attempt_state _ _ _ _ _ Ha) as (Hset & Hempty & Hfull).
    cbn [settings session] in *.
    destruct (String.eqb_spec (_mqttBrokerAddr st) "") as [He|Hne].
    + destruct (Hempty He) as [-> Hst]. injection Hk as <- <-.
      split; [reflexivity|]. rewrite Hst. destruct Hinv as [H0|[_ Hb]]; [exact H0|contradiction].
    + destruct (Hfull Hne) as [-> Hst].
      apply (IH w1 w' r); [|exact Hk].
      destruct Hst as [H0|H2]; [left; exact H0|right].
      split; [exact H2|]. rewrite Hset. exact Hne.
Qed.

(** X14: [reconnect] reports the connection state it leaves: when
    it returns true the state is 2, when it returns false the state
    is 0; the intermediate state 1 is never left behind. *)
Theorem reconnect_reports_connection_state
    (attempts waits : nat) (w w' : World D) (connected : bool) :
  reconnect attempts waits w = Done connected w' ->
  _mqttConnectionState (session w') = (if connected then 2 else 0).
Proof.
  intros Hr. unfold reconnect in Hr.
  destruct w as [s st r t b d tr].
  rewrite (bind_Done _ _ _ _ _ (modify_session_effect _ _ _ _ _ _ _ _)) in Hr.
  cbn beta in Hr. cbn [board] in Hr.
  apply bind_Done_inv in Hr. destruct Hr as (res & w1 & Hloop & Hk).
  pose proof (fun Hinv => reconnect_loop_state _ _ _ _ _ _ Hinv Hloop) as Hst.
  specialize (Hst (or_introl eq_refl)).
  destruct res as [b0|].
  - injection Hk as <- <-. destruct Hst as [-> Hst]. exact Hst.
  - injection Hk as <- <-. destruct Hst as [-> | ->]; reflexivity.
Qed.

(** *** Further properties of the periodic tick *)

Lemma pumped_session (w w1 : World D) :
  pumped w w1 ->
  _mqttEnabled (session w1) = _mqttEnabled (session w)
  /\ _lastConnectedTs (session w1) = _lastConnectedTs (session w)
  /\ _networkTimeout (session w1) = _networkTimeout (session w)
  /\ _restartOnDisconnect (session w1) = _restartOnDisconnect (session w).
Proof.
  intros (_ & _ & _ & Hs & _).
  repeat split;
    [ apply (f_equal _mqttEnabled) in Hs | apply (f_equal _lastConnectedTs) in Hs
    | apply (f_equal _networkTimeout) in Hs | apply (f_equal _restartOnDisconnect) in Hs ];
    exact Hs.
Qed.

Lemma publishing_returns_true (ts : Z) (w w' : World D) (b : bool) :
  (publish_presence ;;; publish_rssi ts ;;; publish_maintenance ts ;;;
   check_updates ts ;;; publish_gpio ;;; ret true) w = Done b w' ->
  b = true.
Proof.
  intros Hp.
  repeat (apply bind_Done_inv in Hp; destruct Hp as (? & ? & _ & Hp)).
  injection Hp as <- _. reflexivity.
Qed.

(** X15: [update] records the tick in [_lastConnectedTs] exactly when
    MQTT is enabled and it returns true, and the value it records is
    the time it read at its start; when it returns false, or MQTT is
    disabled, [_lastConnectedTs] is left as it was. *)
Theorem update_records_connected_tick
    (attempts waits : nat) (w w' : World D) (result : bool) :
  update attempts waits w = Done result w' ->
  _lastConnectedTs (session w') =
    (if result && _mqttEnabled (session w)
     then next_millis (board w)
     else _lastConnectedTs (session w)).
Proof.
  intros Hu.
  destruct (pump_returns w) as (w1 & Hp & Hpumped).
  destruct (pumped_session w w1 Hpumped) as (Hen & Hlast & _).
  rewrite (update_after_pump attempts waits w w1 _ Hp) in Hu.
  unfold supervise in Hu. rewrite Hen in Hu.
  destruct (_mqttEnabled (session w)); cbn [negb] in Hu.
  2:{ injection Hu as <- <-. rewrite andb_false_r. exact Hlast. }
  rewrite andb_true_r.
  set (R := fun w w' : World D => _lastConnectedTs (session w') = _lastConnectedTs (session w)).
  apply bind_Done_inv in Hu. destruct Hu as ([] & w2 & Hct & Hu).
  apply bind_Done_inv in Hu. destruct Hu as (ok & w3 & Hcm & Hu).
  assert (H2 : R w1 w2).
  { pose proof (respects_check_transport R (fun _ => True)) as K.
    specialize (K ltac:(frames) ltac:(unfold R; frames) ltac:(frames) ltac:(frames)
                  ltac:(frames) ltac:(frames) I I w1).
    rewrite Hct in K. exact K. }
  assert (H3 : R w2 w3).
  { pose proof (respects_check_mqtt R (fun _ => True)) as K.
    specialize (K ltac:(frames) ltac:(unfold R; frames) ltac:(frames) ltac:(frames)
                  ltac:(frames) ltac:(frames) ltac:(frames) ltac:(frames)
                  ltac:(frames) ltac:(frames) ltac:(frames) I attempts waits
                  (next_millis (board w)) w2).
    rewrite Hcm in K. exact K. }
  destruct ok; cbn [negb] in Hu.
  - apply bind_Done_inv in Hu. destruct Hu as ([] & w4 & Hset & Hu).
    rewrite (publishing_returns_true _ _ _ _ Hu).
    assert (H5 : R w4 w').
    { pose proof (respects_publishing R (fun _ => True)) as K.
      specialize (K ltac:(frames) ltac:(unfold R; frames) ltac:(frames) ltac:(frames)
                    ltac:(frames) ltac:(frames) ltac:(frames)
                    (next_millis (board w)) w4).
      rewrite Hu in K. exact K. }
    unfold R in H5. rewrite H5.
    destruct w3. injection Hset as <-. reflexivity.
  - injection Hu as <- <-. unfold R in *. congruence.
Qed.

(** X16: with the transport down, the restart-on-disconnect flag set
    and more than 60000 ms of uptime, [update] restarts the device
    with the disconnect-watchdog reason before it calls anything on
    the transport. *)
Theorem disconnect_watchdog_restarts
    (attempts waits : nat) (w w1 : World D) (ts : Z) :
  pump w = Done ts w1 ->
  _mqttEnabled (session w1) = true ->
  dev_isConnected (device w1) = false ->
  _restartOnDisconnect (session w1) = true ->
  60000 < next_millis (board w1) ->
  update attempts waits w = Restarted RestartOnDisconnectWatchdog (read_clock w1).
Proof.
  intros Hp Hen Hlink Hrod Hup. apply Z.ltb_lt in Hup.
  rewrite (update_after_pump attempts waits w w1 ts Hp).
  unfold supervise. rewrite Hen. cbn [negb].
  unfold bind at 1. unfold check_transport. rewrite Hlink.
  destruct w1 as [s st r t b d tr]. cbn [session board] in *.
  unfold bind at 1. cbn beta. cbn [session]. rewrite Hrod.
  rewrite (bind_Done _ _ _ _ _ (millis_effect _ _ _ _ _ _ _)).
  rewrite Hup. reflexivity.
Qed.

Lemma check_transport_without_watchdog (w : World D) :
  _restartOnDisconnect (session w) = false ->
  outcome_ok (fun w w' => session w' = session w)
             (fun r => r = NetworkDeviceCriticalFailure)
             w (check_transport w).
Proof.
  intros Hrod. unfold check_transport.
  destruct (dev_isConnected (device w)); [reflexivity|].
  destruct w as [s st r t b d tr]. cbn [session] in Hrod.
  erewrite bind_Done by (focus; rewrite Hrod; reflexivity).
  erewrite bind_Done by apply device_reconnect_effect.
  destruct (fst (dev_reconnect d)); cbn.
  - reflexivity.
  - reflexivity.
  - split; reflexivity.
Qed.

Lemma reconnect_never_restarts (attempts waits : nat) (w : World D) :
  outcome_ok (fun _ _ => True) (fun _ => False) w (reconnect attempts waits w).
Proof.
  apply (respects_reconnect (fun _ _ => True) (fun _ => False)); frames.
Qed.

Lemma publishing_never_restarts (ts : Z) (w : World D) :
  outcome_ok (fun _ _ => True) (fun _ => False) w
    ((publish_presence ;;; publish_rssi ts ;;; publish_maintenance ts ;;;
      check_updates ts ;;; publish_gpio ;;; ret true) w).
Proof.
  apply (respects_publishing (fun _ _ => True) (fun _ => False)); frames.
Qed.

Lemma check_mqtt_session (attempts waits : nat) (ts : Z) (w : World D) :
  outcome_ok (fun w w' => _networkTimeout (session w') = _networkTimeout (session w))
             (fun _ => True) w (check_mqtt attempts waits ts w).
Proof.
  apply (respects_check_mqtt
           (fun w w' => _networkTimeout (session w') = _networkTimeout (session w))
           (fun _ => True)); frames.
Qed.

(** X17: [disableAutoRestarts] sets the network timeout to 0 and
    clears the restart-on-disconnect flag; with the timeout at 0 or
    below and the flag clear, the only restart [update] can end in is
    the one for a critical failure of the transport. *)
Theorem update_restarts_without_watchdogs :
  (forall w : World D,
     exists w',
       disableAutoRestarts w = Done tt w'
       /\ _networkTimeout (session w') = 0
       /\ _restartOnDisconnect (session w') = false)
  /\ (forall (attempts waits : nat) (w w' : World D) (reason : RestartReason),
        _networkTimeout (session w) <= 0 ->
        _restartOnDisconnect (session w) = false ->
        update attempts waits w = Restarted reason w' ->
        reason = NetworkDeviceCriticalFailure).
Proof.
  split; [intros w; eexists; split; [reflexivity|split; reflexivity]|].
  intros attempts waits w w' reason Hnt Hrod Hu.
  destruct (pump_returns w) as (w1 & Hp & Hpumped).
  destruct (pumped_session w w1 Hpumped) as (_ & _ & Hnt1 & Hrod1).
  rewrite (update_after_pump attempts waits w w1 _ Hp) in Hu.
  unfold supervise in Hu.
  destruct (negb (_mqttEnabled (session w1))); [discriminate|].
  pose proof (check_transport_without_watchdog w1 ltac:(congruence)) as Hct.
  apply bind_Restarted_inv in Hu. destruct Hu as [Hu|(u & w2 & Hu2 & Hu)].
  { rewrite Hu in Hct. apply Hct. }
  rewrite Hu2 in Hct. cbn in Hct.
  apply bind_Restarted_inv in Hu. destruct Hu as [Hu|(ok & w3 & Hu3 & Hu)].
  - exfalso. unfold check_mqtt in Hu.
    destruct (dev_mqttConnected (device w2)); [discriminate|].
    apply bind_Restarted_inv in Hu. destruct Hu as [Hu|(u' & w2' & Hu' & Hu)].
    + unfold network_timeout_reached in Hu.
      assert (Hoff : (0 <? _networkTimeout (session w2)) = false).
      { apply Z.ltb_ge. rewrite Hct. lia. }
      rewrite Hoff in Hu. discriminate.
    + pose proof (reconnect_never_restarts attempts waits w2') as K.
      rewrite Hu in K. destruct K as [_ []].
  - exfalso. destruct (negb ok); [discriminate|].
    apply bind_Restarted_inv in Hu. destruct Hu as [Hu|(u' & w4 & _ & Hu)];
      [discriminate|].
    pose proof (publishing_never_restarts (next_millis (board w)) w4) as K.
    rewrite Hu in K. destruct K as [_ []].
Qed.

Lemma extends_refl {A} (l : list A) : extends l l.
Proof. exists []. rewrite app_nil_r. reflexivity. Qed.

Lemma extends_snoc {A} (l : list A) (x : A) : extends l (l ++ [x]).
Proof. exists [x]. reflexivity. Qed.

Lemma extends_trans {A} (l1 l2 l3 : list A) :
  extends l1 l2 -> extends l2 l3 -> extends l1 l3.
Proof. intros [a ->] [b ->]. exists (a ++ b). rewrite app_assoc. reflexivity. Qed.

Lemma string_map_put_keeps_keys (k v : string) (m : list (string * string)) :
  incl (map fst m) (map fst (string_map_put k v m)).
Proof.
  induction m as [|[k' v'] m IH]; cbn [string_map_put]; [intros x []|].
  destruct (String.compare k k') eqn:Hc.
  - apply String.compare_eq_iff in Hc. subst k'. cbn. apply incl_refl.
  - cbn [map fst]. apply incl_tl. apply incl_refl.
  - cbn [map fst]. intros x [<-|Hx]; [left; reflexivity|right; apply IH; exact Hx].
Qed.

Lemma registered_since_refl (w : World D) : registered_since w w.
Proof.
  unfold registered_since.
  repeat split; first [apply extends_refl | apply incl_refl].
Qed.

Lemma registered_since_trans (w1 w2 w3 : World D) :
  registered_since w1 w2 -> registered_since w2 w3 -> registered_since w1 w3.
Proof.
  intros (A1 & A2 & A3 & A4) (B1 & B2 & B3 & B4). unfold registered_since.
  repeat split;
    first [eapply extends_trans; eassumption | eapply incl_tran; eassumption].
Qed.

(** X18: no call removes a registration: whatever calls are made and
    however they end, the subscribed topics, the receivers and the
    reconnect listeners are the earlier lists with entries appended,
    and every key of the init topics is still a key. *)
Theorem registrations_only_grow (calls : list Call) (w : World D) :
  match final (for_each calls exec w) with
  | Some w' => registered_since w w'
  | None => True
  end.
Proof.
  pose proof (respects_calls registered_since (fun _ => True)) as K.
  assert (Hframe : forall w1 w2 : World D,
            registry w2 = registry w1 -> registered_since w1 w2).
  { intros w1 w2 Hr. unfold registered_since. rewrite Hr.
    repeat split; first [apply extends_refl | apply incl_refl]. }
  assert (Hgrow : forall (w1 w2 : World D),
            extends (_subscribedTopics (registry w1)) (_subscribedTopics (registry w2)) ->
            extends (_mqttReceivers (registry w1)) (_mqttReceivers (registry w2)) ->
            extends (_reconnectedCallbacks (registry w1))
                    (_reconnectedCallbacks (registry w2)) ->
            incl (map fst (_initTopics (registry w1))) (map fst (_initTopics (registry w2))) ->
            registered_since w1 w2).
  { intros w1 w2 A1 A2 A3 A4. unfold registered_since. auto. }
  specialize (K registered_since_refl registered_since_trans).
  repeat match type of K with
         | (forall _, _) -> _ =>
             let Ob := fresh "Ob" in
             lazymatch type of K with
             | ?P -> _ =>
                 assert (Ob : P);
                 [ first
                     [ solve [intros; apply Hframe; reflexivity]
                     | solve [intros; apply Hgrow; cbn;
                              first [apply extends_refl | apply extends_snoc
                                    | apply incl_refl | apply string_map_put_keeps_keys]]
                     ]
                 | specialize (K Ob); clear Ob ]
             end
         end.
  specialize (K I I I calls w).
  destruct (for_each calls exec w) as [[] w'|r w'|]; cbn in *; tauto.
Qed.

(** *** The init topics as a map *)






(** *** Removal of the discovery documents *)

Lemma removeHassTopic_effect (discoveryTopic type name uid : string) s st r t b (d : D) tr :
  discoveryTopic <> "" ->
  removeHassTopic discoveryTopic type name uid (mkWorld s st r t b d tr) =
  Done tt
    (mkWorld s st r t b
       (snd (dev_mqttPublish (createHassTopicPath discoveryTopic type name uid)
                             MQTT_QOS_LEVEL true "" d))
       (tr ++ [MqttPublish (createHassTopicPath discoveryTopic type name uid)
                           MQTT_QOS_LEVEL true ""])).
Proof.
  intros Hne. unfold removeHassTopic.
  apply String.eqb_neq in Hne. rewrite Hne. cbn [negb].
  erewrite bind_Done by apply mqttPublish_effect. reflexivity.
Qed.

Lemma remove_each (discoveryTopic uid : string) (entities : list (string * string)) :
  discoveryTopic <> "" ->
  forall s st r t b (d : D) tr,
    for_each entities
      (fun entity => removeHassTopic discoveryTopic (fst entity) (snd entity) uid)
      (mkWorld s st r t b d tr)
    = Done tt
        (mkWorld s st r t b (remove_all discoveryTopic uid entities d)
           (tr ++ map (fun entity =>
                         MqttPublish
                           (createHassTopicPath discoveryTopic (fst entity) (snd entity) uid)
                           MQTT_QOS_LEVEL true "")
                      entities)).
Proof.
  intros Hne. induction entities as [|e es IH]; intros s st r t b d tr.
  - cbn. rewrite app_nil_r. reflexivity.
  - cbn [for_each map remove_all fold_left].
    erewrite bind_Done by (apply removeHassTopic_effect; exact Hne).
    unfold remove_all in IH. rewrite IH, <- app_assoc. reflexivity.
Qed.

Lemma remove_each_disabled (uid : string) (entities : list (string * string)) (w : World D) :
  for_each entities
    (fun entity => removeHassTopic "" (fst entity) (snd entity) uid) w
  = Done tt w.
Proof. induction entities as [|e es IH]; cbn; [reflexivity|exact IH]. Qed.

(** X20: [removeHASSConfig] sends nothing when the discovery prefix is
    empty; otherwise it publishes, for each of its entities in order,
    one retained empty payload to
    [<discovery>/<type>/<uid>/<name>/config], and nothing else. *)
Theorem removeHASSConfig_publishes_tombstones
    (discoveryTopic uid : string) (w : World D) :
  (discoveryTopic = "" -> removeHASSConfig discoveryTopic uid w = Done tt w)
  /\ (discoveryTopic <> "" ->
      exists w',
        removeHASSConfig discoveryTopic uid w = Done tt w'
        /\ trace w' = trace w ++
             map (fun entity =>
                    MqttPublish
                      (discoveryTopic ++ "/" ++ fst entity ++ "/" ++ uid ++ "/"
                         ++ snd entity ++ "/config")%string
                      MQTT_QOS_LEVEL true "")
                 removed_entities
        /\ session w' = session w /\ registry w' = registry w
        /\ telemetry w' = telemetry w /\ board w' = board w).
Proof.
  unfold removeHASSConfig. split.
  - intros ->. apply remove_each_disabled.
  - intros Hne. destruct w as [s st r t b d tr].
    rewrite (remove_each discoveryTopic uid removed_entities Hne).
    eexists. split; [reflexivity|]. cbn [trace session registry telemetry board].
    repeat split.
Qed.

(** *** The presence slot *)

(** X21: a staged presence CSV that is not empty is published once
    under the presence prefix and the slot is emptied, whatever the
    transport answers; an empty CSV and an empty slot cause nothing
    and stay as they are. *)
Theorem presence_slot_is_consumed (w : World D) :
  (forall csv,
     _presenceCsv (telemetry w) = Some csv -> csv <> "" ->
     exists w',
       publish_presence w = Done tt w'
       /\ _presenceCsv (telemetry w') = None
       /\ trace w' = trace w ++
            [MqttPublish (buildMqttPath [_mqttPresencePrefix (settings w); mqtt_topic_presence])
                         MQTT_QOS_LEVEL true csv])
  /\ (_presenceCsv (telemetry w) = None \/ _presenceCsv (telemetry w) = Some "" ->
      publish_presence w = Done tt w).
Proof.
  unfold publish_presence. split.
  - intros csv Hslot Hne. rewrite Hslot.
    destruct csv as [|c csv]; [contradiction|]. cbn [String.length Nat.ltb Nat.leb].
    destruct w as [s st r t b d tr]. cbn [settings].
    erewrite bind_Done by apply publishString_effect.
    rewrite modify_telemetry_effect. eexists. split; [reflexivity|].
    split; reflexivity.
  - intros [Hslot|Hslot]; rewrite Hslot; reflexivity.
Qed.

(** *** The fallback marker during operation *)

Lemma check_transport_marker (w w' : World D) :
  check_transport w = Done tt w' ->
  WiFi_fallbackDetect (board w') = WiFi_fallbackDetect (board w)
  \/ WiFi_fallbackDetect (board w') = "".
Proof.
  unfold check_transport.
  destruct (dev_isConnected (device w)); [intros Hc; injection Hc as <-; auto|].
  intros Hc. apply bind_Done_inv in Hc. destruct Hc as ([] & w1 & Hw & Hc).
  assert (Hm1 : WiFi_fallbackDetect (board w1) = WiFi_fallbackDetect (board w)).
  { cbn beta in Hw. destruct (_restartOnDisconnect (session w)).
    - apply bind_Done_inv in Hw. destruct Hw as (now & w0 & Hmil & Hw).
      destruct w as [s st r t b d tr]. rewrite millis_effect in Hmil.
      injection Hmil as <- <-.
      destruct (60000 <? next_millis b); [discriminate|].
      injection Hw as <-. reflexivity.
    - injection Hw as <-. reflexivity. }
  apply bind_Done_inv in Hc. destruct Hc as (status & w2 & Hrec & Hc).
  destruct w1 as [s st r t b d tr]. rewrite device_reconnect_effect in Hrec.
  injection Hrec as <- <-. cbn [board] in Hm1.
  destruct (fst (dev_reconnect d)).
  - injection Hc as <-. left. exact Hm1.
  - injection Hc as <-. right. reflexivity.
  - apply bind_Done_inv in Hc. destruct Hc as (? & ? & _ & Hc).
    apply bind_Done_inv in Hc. destruct Hc as (? & ? & _ & Hc). discriminate.
Qed.

(** X22: an [update] that returns never sets the fallback marker: it
    leaves the marker as it was or, after a successful reconnect of
    the transport, cleared. *)
Theorem update_never_sets_marker
    (attempts waits : nat) (w w' : World D) (result : bool) :
  update attempts waits w = Done result w' ->
  WiFi_fallbackDetect (board w') = WiFi_fallbackDetect (board w)
  \/ WiFi_fallbackDetect (board w') = "".
Proof.
  intros Hu.
  set (R := fun w w' : World D =>
              WiFi_fallbackDetect (board w') = WiFi_fallbackDetect (board w)).
  assert (Hpump : forall w1 ts, pump w = Done ts w1 -> R w w1).
  { intros w1 ts Hp.
    pose proof (respects_pump R (fun _ => True)) as K.
    specialize (K ltac:(frames) ltac:(unfold R; frames) ltac:(frames) ltac:(frames)
                  ltac:(frames) ltac:(frames) w).
    rewrite Hp in K. exact K. }
  destruct (pump_returns w) as (w1 & Hp & _).
  specialize (Hpump _ _ Hp).
  rewrite (update_after_pump attempts waits w w1 _ Hp) in Hu.
  unfold supervise in Hu.
  destruct (negb (_mqttEnabled (session w1))).
  { injection Hu as _ <-. left. exact Hpump. }
  apply bind_Done_inv in Hu. destruct Hu as ([] & w2 & Hct & Hu).
  apply bind_Done_inv in Hu. destruct Hu as (ok & w3 & Hcm & Hu).
  assert (H3 : R w2 w3).
  { pose proof (respects_check_mqtt R (fun _ => True)) as K.
    specialize (K ltac:(frames) ltac:(unfold R; frames) ltac:(frames) ltac:(frames)
                  ltac:(frames) ltac:(frames) ltac:(frames) ltac:(frames)
                  ltac:(frames) ltac:(frames) ltac:(frames) I attempts waits
                  (next_millis (board w)) w2).
    rewrite Hcm in K. exact K. }
  assert (H4 : R w3 w').
  { destruct ok; cbn [negb] in Hu.
    - apply bind_Done_inv in Hu. destruct Hu as ([] & w4 & Hset & Hu).
      pose proof (respects_publishing R (fun _ => True)) as K.
      specialize (K ltac:(frames) ltac:(unfold R; frames) ltac:(frames) ltac:(frames)
                    ltac:(frames) ltac:(frames) ltac:(frames)
                    (next_millis (board w)) w4).
      rewrite Hu in K. unfold R in *. rewrite K.
      destruct w3. injection Hset as <-. reflexivity.
    - injection Hu as _ <-. reflexivity. }
  unfold R in *.
  destruct (check_transport_marker w1 w2 Hct) as [Hsame|Hclear].
  - left. congruence.
  - right. congruence.
Qed.

(** *** Reports of the input pins *)

Lemma Z_map_get_put (k p v : Z) (m : list (Z * Z)) :
  Z_map_get k (Z_map_put p v m) = if k =? p then v else Z_map_get k m.
Proof.
  induction m as [|[k' v'] m IH]; cbn [Z_map_put Z_map_get].
  - reflexivity.
  - destruct (Z.compare_spec p k') as [Heq|Hlt|Hgt]; cbn [Z_map_get].
    + subst k'. destruct (k =? p); reflexivity.
    + reflexivity.
    + rewrite IH.
      destruct (Z.eqb_spec k k') as [->|Hk]; [|reflexivity].
      destruct (Z.eqb_spec k' p); [lia|reflexivity].
Qed.

Lemma pending_keys_reset (keys : list Z) (p : Z) (m : list (Z * Z)) :
  incl (pending_keys keys (Z_map_put p 0 m)) (pending_keys keys m)
  /\ (length (pending_keys keys (Z_map_put p 0 m)) <= length (pending_keys keys m))%nat.
Proof.
  unfold pending_keys. induction keys as [|k keys [IHi IHl]]; cbn [filter].
  - split; [apply incl_refl|apply Nat.le_refl].
  - rewrite Z_map_get_put.
    destruct (k =? p); rewrite ?Z.eqb_refl; cbn [negb].
    + destruct (negb (Z_map_get k m =? 0)).
      * split; [apply incl_tl; exact IHi|cbn [length]; lia].
      * split; assumption.
    + destruct (negb (Z_map_get k m =? 0)).
      * split; [apply incl_cons; [left; reflexivity|apply incl_tl; exact IHi]
               |cbn [length]; lia].
      * split; assumption.
Qed.

Lemma gpio_report_incl (lockPath : string) (keys keys' : list Z) (evs : list Event) :
  incl keys keys' ->
  Forall (gpio_report lockPath keys) evs ->
  Forall (gpio_report lockPath keys') evs.
Proof.
  intros Hincl Hf. eapply Forall_impl; [|exact Hf].
  intros e (key & level & Hin & He). exists key, level.
  split; [apply Hincl; exact Hin|exact He].
Qed.

Lemma report_pin_keys (keys : list Z) :
  forall s st r t b (d : D) tr,
  exists t' b' d' evs,
    for_each keys report_pin (mkWorld s st r t b d tr)
    = Done tt (mkWorld s st r t' b' d' (tr ++ evs))
    /\ Forall (gpio_report (_lockPath st) (pending_keys keys (_gpioTs t))) evs
    /\ (length evs <= length (pending_keys keys (_gpioTs t)))%nat.
Proof.
  induction keys as [|key keys IH]; intros s st r t b d tr.
  - exists t, b, d, []. rewrite app_nil_r. cbn. auto.
  - cbn [for_each]. unfold pending_keys. cbn [filter]. fold (pending_keys keys (_gpioTs t)).
    unfold report_pin at 1. unfold bind at 1. focus. cbv zeta.
    destruct (Z_map_get key (_gpioTs t) =? 0); cbn [negb].
    + apply IH.
    + destruct (GPIO_DEBOUNCE_TIME <=? C.wrap (next_millis b - Z_map_get key (_gpioTs t)))
        eqn:Hdue.
      * erewrite bind_Done by apply millis_effect. rewrite Hdue.
        erewrite bind_Done by apply modify_telemetry_effect.
        focus. unfold publishInt.
        erewrite bind_Done by apply mqttPublish_effect. unfold ret.
        match goal with
        | |- context [for_each _ _ (mkWorld ?a ?b0 ?c ?e ?f ?g ?h)] =>
            destruct (IH a b0 c e f g h) as (t' & b' & d' & evs & Hrun & Hall & Hlen)
        end.
        cbn [_gpioTs set_gpioTs] in Hall, Hlen.
        destruct (pending_keys_reset keys (C.uint8 key) (_gpioTs t)) as [Hincl Hle].
        eexists t', b', d', (_ :: evs). rewrite Hrun. split; [|split].
        -- rewrite <- app_assoc. reflexivity.
        -- constructor.
           ++ exists key, (digitalRead (set_clock (next_millis b) (tl (drift b)) b)
                                      (C.uint8 key)).
              split; [left; reflexivity|].
              unfold gpio_state_topic.
              destruct (digitalRead _ _); reflexivity.
           ++ eapply gpio_report_incl; [|exact Hall].
              apply incl_tl. exact Hincl.
        -- cbn [length]. lia.
      * erewrite bind_Done by apply millis_effect. rewrite Hdue. unfold ret.
        match goal with
        | |- context [for_each _ _ (mkWorld ?a ?b0 ?c ?e ?f ?g ?h)] =>
            destruct (IH a b0 c e f g h) as (t' & b' & d' & evs & Hrun & Hall & Hlen)
        end.
        exists t', b', d', evs. rewrite Hrun. split; [reflexivity|]. split.
        -- eapply gpio_report_incl; [|exact Hall]. apply incl_tl. apply incl_refl.
        -- cbn [length]. lia.
Qed.

(** X23: the pass over the input pins sends at most one message per
    entry that holds a timestamp other than 0, each the retained level
    ("0" or "1") at the state topic of the pin that the key of such an
    entry names as a [uint8_t], and nothing else; it returns, and it
    touches neither the session fields nor the settings nor the
    registrations. *)
Theorem publish_gpio_reports_pending_pins (w : World D) :
  let pending :=
    pending_keys (map fst (_gpioTs (telemetry w))) (_gpioTs (telemetry w)) in
  exists w' evs,
    publish_gpio w = Done tt w'
    /\ trace w' = trace w ++ evs
    /\ Forall (gpio_report (_lockPath (settings w)) pending) evs
    /\ (length evs <= length pending)%nat
    /\ session w' = session w
    /\ settings w' = settings w
    /\ registry w' = registry w.
Proof.
  intros pending. subst pending.
  unfold publish_gpio. destruct w as [s st r t b d tr]. cbn [telemetry settings trace].
  destruct (report_pin_keys (map fst (_gpioTs t)) s st r t b d tr)
    as (t' & b' & d' & evs & Hrun & Hall & Hlen).
  eexists _, evs. split; [exact Hrun|].
  cbn [trace session settings registry]. repeat split; assumption.
Qed.

(** *** Debounce of the input pins *)

Lemma for_each_append {A} (body : A -> M D unit) (xs ys : list A) (w : World D) :
  for_each (xs ++ ys) body w = (for_each xs body ;;; for_each ys body) w.
Proof.
  revert w. induction xs as [|x xs IH]; intros w; cbn [app for_each].
  - reflexivity.
  - unfold bind. destruct (body x w) as [[] w1|reason w1|]; [|reflexivity..].
    rewrite IH. reflexivity.
Qed.

Lemma Z_map_get_idle (k : Z) (m : list (Z * Z)) :
  Forall (fun entry => snd entry = 0) m -> Z_map_get k m = 0.
Proof.
  induction 1 as [|[k' v'] m Hv _ IH]; cbn [Z_map_get]; [reflexivity|].
  cbn in Hv. subst v'. destruct (k =? k'); [reflexivity|exact IH].
Qed.

Lemma Z_map_put_keys (pin v : Z) (m : list (Z * Z)) :
  Z_map_sorted m ->
  exists pre post,
    map fst (Z_map_put pin v m) = pre ++ pin :: post
    /\ ~ In pin pre /\ ~ In pin post.
Proof.
  induction m as [|[k' v'] m IH]; cbn [Z_map_sorted Z_map_put].
  - intros _. exists [], []. cbn. tauto.
  - intros [Habove Hsorted].
    assert (Hrest : forall bound, bound <= k' -> ~ In bound (map fst m)).
    { intros bound Hb Hin. apply in_map_iff in Hin as (e & <- & Hin).
      pose proof (proj1 (Forall_forall _ _) Habove e Hin) as Hlt. cbn in Hlt. lia. }
    destruct (Z.compare_spec pin k') as [Heq|Hlt|Hgt].
    + subst k'. exists [], (map fst m). cbn [map fst app].
      split; [reflexivity|]. split; [tauto|]. apply Hrest. lia.
    + exists [], (k' :: map fst m). cbn [map fst app].
      split; [reflexivity|]. split; [tauto|].
      intros [Hin|Hin]; [lia|]. apply (Hrest pin); [lia|exact Hin].
    + destruct (IH Hsorted) as (pre & post & Hkeys & Hpre & Hpost).
      exists (k' :: pre), post. cbn [map fst app]. rewrite Hkeys.
      split; [reflexivity|]. split; [|exact Hpost].
      intros [Hin|Hin]; [lia|contradiction].
Qed.

Lemma report_pin_idle (keys : list Z) (w : World D) :
  (forall key, In key keys -> Z_map_get key (_gpioTs (telemetry w)) = 0) ->
  for_each keys report_pin w = Done tt w.
Proof.
  induction keys as [|key keys IH]; intros Hidle; cbn [for_each]; [reflexivity|].
  unfold bind, report_pin at 1. cbv zeta.
  rewrite (Hidle key (or_introl eq_refl)). cbn [Z.eqb].
  apply IH. intros k Hin. apply Hidle. right. exact Hin.
Qed.

(** X24: debounce of one input pin. With no other edge waiting, an
    edge recorded by [gpioActionCallback] is reported by the next pass
    over the pins only if the clock read of that pass is at least
    [GPIO_DEBOUNCE_TIME] after the recorded one (modulo 2^32): then
    the level of the pin is published once, under the pin number read
    as a [uint8_t], and the timestamp under that number reset to 0;
    otherwise nothing is sent and the timestamp stays. An edge
    recorded when [millis()] returns 0 is never reported. *)
Theorem gpio_edge_is_debounced (pin : Z) (w : World D) :
  Z_map_sorted (_gpioTs (telemetry w)) ->
  Forall (fun entry => snd entry = 0) (_gpioTs (telemetry w)) ->
  let recorded := next_millis (board w) in
  let checked := next_millis (board (read_clock w)) in
  let due :=
    negb (recorded =? 0) && (GPIO_DEBOUNCE_TIME <=? C.wrap (checked - recorded)) in
  exists w',
    (gpioActionCallback pin ;;; publish_gpio) w = Done tt w'
    /\ trace w' =
         trace w ++
         (if due
          then [MqttPublish (gpio_state_topic (_lockPath (settings w)) (C.uint8 pin))
                            MQTT_QOS_LEVEL true
                            (if digitalRead (board w) (C.uint8 pin) then "1" else "0")]
          else [])
    /\ _gpioTs (telemetry w') =
         (if due
          then Z_map_put (C.uint8 pin) 0
                 (Z_map_put pin recorded (_gpioTs (telemetry w)))
          else Z_map_put pin recorded (_gpioTs (telemetry w))).
Proof.
  intros Hsorted Hidle recorded checked due.
  destruct w as [s st r t b d tr].
  cbn [board telemetry settings trace read_clock with_board] in *.
  unfold gpioActionCallback.
  erewrite bind_Done
    by (erewrite bind_Done by apply millis_effect; apply modify_telemetry_effect).
  unfold publish_gpio. focus. cbn [_gpioTs set_gpioTs]. fold recorded.
  destruct (Z_map_put_keys pin recorded (_gpioTs t) Hsorted)
    as (pre & post & -> & Hpre & Hpost).
  assert (Hother : forall key, key <> pin ->
            Z_map_get key (Z_map_put pin recorded (_gpioTs t)) = 0).
  { intros key Hk. rewrite Z_map_get_put.
    destruct (Z.eqb_spec key pin); [contradiction|].
    apply Z_map_get_idle. exact Hidle. }
  rewrite for_each_append.
  erewrite bind_Done
    by (apply report_pin_idle; focus; cbn [_gpioTs set_gpioTs];
        intros key Hin; apply Hother; intros ->; contradiction).
  cbn [for_each]. unfold report_pin at 1. unfold bind at 1. focus.
  cbn [_gpioTs set_gpioTs]. cbv zeta.
  rewrite Z_map_get_put, Z.eqb_refl.
  destruct due eqn:Hdue; subst due.
  - apply andb_prop in Hdue as [Hnz Hlate]. apply negb_true_iff in Hnz.
    rewrite Hnz.
    erewrite bind_Done by apply millis_effect.
    change (next_millis (set_clock recorded (tl (drift b)) b)) with checked.
    rewrite Hlate.
    erewrite bind_Done by apply modify_telemetry_effect.
    focus. unfold publishInt.
    erewrite bind_Done by apply mqttPublish_effect. unfold ret. cbv beta iota.
    rewrite report_pin_idle.
    + eexists. split; [reflexivity|]. cbn [trace telemetry _gpioTs set_gpioTs].
      split; [|reflexivity].
      unfold gpio_state_topic. cbn [digitalRead set_clock].
      destruct (digitalRead b (C.uint8 pin)); reflexivity.
    + focus. cbn [_gpioTs set_gpioTs]. intros key Hin.
      rewrite Z_map_get_put. destruct (key =? C.uint8 pin); [reflexivity|].
      apply Hother. intros ->. contradiction.
  - apply andb_false_iff in Hdue.
    assert (Hpass : forall w1 : World D,
              _gpioTs (telemetry w1) = Z_map_put pin recorded (_gpioTs t) ->
              for_each post report_pin w1 = Done tt w1).
    { intros w1 Hmap. apply report_pin_idle. rewrite Hmap.
      intros key Hin. apply Hother. intros ->. contradiction. }
    destruct (recorded =? 0) eqn:Hnz.
    + rewrite Hpass by reflexivity.
      eexists. split; [reflexivity|]. cbn [trace telemetry _gpioTs set_gpioTs].
      rewrite app_nil_r. split; reflexivity.
    + destruct Hdue as [Hdue|Hdue]; [discriminate|].
      erewrite bind_Done by apply millis_effect.
      change (next_millis (set_clock recorded (tl (drift b)) b)) with checked.
      rewrite Hdue. unfold ret. cbv beta iota.
      rewrite Hpass by reflexivity.
      eexists. split; [reflexivity|]. cbn [trace telemetry _gpioTs set_gpioTs].
      rewrite app_nil_r. split; reflexivity.
Qed.

End SessionClaims.

(** ** Further properties of the topic path builder *)

Section PathBuilderExtras.

Lemma string_length_app (s t : string) :
  String.length (s ++ t)%string = (String.length s + String.length t)%nat.
Proof. induction s as [|c s IH]; cbn; [|rewrite IH]; reflexivity. Qed.




Lemma joined_length (f : string) :
  (String.length f <= String.length (joined f) <= String.length f + 1)%nat.
Proof.
  unfold joined. destruct (Ascii.eqb (first_char f) "/"); cbn; lia.
Qed.

Lemma flat_joined_length (ps : list string) :
  (list_sum (map String.length ps)
   <= String.length (flat (map joined ps))
   <= list_sum (map String.length ps) + length ps)%nat.
Proof.
  induction ps as [|q qs IH]; [cbn; lia|].
  change (list_sum (map String.length (q :: qs)))
    with (String.length q + list_sum (map String.length qs))%nat.
  change (flat (map joined (q :: qs)))
    with (joined q ++ flat (map joined qs))%string.
  change (length (q :: qs)) with (S (length qs)).
  rewrite string_length_app. pose proof (joined_length q). lia.
Qed.

(** X1: the path left in the output array does not depend on what
    the array held before the call. *)
Theorem buildMqttPath_ignores_buffer (buf1 buf2 : list ascii) (paths : list string) :
  buildMqttPath_in buf1 paths = buildMqttPath_in buf2 paths.
Proof.
  destruct paths as [|p ps]; [reflexivity|].
  rewrite !buildMqttPath_in_eq. reflexivity.
Qed.

(** X2: no character of a fragment is dropped and at most one
    separator is added per fragment after the first, so the path is
    at least as long as the fragments together and at most that plus
    the number of fragments less one. *)
Theorem buildMqttPath_length (paths : list string) :
  (list_sum (map String.length paths)
   <= String.length (buildMqttPath paths)
   <= list_sum (map String.length paths) + Nat.pred (length paths))%nat.
Proof.
  destruct paths as [|p ps]; [cbn; lia|].
  rewrite buildMqttPath_cons, string_length_app.
  pose proof (flat_joined_length ps) as Hps.
  change (list_sum (map String.length (p :: ps)))
    with (String.length p + list_sum (map String.length ps))%nat.
  change (Nat.pred (length (p :: ps))) with (length ps).
  lia.
Qed.



End PathBuilderExtras.

(** ** Further properties of the device selection at boot *)

Section BootExtras.

Context {D : Type} `{NetworkDevice D}.

Local Open Scope Z_scope.



(** X11: falling back to Wi-Fi does not consume the marker: the boot
    that falls back leaves it set, so the boot after a further restart
    falls back again; once [clearWifiFallback] has run, the next boot
    selects the persisted hardware. *)
Theorem wifi_fallback_lasts_until_cleared (w : World D) :
  WiFi_fallbackDetect (board w) = "wifi_fallback" ->
  preference_network_wifi_fallback_disabled (preferences (board w)) = false ->
  exists b',
    Boot.setupDevice (board w) = Done WiFi b'
    /\ WiFi_fallbackDetect b' = "wifi_fallback"
    /\ Boot.setupDevice (Boot.reboot b') = Done WiFi (Boot.reboot b')
    /\ exists w',
         clearWifiFallback (with_board (fun _ => b') w) = Done tt w'
         /\ Boot.setupDevice (Boot.reboot (board w'))
            = Done (Boot.device_of_hardware
                      (preference_network_hardware (preferences b')))
                   (Boot.reboot (board w')).
Proof.
  intros Hm Hd. destruct w as [s st r t b d tr]. cbn [board] in *.
  destruct b as [c dr m [hw fd prt cu lv] g dg fh r1 r2 lr]. cbn in Hm, Hd. subst m fd.
  unfold Boot.setupDevice, clearWifiFallback. cbn.
  destruct (hw =? 0) eqn:Hz; cbn; rewrite ?Hz; cbn;
    (eexists; split; [reflexivity|]; split; [reflexivity|];
     split; [cbn; rewrite ?Hz; reflexivity|]; eexists; split; [reflexivity|];
     cbn; rewrite ?Hz; reflexivity).
Qed.

(** X12: with the fallback disabled, a boot that finds the marker
    clears it before it restarts, so the boot after that restart does
    not restart again: it selects the persisted hardware. *)
Theorem disabled_fallback_restarts_once (b : Board) :
  WiFi_fallbackDetect b = "wifi_fallback" ->
  preference_network_wifi_fallback_disabled (preferences b) = true ->
  exists b',
    Boot.setupDevice b = Restarted NetworkDeviceCriticalFailureNoWifiFallback b'
    /\ WiFi_fallbackDetect b' = ""
    /\ Boot.setupDevice (Boot.reboot b')
       = Done (Boot.device_of_hardware
                 (preference_network_hardware (preferences b')))
              (Boot.reboot b').
Proof.
  intros Hm Hd.
  destruct b as [c dr m [hw fd prt cu lv] g dg fh r1 r2 lr]. cbn in Hm, Hd. subst m fd.
  unfold Boot.setupDevice. cbn.
  destruct (hw =? 0) eqn:Hz; cbn; rewrite ?Hz; cbn;
    (eexists; split; [reflexivity|]; split; [reflexivity|];
     cbn; rewrite ?Hz; reflexivity).
Qed.

End BootExtras.

(** ** Scenarios

    The statements above, at the scripted transport. *)

Section Scenarios.

Import Mock.

Local Open Scope Z_scope.

(** C1, as the specification states it, fails: at an uptime of
    45000 ms the 60 s grace period has not passed, so [update] does
    not restart; it goes on to reconnect and returns true. *)
Lemma network_timeout_held_during_grace :
  _mqttBrokerAddr (settings early_timeout_world) <> ""
  /\ dev_isConnected (device early_timeout_world) = true
  /\ dev_mqttConnected (device early_timeout_world) = false
  /\ _networkTimeout (session early_timeout_world) = 30
  /\ next_millis (board early_timeout_world) = 45000
  /\ C.wrap (45000 - _lastConnectedTs (session early_timeout_world)) = 46000
  /\ restart_reason (update 1 1200 early_timeout_world) = None
  /\ returned (update 1 1200 early_timeout_world) = Some true.
Proof.
  split; [discriminate|]. repeat split; vm_compute; reflexivity.
Qed.

Lemma network_timeout_restarts_after_grace_witness :
  exists w',
    update 1 1200 late_timeout_world = Restarted NetworkTimeoutWatchdog w'
    /\ trace w' = [].
Proof.
  apply (network_timeout_restarts_after_grace
           1 1200 late_timeout_world (read_clock late_timeout_world) 75000).
  - vm_compute. reflexivity.
  - reflexivity.
  - reflexivity.
  - reflexivity.
  - reflexivity.
  - reflexivity.
  - reflexivity.
Defined.

Lemma reconnect_without_broker_witness :
  exists w',
    reconnect 1 1200 unconfigured_world = Done false w'
    /\ _nextReconnect (session w') = 75000
    /\ trace w' = [].
Proof.
  destruct (reconnect_without_broker 0 1200 unconfigured_world)
    as (w' & Hr & Hn & _ & Ht & _); [reflexivity|reflexivity|reflexivity|].
  exists w'. split; [exact Hr|]. split; [exact Hn|exact Ht].
Defined.


(** C3: the quiet window does not hold across the wrap of the 32-bit
    clock. A connect that reads the clock 900 ms before the wrap
    stores 1100 as the end of the window; a message handled 500 ms
    after the connect, at a clock reading of 2^32 - 400, is delivered
    to both registered receivers. *)
Theorem quiet_window_lost_at_clock_wrap :
  exists w1 w2,
    reconnect 1 1200 wrap_world = Done true w1
    /\ clock (board w1) = 2 ^ 32 - 900
    /\ _ignoreSubscriptionsTs (session w1) = 1100
    /\ next_millis (board w1) = clock (board w1) + 500
    /\ onMqttDataReceivedCallback "nuki/lock/action" (text "unlock") 0 6 w1
       = Done tt w2
    /\ filter is_deliver (trace w2)
       = [Deliver 0 "nuki/lock/action" (truncated (text "unlock")) 0;
          Deliver 1 "nuki/lock/action" (truncated (text "unlock")) 0].
Proof.
  eexists. eexists.
  split; [vm_compute; reflexivity|].
  split; [vm_compute; reflexivity|].
  split; [vm_compute; reflexivity|].
  split; [vm_compute; reflexivity|].
  split; [vm_compute; reflexivity|].
  vm_compute. reflexivity.
Qed.

Lemma resubscribes_in_insertion_order_witness :
  exists w1 w' name ip,
    handshake 1200 1883 a_world = Done tt w1
    /\ attempt 1200 1883 a_world = Done None w'
    /\ filter is_subscribe (connected_events name ip w1)
       = [MqttSubscribe "nuki/gpio/pin_17/state" 1; MqttSubscribe "nuki/lock/action" 1].
Proof.
  destruct (resubscribes_in_insertion_order 1200 1883 a_world)
    as [(w1 & Hh & Hup) _].
  - discriminate.
  - lia.
  - split; [|split]; [vm_compute; discriminate|apply Forall_nil|vm_compute; reflexivity].
  - assert (Hc : dev_mqttConnected (device w1) = true).
    { assert (Hd : final (handshake 1200 1883 a_world) = Some w1)
        by (rewrite Hh; reflexivity).
      vm_compute in Hd. injection Hd as <-. reflexivity. }
    destruct (Hup Hc) as (w' & name & ip & Ha & _ & Hs & _).
    exists w1, w', name, ip. split; [exact Hh|]. split; [exact Ha|].
    rewrite Hs.
    assert (Hd : final (handshake 1200 1883 a_world) = Some w1)
      by (rewrite Hh; reflexivity).
    vm_compute in Hd. injection Hd as <-. reflexivity.
Defined.

Lemma critical_failure_falls_back_to_wifi_witness :
  exists w',
    update 1 1200 broken_world = Restarted NetworkDeviceCriticalFailure w'
    /\ WiFi_fallbackDetect (board w') = "wifi_fallback"
    /\ exists b',
         Boot.setupDevice
           (set_preferences (mkPreferences 4 false 1883 false "")
                            (Boot.reboot (board w')))
         = Done WiFi b'.
Proof.
  destruct (critical_failure_falls_back_to_wifi
              1 1200 broken_world (read_clock broken_world) 70000)
    as (w' & Hr & Hm & Hboot).
  - vm_compute. reflexivity.
  - reflexivity.
  - reflexivity.
  - discriminate.
  - reflexivity.
  - exists w'. split; [exact Hr|]. split; [exact Hm|].
    apply Hboot. reflexivity.
Defined.

Lemma failed_attempt_backs_off_witness :
  exists w1 w',
    handshake 1200 1883 refused_world = Done tt w1
    /\ attempt 1200 1883 refused_world = Done None w'
    /\ _mqttConnectionState (session w') = 0
    /\ trace w' = trace w1 ++ [PrintError; MqttDisconnect true].
Proof.
  destruct (failed_attempt_backs_off 1200 1883 refused_world)
    as (w1 & Hh & Hdown).
  - discriminate.
  - lia.
  - split; [|split]; [vm_compute; discriminate|apply Forall_nil|vm_compute; reflexivity].
  - assert (Hc : dev_mqttConnected (device w1) = false).
    { assert (Hd : final (handshake 1200 1883 refused_world) = Some w1)
        by (rewrite Hh; reflexivity).
      vm_compute in Hd. injection Hd as <-. reflexivity. }
    destruct (Hdown Hc) as (w' & Ha & Hs & _ & Ht & _).
    exists w1, w'. auto.
Defined.

(** C9, as the specification states it, fails for the length: two
    messages of 60 and of 70 bytes that agree on their first 49 bytes
    are delivered to the receivers in the same way; what the receivers
    are handed is the truncated buffer and the index. *)
Lemma payload_length_hidden_from_receivers :
  length (repeat "a"%char 60) <> length (repeat "a"%char 70)
  /\ onMqttDataReceivedCallback "nuki/lock/action" (repeat "a"%char 60) 0 60 a_world
     = onMqttDataReceivedCallback "nuki/lock/action" (repeat "a"%char 70) 0 70 a_world
  /\ option_map trace
       (final (onMqttDataReceivedCallback "nuki/lock/action" (repeat "a"%char 60) 0 60 a_world))
     = Some [Deliver 0 "nuki/lock/action" (repeat "a"%char 49 ++ [zero]) 0;
             Deliver 1 "nuki/lock/action" (repeat "a"%char 49 ++ [zero]) 0].
Proof.
  split; [vm_compute; discriminate|]. split; vm_compute; reflexivity.
Qed.

Lemma disabled_mqtt_update_only_pumps_witness :
  exists w1 w2,
    for_each [CallSubscribe "nuki" "/lock/action"; CallUpdate 1 1200] exec disabled_world
    = Done tt w1
    /\ update 1 1200 w1 = Done true w2
    /\ trace w2 = trace w1
    /\ _mqttEnabled (session w2) = false.
Proof.
  assert (Hrun : exists w1,
    for_each [CallSubscribe "nuki" "/lock/action"; CallUpdate 1 1200] exec disabled_world
    = Done tt w1 /\ device w1 = device disabled_world /\ _messageHandler (registry w1) = false).
  { eexists. split; [vm_compute; reflexivity|]. split; reflexivity. }
  destruct Hrun as (w1 & Hrun & Hdev & Hmh).
  destruct (proj2 disabled_mqtt_update_only_pumps
                  disabled_world _ w1 1%nat 1200%nat eq_refl Hrun)
    as (w2 & Hp & Hu & Hpumped & Hoff).
  exists w1, w2. split; [exact Hrun|]. split; [exact Hu|]. split; [|exact Hoff].
  unfold pump, bind in Hp. cbn [millis] in Hp.
  unfold device_update in Hp. cbn [with_board device] in Hp. rewrite Hdev in Hp.
  cbn in Hp. injection Hp as <-. reflexivity.
Defined.

End Scenarios.

(** ** Further scenarios, run on the scripted transport *)

Section MoreScenarios.

Import Mock.
Import Scenes.

Local Open Scope Z_scope.


Lemma gpio_topic_tail_not_examined_witness :
  parseGpioTopics "nuki/gpio/pin_17/anything/behind" (text "1") a_world
  = Done tt (add_events [DigitalWrite 17 true] a_world).
Proof.
  apply (gpio_topic_tail_not_examined a_world 17 "/anything/behind" (text "1")).
  - lia.
  - reflexivity.
  - left. lia.
Defined.

Lemma truncated_reads_as_c_string_witness :
  C.cstr (truncated (text "on")) = "on".
Proof.
  apply (proj2 (truncated_reads_as_c_string (text "on"))).
  repeat constructor; discriminate.
Defined.

Lemma gpio_level_of_payload_witness :
  String.eqb (C.cstr (truncated (text "1"))) "1" = true.
Proof.
  apply (proj1 (gpio_level_of_payload (text "1"))).
  - repeat constructor; discriminate.
  - reflexivity.
Defined.


Lemma wifi_fallback_lasts_until_cleared_witness :
  exists b',
    Boot.setupDevice (fallback_board false) = Done WiFi b'
    /\ WiFi_fallbackDetect b' = "wifi_fallback"
    /\ Boot.setupDevice (Boot.reboot b') = Done WiFi (Boot.reboot b')
    /\ exists w',
         clearWifiFallback (with_board (fun _ => b') fallback_world) = Done tt w'
         /\ Boot.setupDevice (Boot.reboot (board w'))
            = Done (Boot.device_of_hardware
                      (preference_network_hardware (preferences b')))
                   (Boot.reboot (board w')).
Proof.
  apply (wifi_fallback_lasts_until_cleared fallback_world); reflexivity.
Defined.

Lemma disabled_fallback_restarts_once_witness :
  exists b',
    Boot.setupDevice (fallback_board true)
    = Restarted NetworkDeviceCriticalFailureNoWifiFallback b'
    /\ WiFi_fallbackDetect b' = ""
    /\ Boot.setupDevice (Boot.reboot b') = Done W5500 (Boot.reboot b').
Proof.
  destruct (disabled_fallback_restarts_once (fallback_board true))
    as (b' & Hrun & Hmarker & Hnext); [reflexivity|reflexivity|].
  exists b'. split; [exact Hrun|]. split; [exact Hmarker|].
  rewrite Hnext. injection Hrun as <-. reflexivity.
Defined.

Lemma reconnect_waits_for_deadline_witness :
  reconnect 3 1200 backoff_world
  = Done false (read_clock (with_session (set_mqttConnectionState 0) backoff_world)).
Proof.
  apply (proj1 (reconnect_waits_for_deadline 3 1200 backoff_world)).
  - reflexivity.
  - vm_compute. discriminate.
Defined.

Lemma reconnect_reports_connection_state_witness :
  exists w',
    reconnect 1 3 a_world = Done true w'
    /\ _mqttConnectionState (session w') = 2.
Proof.
  destruct (reconnect 1 3 a_world) as [connected w'| |] eqn:Hrun;
    [|vm_compute in Hrun; discriminate..].
  pose proof (reconnect_reports_connection_state 1 3 a_world w' connected Hrun)
    as Hstate.
  vm_compute in Hrun. injection Hrun as <- Hw.
  exists w'. split; [reflexivity|exact Hstate].
Defined.

Lemma update_records_connected_tick_witness :
  exists w',
    update 1 3 connected_world = Done true w'
    /\ _lastConnectedTs (session w') = 70000.
Proof.
  destruct (update 1 3 connected_world) as [result w'| |] eqn:Hrun;
    [|vm_compute in Hrun; discriminate..].
  pose proof (update_records_connected_tick 1 3 connected_world w' result Hrun)
    as Htick.
  vm_compute in Hrun. injection Hrun as <- Hw.
  exists w'. split; [reflexivity|exact Htick].
Defined.

Lemma disconnect_watchdog_restarts_witness :
  update 1 3 link_down_world
  = Restarted RestartOnDisconnectWatchdog (read_clock (read_clock link_down_world)).
Proof.
  apply (disconnect_watchdog_restarts
           1 3 link_down_world (read_clock link_down_world) 70000).
  - vm_compute. reflexivity.
  - reflexivity.
  - reflexivity.
  - reflexivity.
  - vm_compute. reflexivity.
Defined.

Lemma update_restarts_without_watchdogs_witness :
  restart_reason (update 1 3 broken_world) = Some NetworkDeviceCriticalFailure.
Proof.
  destruct (update 1 3 broken_world) as [| reason w' |] eqn:Hrun;
    [vm_compute in Hrun; discriminate| |vm_compute in Hrun; discriminate].
  cbn [restart_reason]. f_equal.
  apply (proj2 update_restarts_without_watchdogs 1%nat 3%nat broken_world w' reason).
  - vm_compute. discriminate.
  - reflexivity.
  - exact Hrun.
Defined.

Lemma update_never_sets_marker_witness :
  exists w',
    final (update 1 3 recovering_world) = Some w'
    /\ (WiFi_fallbackDetect (board w') = "wifi_fallback"
        \/ WiFi_fallbackDetect (board w') = "").
Proof.
  destruct (update 1 3 recovering_world) as [result w'| |] eqn:Hrun;
    [|vm_compute in Hrun; discriminate..].
  exists w'. split; [reflexivity|].
  exact (update_never_sets_marker 1 3 recovering_world w' result Hrun).
Defined.


Lemma removeHASSConfig_publishes_tombstones_witness :
  exists w',
    removeHASSConfig "homeassistant" "1A2B3C4D" a_world = Done tt w'
    /\ nth_error (trace w') 0
       = Some (MqttPublish "homeassistant/lock/1A2B3C4D/smartlock/config"
                           MQTT_QOS_LEVEL true "")
    /\ length (trace w') = 38%nat.
Proof.
  destruct (proj2 (removeHASSConfig_publishes_tombstones
                     "homeassistant" "1A2B3C4D" a_world))
    as (w' & Hrun & Htrace & _); [discriminate|].
  exists w'. split; [exact Hrun|]. rewrite Htrace. split; reflexivity.
Defined.

Lemma presence_slot_is_consumed_witness :
  exists w',
    publish_presence presence_world = Done tt w'
    /\ _presenceCsv (telemetry w') = None
    /\ trace w' = [MqttPublish "nuki/presence/presence/devices" MQTT_QOS_LEVEL true
                               "aa:bb:cc:dd:ee:ff;phone;-60"].
Proof.
  apply (proj1 (presence_slot_is_consumed presence_world)
           "aa:bb:cc:dd:ee:ff;phone;-60").
  - reflexivity.
  - discriminate.
Defined.

Lemma quiet_window_holds_without_wrap_witness :
  exists w',
    onMqttDataReceivedCallback "nuki/gpio/pin_17/state" (text "1") 0 1 quiet_world
    = Done tt w'
    /\ trace w' = [DigitalWrite 17 true].
Proof.
  destruct (proj2 quiet_window_holds_without_wrap
              quiet_world 70000 "nuki/gpio/pin_17/state" (text "1") 0 1)
    as (w' & Hr & _ & _ & Hpin);
    [lia|vm_compute; reflexivity|reflexivity|vm_compute; reflexivity|].
  exists w'. split; [exact Hr|].
  apply (Hpin 17); [lia|reflexivity|reflexivity].
Defined.

Lemma gpio_edge_is_debounced_witness :
  exists w',
    (gpioActionCallback 4 ;;; publish_gpio) edge_world = Done tt w'
    /\ trace w' = [MqttPublish "nuki/gpio/pin_4/state" MQTT_QOS_LEVEL true "0"]
    /\ _gpioTs (telemetry w') = [(4, 0)].
Proof.
  apply (gpio_edge_is_debounced 4 edge_world).
  - cbn. split; [apply Forall_nil|exact I].
  - repeat constructor.
Defined.

End MoreScenarios.
